(** * Task Manager: domain entities, application services and their properties

    A shallow embedding of [src/domain/entities.py], [src/domain/exceptions.py],
    [src/application/dto.py] and [src/application/services.py]
    (whose [AuthService] is the same code as [src/application/auth_service.py]).

    - Python [int] is [Z]; [Optional[T]] is [option T]; [str] is [string].
    - A naive [datetime], as [datetime.utcnow()] returns it, is a number of
      microseconds counted from [datetime.min], in [Z]; a [due_date], which
      comes in with a request, is naive or aware of its UTC offset.
    - Python [float] is IEEE 754 binary64, the kernel's primitive [float].
    - A raised exception is the left injection of a result; services run in a
      state-and-exception monad over a world made of the database session,
      the wall clock and the log. The libraries the services call (passlib,
      jose) answer or raise.
    - The repositories are the abstract classes of [src/domain/repositories.py],
      here type classes over the type of database states. *)

From Stdlib Require Import ZArith List String Ascii Bool Lia QArith Qabs.
From Stdlib Require Import Floats.PrimFloat Floats.FloatOps Floats.SpecFloat.
From Stdlib Require Import Numbers.Cyclic.Int63.Uint63.
From Stdlib Require Import Numbers.DecimalString.
Import ListNotations.

Local Open Scope string_scope.
Local Open Scope Z_scope.

(** ** Python values *)

(** A naive [datetime], the kind [datetime.utcnow()] returns: the microseconds
    since [datetime.min], 0001-01-01T00:00:00. *)
Definition datetime := Z.

(** Truthiness of an [Optional[int]]: [None] and [0] are falsy. *)
Definition truthy_int (o : option Z) : bool :=
  match o with
  | Some n => negb (n =? 0)
  | None => false
  end.

(** Truthiness of an [Optional[str]]: [None] and the empty string are falsy. *)
Definition truthy_str (o : option string) : bool :=
  match o with
  | Some EmptyString => false
  | Some _ => true
  | None => false
  end.

(** Truthiness of an [Optional] entity or datetime: only [None] is falsy. *)
Definition is_some {A : Type} (o : option A) : bool :=
  match o with
  | Some _ => true
  | None => false
  end.

(** [a == b] and [a != b] on [Optional[int]]. *)
Definition opt_int_eqb (a b : option Z) : bool :=
  match a, b with
  | Some x, Some y => x =? y
  | None, None => true
  | _, _ => false
  end.

(** [str(x)] for an [Optional[int]]. *)
Definition str_int (z : Z) : string := NilZero.string_of_int (Z.to_int z).

Definition str_opt_int (o : option Z) : string :=
  match o with
  | Some z => str_int z
  | None => "None"
  end.

(** [sum(1 for x in xs if p(x))]: the generator yields a [1] for each element
    that passes, and [sum] adds them up from [0]. *)
Definition sum_ones {A : Type} (p : A -> bool) (xs : list A) : Z :=
  fold_left Z.add (map (fun _ => 1) (filter p xs)) 0.

(** [len(xs)] *)
Definition len {A : Type} (xs : list A) : Z := Z.of_nat (List.length xs).

(** [a / b] on two non-negative ints below [2^53]: both convert to binary64
    without rounding and the quotient is rounded once. (The caller guards
    [b = 0].) *)
Definition float_of_int (z : Z) : float := PrimFloat.of_uint63 (Uint63.of_Z z).

Definition truediv (a b : Z) : float := PrimFloat.div (float_of_int a) (float_of_int b).

(** The rational number a finite binary64 value stands for. *)
Definition float_value (f : float) : option Q :=
  match Prim2SF f with
  | S754_zero _ => Some 0%Q
  | S754_finite s m e =>
      let mz := if s then Z.neg m else Z.pos m in
      Some (if (0 <=? e)%Z then inject_Z (mz * 2 ^ e) else (mz # Pos.pow 2 (Z.to_pos (- e))))
  | _ => None
  end.

(** ** Exceptions ([src/domain/exceptions.py]) *)

Inductive Exn :=
| TaskListNotFoundError (task_list_id : Z)
| TaskNotFoundError (task_id : Z)
| UserNotFoundError (user_id : Z)
| AuthenticationError (message : string)
| AuthorizationError (message : string)
| EmailAlreadyExistsError (email : string)
| UsernameAlreadyExistsError (username : string)
| TaskAssignmentError (message : string)
(** pydantic's own error: a required field of a DTO was given [None] *)
| PydanticValidationError
(** an attribute read on [None] *)
| AttributeError
(** a naive datetime compared with an aware one *)
| TypeError
(** a [timedelta], or a date, out of range *)
| OverflowError
(** any other exception, raised by a collaborator *)
| Exception (message : string).

(** [TaskManagerException.message], as the constructors of the hierarchy build
    it; [None] outside the hierarchy. *)
Definition message (e : Exn) : option string :=
  match e with
  | TaskListNotFoundError i => Some ("TaskList with id " ++ str_int i ++ " not found")
  | TaskNotFoundError i => Some ("Task with id " ++ str_int i ++ " not found")
  | UserNotFoundError i => Some ("User with id " ++ str_int i ++ " not found")
  | AuthenticationError m => Some m
  | AuthorizationError m => Some m
  | EmailAlreadyExistsError v => Some ("User with email '" ++ v ++ "' already exists")
  | UsernameAlreadyExistsError v => Some ("User with username '" ++ v ++ "' already exists")
  | TaskAssignmentError m => Some ("Task assignment error: " ++ m)
  | PydanticValidationError | AttributeError | TypeError | OverflowError | Exception _ => None
  end.

(** [TaskManagerException.error_code]; [None] outside the hierarchy. *)
Definition error_code (e : Exn) : option string :=
  match e with
  | TaskListNotFoundError _ | TaskNotFoundError _ | UserNotFoundError _ => Some "ENTITY_NOT_FOUND"
  | AuthenticationError _ => Some "AUTHENTICATION_ERROR"
  | AuthorizationError _ => Some "AUTHORIZATION_ERROR"
  | EmailAlreadyExistsError _ | UsernameAlreadyExistsError _ => Some "DUPLICATE_ENTITY"
  | TaskAssignmentError _ => Some "BUSINESS_RULE_VIOLATION"
  | PydanticValidationError | AttributeError | TypeError | OverflowError | Exception _ => None
  end.

(** The outcome of a call: [inl e] when [e] was raised, [inr v] when [v] was returned. *)
Definition Result (A : Type) : Type := (Exn + A)%type.

(** A keyword argument for a required field: [None] fails pydantic's validation. *)
Definition required {A : Type} (o : option A) : Result A :=
  match o with
  | Some a => inr a
  | None => inl PydanticValidationError
  end.

(** [[x for x in xs if p(x)]]: the condition is evaluated on each element in
    turn, and what it raises ends the comprehension. *)
Fixpoint comprehension {A : Type} (p : A -> Result bool) (xs : list A) : Result (list A) :=
  match xs with
  | [] => inr []
  | x :: xs' =>
      match p x with
      | inl e => inl e
      | inr keep =>
          match comprehension p xs' with
          | inl e => inl e
          | inr ys => inr (if keep then x :: ys else ys)
          end
      end
  end.

(** ** Python datetimes *)

(** A [datetime] a request carries. pydantic keeps the offset of a timestamp
    that has one (["2024-01-01T00:00:00Z"], ["...+02:00"]), which makes the
    datetime aware; a timestamp without offset gives a naive one. [d] is the
    wall-clock reading, [utcoffset] the offset in microseconds. *)
Inductive any_datetime :=
| naive (d : datetime)
| aware (d : datetime) (utcoffset : Z).

(** [a > b] for a naive [a]: Python orders two naive datetimes by their
    readings and refuses to order a naive and an aware one. *)
Definition naive_gt (a : datetime) (b : any_datetime) : Result bool :=
  match b with
  | naive d => inr (d <? a)
  | aware _ _ => inl TypeError
  end.

(** [datetime.max], 9999-12-31T23:59:59.999999: the last microsecond of day
    3652059 ([date.max.toordinal()]). *)
Definition datetime_max : datetime := 3652059 * 86400 * 1000000 - 1.

(** [timedelta(minutes=m)], in microseconds: a timedelta holds between
    [-999999999] and [999999999] whole days. *)
Definition timedelta_minutes (m : Z) : Result Z :=
  let days := m / 1440 in
  if (-999999999 <=? days) && (days <=? 999999999)
  then inr (m * 60 * 1000000)
  else inl OverflowError.

(** [d + timedelta(minutes=m)]: the sum must be a date between
    [datetime.min] and [datetime.max]. *)
Definition add_minutes (d : datetime) (m : Z) : Result datetime :=
  match timedelta_minutes m with
  | inl e => inl e
  | inr delta =>
      if (0 <=? d + delta) && (d + delta <=? datetime_max)
      then inr (d + delta)
      else inl OverflowError
  end.

(** ** Domain entities ([src/domain/entities.py]) *)

Inductive TaskStatus := PENDING | IN_PROGRESS | COMPLETED | CANCELLED.

Inductive TaskPriority := LOW | MEDIUM | HIGH | CRITICAL.

Definition TaskStatus_eqb (a b : TaskStatus) : bool :=
  match a, b with
  | PENDING, PENDING | IN_PROGRESS, IN_PROGRESS
  | COMPLETED, COMPLETED | CANCELLED, CANCELLED => true
  | _, _ => false
  end.

Definition TaskPriority_eqb (a b : TaskPriority) : bool :=
  match a, b with
  | LOW, LOW | MEDIUM, MEDIUM | HIGH, HIGH | CRITICAL, CRITICAL => true
  | _, _ => false
  end.

Module User.
Record t := mk {
  id : option Z;
  email : string;
  username : string;
  full_name : option string;
  hashed_password : string;
  is_active : bool;
  created_at : option datetime;
  updated_at : option datetime
}.
End User.

Module Task.
Record t := mk {
  id : option Z;
  title : string;
  description : option string;
  status : TaskStatus;
  priority : TaskPriority;
  task_list_id : Z;
  assigned_to : option Z;
  created_at : option datetime;
  updated_at : option datetime;
  due_date : option any_datetime
}.

(** [Task.is_overdue]; [now] is what [datetime.utcnow()] returns. The
    comparison is made first, whatever the status. *)
Definition is_overdue (now : datetime) (self : t) : Result bool :=
  match due_date self with
  | None => inr false
  | Some due_date =>
      match naive_gt now due_date with
      | inl e => inl e
      | inr late => inr (late && negb (TaskStatus_eqb (status self) COMPLETED))
      end
  end.

Definition set_title (v : string) (x : t) : t :=
  mk (id x) v (description x) (status x) (priority x) (task_list_id x)
     (assigned_to x) (created_at x) (updated_at x) (due_date x).
Definition set_description (v : option string) (x : t) : t :=
  mk (id x) (title x) v (status x) (priority x) (task_list_id x)
     (assigned_to x) (created_at x) (updated_at x) (due_date x).
Definition set_status (v : TaskStatus) (x : t) : t :=
  mk (id x) (title x) (description x) v (priority x) (task_list_id x)
     (assigned_to x) (created_at x) (updated_at x) (due_date x).
Definition set_priority (v : TaskPriority) (x : t) : t :=
  mk (id x) (title x) (description x) (status x) v (task_list_id x)
     (assigned_to x) (created_at x) (updated_at x) (due_date x).
Definition set_assigned_to (v : option Z) (x : t) : t :=
  mk (id x) (title x) (description x) (status x) (priority x) (task_list_id x)
     v (created_at x) (updated_at x) (due_date x).
Definition set_updated_at (v : option datetime) (x : t) : t :=
  mk (id x) (title x) (description x) (status x) (priority x) (task_list_id x)
     (assigned_to x) (created_at x) v (due_date x).
Definition set_due_date (v : option any_datetime) (x : t) : t :=
  mk (id x) (title x) (description x) (status x) (priority x) (task_list_id x)
     (assigned_to x) (created_at x) (updated_at x) v.
Definition set_id (v : option Z) (x : t) : t :=
  mk v (title x) (description x) (status x) (priority x) (task_list_id x)
     (assigned_to x) (created_at x) (updated_at x) (due_date x).

(** [Task.can_be_assigned_to] *)
Definition can_be_assigned_to (self : t) (user_id : Z) : bool := 0 <? user_id.

(** [Task.mark_as_completed]; [now] is what [datetime.utcnow()] returns. *)
Definition mark_as_completed (now : datetime) (self : t) : t :=
  set_updated_at (Some now) (set_status COMPLETED self).

(** [Task.change_priority] *)
Definition change_priority (now : datetime) (new_priority : TaskPriority) (self : t) : t :=
  set_updated_at (Some now) (set_priority new_priority self).
End Task.

Module TaskList.
Record t := mk {
  id : option Z;
  name : string;
  description : option string;
  owner_id : Z;
  created_at : option datetime;
  updated_at : option datetime;
  tasks : list Task.t
}.

(** [TaskList.calculate_completion_percentage] *)
Definition calculate_completion_percentage (self : t) : float :=
  match tasks self with
  | [] => 0%float
  | _ :: _ =>
      let completed_tasks :=
        sum_ones (fun task => TaskStatus_eqb (Task.status task) COMPLETED) (tasks self) in
      PrimFloat.mul (truediv completed_tasks (len (tasks self))) 100%float
  end.

Definition set_name (v : string) (x : t) : t :=
  mk (id x) v (description x) (owner_id x) (created_at x) (updated_at x) (tasks x).
Definition set_description (v : option string) (x : t) : t :=
  mk (id x) (name x) v (owner_id x) (created_at x) (updated_at x) (tasks x).
Definition set_updated_at (v : option datetime) (x : t) : t :=
  mk (id x) (name x) (description x) (owner_id x) (created_at x) v (tasks x).
Definition set_id (v : option Z) (x : t) : t :=
  mk v (name x) (description x) (owner_id x) (created_at x) (updated_at x) (tasks x).
End TaskList.

(** ** Data transfer objects ([src/application/dto.py]) *)

Module UserCreateDTO.
Record t := mk {
  email : string;
  username : string;
  full_name : option string;
  password : string
}.
End UserCreateDTO.

Module UserResponseDTO.
Record t := mk {
  id : Z;
  email : string;
  username : string;
  full_name : option string;
  is_active : bool;
  created_at : datetime;
  updated_at : option datetime
}.

(** [UserResponseDTO(id=u.id, email=u.email, ..., updated_at=u.updated_at)] *)
Definition of_user (u : User.t) : Result t :=
  match required (User.id u), required (User.created_at u) with
  | inr i, inr c =>
      inr (mk i (User.email u) (User.username u) (User.full_name u)
              (User.is_active u) c (User.updated_at u))
  | inl e, _ => inl e
  | _, inl e => inl e
  end.
End UserResponseDTO.

Module LoginDTO.
Record t := mk {
  email : string;
  password : string
}.
End LoginDTO.

Module TokenResponseDTO.
Record t := mk {
  access_token : string;
  token_type : string;
  expires_in : Z
}.
End TokenResponseDTO.

Module TaskListUpdateDTO.
Record t := mk {
  name : option string;
  description : option string
}.
End TaskListUpdateDTO.

Module TaskListResponseDTO.
Record t := mk {
  id : Z;
  name : string;
  description : option string;
  owner_id : Z;
  created_at : datetime;
  updated_at : option datetime;
  completion_percentage : float;
  task_count : Z
}.

(** [TaskListResponseDTO(id=l.id, ..., completion_percentage=p, task_count=n)] *)
Definition of_task_list (l : TaskList.t) (p : float) (n : Z) : Result t :=
  match required (TaskList.id l), required (TaskList.created_at l) with
  | inr i, inr c =>
      inr (mk i (TaskList.name l) (TaskList.description l) (TaskList.owner_id l)
              c (TaskList.updated_at l) p n)
  | inl e, _ => inl e
  | _, inl e => inl e
  end.
End TaskListResponseDTO.

Module TaskCreateDTO.
Record t := mk {
  title : string;
  description : option string;
  task_list_id : Z;
  priority : TaskPriority;
  assigned_to : option Z;
  due_date : option any_datetime
}.
End TaskCreateDTO.

Module TaskUpdateDTO.
Record t := mk {
  title : option string;
  description : option string;
  priority : option TaskPriority;
  assigned_to : option Z;
  due_date : option any_datetime
}.
End TaskUpdateDTO.

Module TaskResponseDTO.
Record t := mk {
  id : Z;
  title : string;
  description : option string;
  status : TaskStatus;
  priority : TaskPriority;
  task_list_id : Z;
  assigned_to : option Z;
  created_at : datetime;
  updated_at : option datetime;
  due_date : option any_datetime;
  is_overdue : bool;
  assignee : option UserResponseDTO.t
}.

(** [TaskResponseDTO(id=task.id, title=task.title, ..., is_overdue=o, assignee=a)],
    where [o] is the outcome of the one argument that is a call,
    [task.is_overdue()]: the arguments are evaluated before the constructor
    validates, so what the call raises comes first. *)
Definition of_task (task : Task.t) (o : Result bool) (a : option UserResponseDTO.t)
    : Result t :=
  match o with
  | inl e => inl e
  | inr o =>
      match required (Task.id task), required (Task.created_at task) with
      | inr i, inr c =>
          inr (mk i (Task.title task) (Task.description task) (Task.status task)
                  (Task.priority task) (Task.task_list_id task) (Task.assigned_to task)
                  c (Task.updated_at task) (Task.due_date task) o a)
      | inl e, _ => inl e
      | _, inl e => inl e
      end
  end.
End TaskResponseDTO.

Module TaskStatusUpdateDTO.
Record t := mk { status : TaskStatus }.
End TaskStatusUpdateDTO.

Module TaskListWithTasksDTO.
Record t := mk {
  id : Z;
  name : string;
  description : option string;
  owner_id : Z;
  created_at : datetime;
  updated_at : option datetime;
  completion_percentage : float;
  tasks : list TaskResponseDTO.t
}.

Definition of_task_list (l : TaskList.t) (p : float) (ts : list TaskResponseDTO.t) : Result t :=
  match required (TaskList.id l), required (TaskList.created_at l) with
  | inr i, inr c =>
      inr (mk i (TaskList.name l) (TaskList.description l) (TaskList.owner_id l)
              c (TaskList.updated_at l) p ts)
  | inl e, _ => inl e
  | _, inl e => inl e
  end.
End TaskListWithTasksDTO.

Module PaginationDTO.
Record t := mk {
  skip : Z;
  limit : Z
}.
End PaginationDTO.

Module TaskFilterDTO.
Record t := mk {
  status : option TaskStatus;
  priority : option TaskPriority;
  assigned_to : option Z;
  overdue_only : bool
}.
End TaskFilterDTO.

Module EmailNotificationDTO.
Record t := mk {
  to_email : string;
  subject : string;
  body : string;
  task_id : option Z;
  user_id : option Z
}.
End EmailNotificationDTO.

(** ** The world a service call runs in *)

(** What [logger.info] is called with: one constructor per call site of
    [src/application/services.py], carrying the interpolated values. *)
Inductive LogRecord :=
| UserRegistered (email : string)
| UserAuthenticated (email : string)
| TaskListUpdated (task_list_id user_id : Z)
| TaskListDeleted (task_list_id user_id : Z)
| TaskCreated (task_id : option Z) (task_list_id : Z)
| TaskUpdated (task_id user_id : Z)
| TaskStatusUpdated (task_id : Z) (status : TaskStatus) (user_id : Z)
| TaskDeleted (task_id user_id : Z)
| EmailDisabled
| SendingEmail (to_email subject : string).

(** [db] is the state behind the three repositories, [now] what
    [datetime.utcnow()] reads (one call is served at one instant), [log] the
    records logged so far, oldest first. *)
Record World (S : Type) := mkWorld {
  db : S;
  now : datetime;
  log : list LogRecord
}.

Arguments mkWorld {S}.
Arguments db {S}.
Arguments now {S}.
Arguments log {S}.

(** A service call: from a world to an outcome and the world it leaves. A raised
    exception keeps the effects made before it. *)
Definition M (S A : Type) : Type := World S -> Result A * World S.

Definition ret {S A : Type} (a : A) : M S A := fun w => (inr a, w).

Definition bind {S A B : Type} (m : M S A) (k : A -> M S B) : M S B :=
  fun w =>
    match m w with
    | (inr a, w') => k a w'
    | (inl e, w') => (inl e, w')
    end.

Definition raise {S A : Type} (e : Exn) : M S A := fun w => (inl e, w).

Declare Scope svc_scope.
Delimit Scope svc_scope with svc.
Notation "x <- m ;; k" := (bind m (fun x => k))
  (at level 61, m at next level, right associativity) : svc_scope.
Notation "m ;;; k" := (bind m (fun _ => k))
  (at level 61, right associativity) : svc_scope.
Local Open Scope svc_scope.

(** [if c: m] *)
Definition when {S : Type} (c : bool) (m : M S unit) : M S unit :=
  if c then m else ret tt.

(** [if not x: raise e], then [x] is known to be there. *)
Definition or_raise {S A : Type} (x : option A) (e : Exn) : M S A :=
  match x with
  | Some a => ret a
  | None => raise e
  end.

(** [x.attr] on an [Optional] object. *)
Definition attr {S A B : Type} (x : option A) (f : A -> B) : M S B :=
  match x with
  | Some a => ret (f a)
  | None => raise AttributeError
  end.

(** The outcome of a constructor that validates. *)
Definition construct {S A : Type} (r : Result A) : M S A := fun w => (r, w).

(** A repository read. *)
Definition query {S A : Type} (f : S -> A) : M S A := fun w => (inr (f (db w)), w).

(** A repository write. *)
Definition command {S A : Type} (f : S -> A * S) : M S A :=
  fun w => let (a, s) := f (db w) in (inr a, mkWorld s (now w) (log w)).

Definition utcnow {S : Type} : M S datetime := fun w => (inr (now w), w).

Definition logger_info {S : Type} (r : LogRecord) : M S unit :=
  fun w => (inr tt, mkWorld (db w) (now w) (log w ++ [r])%list).

(** [for x in xs: ys.append(f(x))] *)
Fixpoint for_each {S A B : Type} (f : A -> M S B) (xs : list A) : M S (list B) :=
  match xs with
  | [] => ret []
  | x :: xs' =>
      y <- f x ;;
      ys <- for_each f xs' ;;
      ret (y :: ys)
  end.

(** ** Repository interfaces ([src/domain/repositories.py]) *)

(** The abstract classes, over the type [S] of database states: a read is a
    function of the state, a write returns its answer and the new state. Only
    the methods the services call are listed. *)

Module UserRepository.
Class t (S : Type) := {
  create : User.t -> S -> User.t * S;
  get_by_id : Z -> S -> option User.t;
  get_by_email : string -> S -> option User.t;
  get_by_username : string -> S -> option User.t
}.
End UserRepository.

Module TaskListRepository.
Class t (S : Type) := {
  get_by_id : Z -> S -> option TaskList.t;
  get_by_owner : Z -> Z -> Z -> S -> list TaskList.t;
  update : TaskList.t -> S -> TaskList.t * S;
  delete : Z -> S -> bool * S
}.
End TaskListRepository.

Module TaskRepository.
Class t (S : Type) := {
  create : Task.t -> S -> Task.t * S;
  get_by_id : Z -> S -> option Task.t;
  (** [get_by_task_list(task_list_id, skip, limit, status, priority)] *)
  get_by_task_list :
    Z -> Z -> Z -> option TaskStatus -> option TaskPriority -> S -> list Task.t;
  update : Task.t -> S -> Task.t * S;
  delete : Z -> S -> bool * S;
  update_status : Z -> TaskStatus -> S -> Task.t * S
}.
End TaskRepository.

(** What [TaskService] needs of the [notification_service] it is given: a
    [send_email_notification] to await. *)
Module NotificationSender.
Class t (S : Type) := {
  send_email_notification : EmailNotificationDTO.t -> M S bool
}.
End NotificationSender.

(** [NotificationService(email_enabled).send_email_notification] *)
Definition NotificationService_send_email_notification {S : Type} (email_enabled : bool)
    (notification : EmailNotificationDTO.t) : M S bool :=
  if negb email_enabled then
    logger_info EmailDisabled ;;;
    ret false
  else
    logger_info (SendingEmail (EmailNotificationDTO.to_email notification)
                              (EmailNotificationDTO.subject notification)) ;;;
    ret true.

Definition NotificationService {S : Type} (email_enabled : bool) : NotificationSender.t S :=
  {| NotificationSender.send_email_notification :=
       NotificationService_send_email_notification email_enabled |}.

(** ** Application services ([src/application/services.py]) *)

(** A value of the JWT payload dict. *)
Inductive ClaimValue :=
| ClaimStr (s : string)
| ClaimInt (n : Z)
| ClaimTime (d : datetime).

(** [d.update({k: v})] on a dict kept in insertion order. *)
Fixpoint dict_update (d : list (string * ClaimValue)) (k : string) (v : ClaimValue)
    : list (string * ClaimValue) :=
  match d with
  | [] => [(k, v)]
  | (k', v') :: d' =>
      if String.eqb k' k then (k', v) :: d' else (k', v') :: dict_update d' k v
  end.

Module AuthService.
Record t := mk {
  secret_key : string;
  algorithm : string;
  access_token_expire_minutes : Z
}.
End AuthService.

Section Services.

Context {S : Type}.
Context {user_repository : UserRepository.t S}.
Context {task_list_repository : TaskListRepository.t S}.
Context {task_repository : TaskRepository.t S}.
Context {notification_service : NotificationSender.t S}.

(** passlib's [CryptContext.hash] and [CryptContext.verify], and jose's
    [jwt.encode(payload, key, algorithm)]. Each answers or raises: bcrypt
    refuses a password that holds a NUL character or is too long, [verify] a
    stored hash it cannot read, [encode] an algorithm or a key it cannot use. *)
Variable pwd_context_hash : string -> Result string.
Variable pwd_context_verify : string -> string -> Result bool.
Variable jwt_encode : list (string * ClaimValue) -> string -> string -> Result string.

Variable self : AuthService.t.

(** *** [AuthService] *)

Definition _hash_password (password : string) : Result string := pwd_context_hash password.

Definition _verify_password (plain_password hashed_password : string) : Result bool :=
  pwd_context_verify plain_password hashed_password.

Definition _create_access_token (data : list (string * ClaimValue)) : M S string :=
  let to_encode := data in
  t <- utcnow ;;
  expire <- construct (add_minutes t (AuthService.access_token_expire_minutes self)) ;;
  let to_encode := dict_update to_encode "exp" (ClaimTime expire) in
  construct (jwt_encode to_encode (AuthService.secret_key self) (AuthService.algorithm self)).

Definition register_user (user_data : UserCreateDTO.t) : M S UserResponseDTO.t :=
  existing_user <- query (UserRepository.get_by_email (UserCreateDTO.email user_data)) ;;
  when (is_some existing_user)
       (raise (EmailAlreadyExistsError (UserCreateDTO.email user_data))) ;;;
  existing_username <-
    query (UserRepository.get_by_username (UserCreateDTO.username user_data)) ;;
  when (is_some existing_username)
       (raise (UsernameAlreadyExistsError (UserCreateDTO.username user_data))) ;;;
  hashed_password <- construct (_hash_password (UserCreateDTO.password user_data)) ;;
  t <- utcnow ;;
  let user :=
    User.mk None (UserCreateDTO.email user_data) (UserCreateDTO.username user_data)
            (UserCreateDTO.full_name user_data) hashed_password true (Some t) None in
  created_user <- command (UserRepository.create user) ;;
  logger_info (UserRegistered (User.email created_user)) ;;;
  construct (UserResponseDTO.of_user created_user).

Definition authenticate_user (login_data : LoginDTO.t) : M S TokenResponseDTO.t :=
  user <- query (UserRepository.get_by_email (LoginDTO.email login_data)) ;;
  user <- (if negb (is_some user)
           then query (UserRepository.get_by_username (LoginDTO.email login_data))
           else ret user) ;;
  match user with
  | None => raise (AuthenticationError "Invalid credentials")
  | Some user =>
      verified <-
        construct (_verify_password (LoginDTO.password login_data)
                     (User.hashed_password user)) ;;
      if negb verified
      then raise (AuthenticationError "Invalid credentials")
      else
        when (negb (User.is_active user))
             (raise (AuthenticationError "User account is inactive")) ;;;
        access_token <-
          _create_access_token [("sub", ClaimStr (str_opt_int (User.id user)))] ;;
        logger_info (UserAuthenticated (User.email user)) ;;;
        ret (TokenResponseDTO.mk access_token "bearer"
               (AuthService.access_token_expire_minutes self * 60))
  end.

(** *** [TaskListService] *)

(** The expression both [get_task_list] and [list_user_task_lists] compute
    from the tasks they fetched:
    [0.0], or [(completed_tasks / len(tasks)) * 100.0] [if tasks]. *)
Definition completion_percentage (tasks : list Task.t) : float :=
  match tasks with
  | [] => 0%float
  | _ :: _ =>
      let completed_tasks :=
        sum_ones (fun task => TaskStatus_eqb (Task.status task) COMPLETED) tasks in
      PrimFloat.mul (truediv completed_tasks (len tasks)) 100%float
  end.

(** [TaskResponseDTO(..., is_overdue=task.is_overdue())] *)
Definition task_response (task : Task.t) : M S TaskResponseDTO.t :=
  t <- utcnow ;;
  construct (TaskResponseDTO.of_task task (Task.is_overdue t task) None).

Definition get_task_list (task_list_id user_id : Z) : M S TaskListWithTasksDTO.t :=
  task_list <- query (TaskListRepository.get_by_id task_list_id) ;;
  task_list <- or_raise task_list (TaskListNotFoundError task_list_id) ;;
  when (negb (TaskList.owner_id task_list =? user_id))
       (raise (AuthorizationError "You don't have access to this task list")) ;;;
  tasks <- query (TaskRepository.get_by_task_list task_list_id 0 100 None None) ;;
  task_responses <- for_each task_response tasks ;;
  construct (TaskListWithTasksDTO.of_task_list task_list (completion_percentage tasks)
               task_responses).

Definition update_task_list (task_list_id : Z) (update_data : TaskListUpdateDTO.t)
    (user_id : Z) : M S TaskListResponseDTO.t :=
  task_list <- query (TaskListRepository.get_by_id task_list_id) ;;
  task_list <- or_raise task_list (TaskListNotFoundError task_list_id) ;;
  when (negb (TaskList.owner_id task_list =? user_id))
       (raise (AuthorizationError "You don't have access to this task list")) ;;;
  let task_list :=
    match TaskListUpdateDTO.name update_data with
    | Some v => TaskList.set_name v task_list
    | None => task_list
    end in
  let task_list :=
    match TaskListUpdateDTO.description update_data with
    | Some v => TaskList.set_description (Some v) task_list
    | None => task_list
    end in
  t <- utcnow ;;
  let task_list := TaskList.set_updated_at (Some t) task_list in
  updated_task_list <- command (TaskListRepository.update task_list) ;;
  logger_info (TaskListUpdated task_list_id user_id) ;;;
  construct (TaskListResponseDTO.of_task_list updated_task_list
               (TaskList.calculate_completion_percentage updated_task_list) 0).

Definition delete_task_list (task_list_id user_id : Z) : M S bool :=
  task_list <- query (TaskListRepository.get_by_id task_list_id) ;;
  task_list <- or_raise task_list (TaskListNotFoundError task_list_id) ;;
  when (negb (TaskList.owner_id task_list =? user_id))
       (raise (AuthorizationError "You don't have access to this task list")) ;;;
  result <- command (TaskListRepository.delete task_list_id) ;;
  when result (logger_info (TaskListDeleted task_list_id user_id)) ;;;
  ret result.

(** The body of the loop of [list_user_task_lists]. The list's id goes to the
    repository and then to a required field of the response: on [None] the
    response cannot be built, whatever was fetched. *)
Definition task_list_response (task_list : TaskList.t) : M S TaskListResponseDTO.t :=
  task_list_id <- construct (required (TaskList.id task_list)) ;;
  tasks <- query (TaskRepository.get_by_task_list task_list_id 0 100 None None) ;;
  construct (TaskListResponseDTO.of_task_list task_list (completion_percentage tasks)
               (len tasks)).

Definition list_user_task_lists (user_id : Z) (pagination : PaginationDTO.t)
    : M S (list TaskListResponseDTO.t) :=
  task_lists <-
    query (TaskListRepository.get_by_owner user_id (PaginationDTO.skip pagination)
             (PaginationDTO.limit pagination)) ;;
  for_each task_list_response task_lists.

(** *** [TaskService] *)

(** [TaskService._send_assignment_notification] *)
Definition _send_assignment_notification (task : Task.t) : M S unit :=
  if negb (truthy_int (Task.assigned_to task)) then ret tt
  else
    user_id <- construct (required (Task.assigned_to task)) ;;
    assignee <- query (UserRepository.get_by_id user_id) ;;
    match assignee with
    | None => ret tt
    | Some assignee =>
        let description :=
          if truthy_str (Task.description task)
          then match Task.description task with Some d => d | None => EmptyString end
          else "No description" in
        let notification :=
          EmailNotificationDTO.mk
            (User.email assignee)
            ("Task Assigned: " ++ Task.title task)
            ("You have been assigned a new task: " ++ Task.title task
               ++ String (ascii_of_nat 10) (String (ascii_of_nat 10) "Description: ")
               ++ description)
            (Task.id task)
            (User.id assignee) in
        NotificationSender.send_email_notification notification ;;;
        ret tt
    end.

(** The assignee check of [create_task] and [update_task]:
    [if assigned_to: ... raise UserNotFoundError / TaskAssignmentError]. *)
Definition verify_assignee (assigned_to : option Z) : M S unit :=
  if truthy_int assigned_to then
    user_id <- construct (required assigned_to) ;;
    assignee <- query (UserRepository.get_by_id user_id) ;;
    assignee <- or_raise assignee (UserNotFoundError user_id) ;;
    when (negb (User.is_active assignee))
         (raise (TaskAssignmentError "Cannot assign task to inactive user"))
  else ret tt.

Definition create_task (task_list_id : Z) (task_data : TaskCreateDTO.t) (user_id : Z)
    : M S TaskResponseDTO.t :=
  task_list <- query (TaskListRepository.get_by_id task_list_id) ;;
  task_list <- or_raise task_list (TaskListNotFoundError task_list_id) ;;
  when (negb (TaskList.owner_id task_list =? user_id))
       (raise (AuthorizationError "You don't have access to this task list")) ;;;
  verify_assignee (TaskCreateDTO.assigned_to task_data) ;;;
  t <- utcnow ;;
  let task :=
    Task.mk None (TaskCreateDTO.title task_data) (TaskCreateDTO.description task_data)
            PENDING (TaskCreateDTO.priority task_data) task_list_id
            (TaskCreateDTO.assigned_to task_data) (Some t) None
            (TaskCreateDTO.due_date task_data) in
  created_task <- command (TaskRepository.create task) ;;
  logger_info (TaskCreated (Task.id created_task) task_list_id) ;;;
  when (truthy_int (Task.assigned_to created_task))
       (_send_assignment_notification created_task) ;;;
  task_response created_task.

Definition get_task (task_id user_id : Z) : M S TaskResponseDTO.t :=
  task <- query (TaskRepository.get_by_id task_id) ;;
  task <- or_raise task (TaskNotFoundError task_id) ;;
  task_list <- query (TaskListRepository.get_by_id (Task.task_list_id task)) ;;
  owner_id <- attr task_list TaskList.owner_id ;;
  when (negb (owner_id =? user_id)
        && negb (opt_int_eqb (Task.assigned_to task) (Some user_id)))
       (raise (AuthorizationError "You don't have access to this task")) ;;;
  assignee <-
    (if truthy_int (Task.assigned_to task) then
       assignee_id <- construct (required (Task.assigned_to task)) ;;
       assignee_user <- query (UserRepository.get_by_id assignee_id) ;;
       match assignee_user with
       | Some assignee_user =>
           a <- construct (UserResponseDTO.of_user assignee_user) ;;
           ret (Some a)
       | None => ret None
       end
     else ret None) ;;
  t <- utcnow ;;
  construct (TaskResponseDTO.of_task task (Task.is_overdue t task) assignee).

Definition update_task (task_id : Z) (update_data : TaskUpdateDTO.t) (user_id : Z)
    : M S TaskResponseDTO.t :=
  task <- query (TaskRepository.get_by_id task_id) ;;
  task <- or_raise task (TaskNotFoundError task_id) ;;
  task_list <- query (TaskListRepository.get_by_id (Task.task_list_id task)) ;;
  owner_id <- attr task_list TaskList.owner_id ;;
  when (negb (owner_id =? user_id))
       (raise (AuthorizationError "You don't have access to this task")) ;;;
  verify_assignee (TaskUpdateDTO.assigned_to update_data) ;;;
  let old_assignee := Task.assigned_to task in
  let task :=
    match TaskUpdateDTO.title update_data with
    | Some v => Task.set_title v task
    | None => task
    end in
  let task :=
    match TaskUpdateDTO.description update_data with
    | Some v => Task.set_description (Some v) task
    | None => task
    end in
  let task :=
    match TaskUpdateDTO.priority update_data with
    | Some v => Task.set_priority v task
    | None => task
    end in
  let task :=
    match TaskUpdateDTO.assigned_to update_data with
    | Some v => Task.set_assigned_to (Some v) task
    | None => task
    end in
  let task :=
    match TaskUpdateDTO.due_date update_data with
    | Some v => Task.set_due_date (Some v) task
    | None => task
    end in
  t <- utcnow ;;
  let task := Task.set_updated_at (Some t) task in
  updated_task <- command (TaskRepository.update task) ;;
  logger_info (TaskUpdated task_id user_id) ;;;
  when (negb (opt_int_eqb old_assignee (Task.assigned_to updated_task))
        && truthy_int (Task.assigned_to updated_task))
       (_send_assignment_notification updated_task) ;;;
  task_response updated_task.

Definition update_task_status (task_id : Z) (status_data : TaskStatusUpdateDTO.t)
    (user_id : Z) : M S TaskResponseDTO.t :=
  task <- query (TaskRepository.get_by_id task_id) ;;
  task <- or_raise task (TaskNotFoundError task_id) ;;
  task_list <- query (TaskListRepository.get_by_id (Task.task_list_id task)) ;;
  owner_id <- attr task_list TaskList.owner_id ;;
  when (negb (owner_id =? user_id)
        && negb (opt_int_eqb (Task.assigned_to task) (Some user_id)))
       (raise (AuthorizationError "You don't have access to this task")) ;;;
  updated_task <-
    command (TaskRepository.update_status task_id (TaskStatusUpdateDTO.status status_data)) ;;
  logger_info (TaskStatusUpdated task_id (TaskStatusUpdateDTO.status status_data) user_id) ;;;
  task_response updated_task.

Definition delete_task (task_id user_id : Z) : M S bool :=
  task <- query (TaskRepository.get_by_id task_id) ;;
  task <- or_raise task (TaskNotFoundError task_id) ;;
  task_list <- query (TaskListRepository.get_by_id (Task.task_list_id task)) ;;
  owner_id <- attr task_list TaskList.owner_id ;;
  when (negb (owner_id =? user_id))
       (raise (AuthorizationError "You don't have access to this task")) ;;;
  result <- command (TaskRepository.delete task_id) ;;
  when result (logger_info (TaskDeleted task_id user_id)) ;;;
  ret result.

(** The two list comprehensions of [list_tasks], over the fetched page. *)
Definition post_filter (t : datetime) (filters : TaskFilterDTO.t) (tasks : list Task.t)
    : Result (list Task.t) :=
  match (if TaskFilterDTO.overdue_only filters
         then comprehension (Task.is_overdue t) tasks
         else inr tasks) with
  | inl e => inl e
  | inr tasks =>
      inr (if truthy_int (TaskFilterDTO.assigned_to filters)
           then filter (fun task => opt_int_eqb (Task.assigned_to task)
                                      (TaskFilterDTO.assigned_to filters)) tasks
           else tasks)
  end.

Definition list_tasks (task_list_id : Z) (filters : TaskFilterDTO.t)
    (pagination : PaginationDTO.t) (user_id : Z) : M S (list TaskResponseDTO.t) :=
  task_list <- query (TaskListRepository.get_by_id task_list_id) ;;
  task_list <- or_raise task_list (TaskListNotFoundError task_list_id) ;;
  when (negb (TaskList.owner_id task_list =? user_id))
       (raise (AuthorizationError "You don't have access to this task list")) ;;;
  tasks <-
    query (TaskRepository.get_by_task_list task_list_id
             (PaginationDTO.skip pagination) (PaginationDTO.limit pagination)
             (TaskFilterDTO.status filters) (TaskFilterDTO.priority filters)) ;;
  t <- utcnow ;;
  tasks <- construct (post_filter t filters tasks) ;;
  for_each task_response tasks.

End Services.

(** ** A reference database *)

(** Modelled from the spec: the filtered listing of the repositories
    ([src/infrastructure/repositories.py] is not among the sources) pages a
    result by [skip] and [limit], as [xs[skip : skip + limit]]. *)
Definition page {A : Type} (skip limit : Z) (xs : list A) : list A :=
  firstn (Z.to_nat limit) (skipn (Z.to_nat skip) xs).

(** Modelled from the spec: an optional filter of a listing; [None] lets every
    row pass. *)
Definition matches {A : Type} (eqb : A -> A -> bool) (wanted : option A) (a : A) : bool :=
  match wanted with
  | Some v => eqb a v
  | None => true
  end.

Module InMemory.

(** Modelled from the spec: the SQLAlchemy repositories
    ([src/infrastructure/repositories.py]) are not among the sources. This
    store follows the spec's repository contracts (section 4: create,
    get_by_id, get_by_email, update, delete, filtered listing; section 3:
    ids assigned on creation, deleting a list deletes its tasks) and the
    tables of [src/infrastructure/database.py]: rows in insertion order,
    integer primary keys counting from 1. *)
Record Store := mkStore {
  users : list User.t;
  task_lists : list TaskList.t;
  tasks : list Task.t
}.

(** The next primary key: one more than the largest in the table. *)
Definition next_id (ids : list (option Z)) : Z :=
  1 + fold_right (fun i m => match i with Some v => Z.max v m | None => m end) 0 ids.

(** The row with primary key [i]. *)
Definition has_id (i : Z) (row_id : option Z) : bool := opt_int_eqb row_id (Some i).

(** [UPDATE ... WHERE same]: the matching rows become [new]. *)
Definition replace {A : Type} (same : A -> bool) (new : A) (rows : list A) : list A :=
  map (fun row => if same row then new else row) rows.

(** Modelled from the spec: [UserRepository.create] assigns the id (spec,
    section 3: "assigned on creation") and stores the user. *)
Definition user_create (u : User.t) (s : Store) : User.t * Store :=
  let u' := User.mk (Some (next_id (map User.id (users s)))) (User.email u) (User.username u)
                    (User.full_name u) (User.hashed_password u) (User.is_active u)
                    (User.created_at u) (User.updated_at u) in
  (u', mkStore (users s ++ [u'])%list (task_lists s) (tasks s)).

(** Modelled from the spec: the three lookups of [UserRepository]. *)
Definition user_get_by_id (i : Z) (s : Store) : option User.t :=
  find (fun u => has_id i (User.id u)) (users s).

Definition user_get_by_email (e : string) (s : Store) : option User.t :=
  find (fun u => String.eqb (User.email u) e) (users s).

Definition user_get_by_username (n : string) (s : Store) : option User.t :=
  find (fun u => String.eqb (User.username u) n) (users s).

(** Modelled from the spec: [TaskListRepository.get_by_id]. *)
Definition task_list_get_by_id (i : Z) (s : Store) : option TaskList.t :=
  find (fun l => has_id i (TaskList.id l)) (task_lists s).

(** Modelled from the spec: [TaskListRepository.get_by_owner], paged. *)
Definition task_list_get_by_owner (owner skip limit : Z) (s : Store) : list TaskList.t :=
  page skip limit (filter (fun l => TaskList.owner_id l =? owner) (task_lists s)).

(** Modelled from the spec: [TaskListRepository.update] overwrites the row of
    the list's id and answers the list. *)
Definition task_list_update (l : TaskList.t) (s : Store) : TaskList.t * Store :=
  (l, mkStore (users s)
        (replace (fun row => opt_int_eqb (TaskList.id row) (TaskList.id l)) l (task_lists s))
        (tasks s)).

(** Modelled from the spec: [TaskListRepository.delete] answers whether a row
    was removed, and removes the tasks of the list with it (spec, section 3). *)
Definition task_list_delete (i : Z) (s : Store) : bool * Store :=
  match task_list_get_by_id i s with
  | None => (false, s)
  | Some _ =>
      (true, mkStore (users s)
               (filter (fun l => negb (has_id i (TaskList.id l))) (task_lists s))
               (filter (fun t => negb (Task.task_list_id t =? i)) (tasks s)))
  end.

(** Modelled from the spec: [TaskRepository.create] assigns the id and stores
    the task as given. *)
Definition task_create (t : Task.t) (s : Store) : Task.t * Store :=
  let t' := Task.set_id (Some (next_id (map Task.id (tasks s)))) t in
  (t', mkStore (users s) (task_lists s) (tasks s ++ [t'])%list).

(** Modelled from the spec: [TaskRepository.get_by_id]. *)
Definition task_get_by_id (i : Z) (s : Store) : option Task.t :=
  find (fun t => has_id i (Task.id t)) (tasks s).

(** Modelled from the spec: [TaskRepository.get_by_task_list] selects the tasks
    of the list by status and priority (spec, section 4.5: "Repository-level
    filtering applies status/priority") and answers one page of them. *)
Definition task_get_by_task_list (task_list_id skip limit : Z)
    (status : option TaskStatus) (priority : option TaskPriority) (s : Store)
    : list Task.t :=
  page skip limit
    (filter (fun t => (Task.task_list_id t =? task_list_id)
                      && matches TaskStatus_eqb status (Task.status t)
                      && matches TaskPriority_eqb priority (Task.priority t))
            (tasks s)).

(** Modelled from the spec: [TaskRepository.update] overwrites the row of the
    task's id and answers the task. *)
Definition task_update (t : Task.t) (s : Store) : Task.t * Store :=
  (t, mkStore (users s) (task_lists s)
        (replace (fun row => opt_int_eqb (Task.id row) (Task.id t)) t (tasks s))).

(** Modelled from the spec: [TaskRepository.delete] answers whether a row was
    removed. *)
Definition task_delete (i : Z) (s : Store) : bool * Store :=
  match task_get_by_id i s with
  | None => (false, s)
  | Some _ =>
      (true, mkStore (users s) (task_lists s)
               (filter (fun t => negb (has_id i (Task.id t))) (tasks s)))
  end.

(** Modelled from the spec: [TaskRepository.update_status] sets the status of
    the stored task. The interface promises a [Task]; for an id that is not
    stored (the services never ask: they look the task up first) the answer
    is the task as the call describes it and nothing is written. *)
Definition task_update_status (i : Z) (st : TaskStatus) (s : Store) : Task.t * Store :=
  match task_get_by_id i s with
  | Some t => task_update (Task.set_status st t) s
  | None => (Task.mk (Some i) EmptyString None st MEDIUM 0 None None None None, s)
  end.

#[global] Instance user_repository : UserRepository.t Store :=
  {| UserRepository.create := user_create;
     UserRepository.get_by_id := user_get_by_id;
     UserRepository.get_by_email := user_get_by_email;
     UserRepository.get_by_username := user_get_by_username |}.

#[global] Instance task_list_repository : TaskListRepository.t Store :=
  {| TaskListRepository.get_by_id := task_list_get_by_id;
     TaskListRepository.get_by_owner := task_list_get_by_owner;
     TaskListRepository.update := task_list_update;
     TaskListRepository.delete := task_list_delete |}.

#[global] Instance task_repository : TaskRepository.t Store :=
  {| TaskRepository.create := task_create;
     TaskRepository.get_by_id := task_get_by_id;
     TaskRepository.get_by_task_list := task_get_by_task_list;
     TaskRepository.update := task_update;
     TaskRepository.delete := task_delete;
     TaskRepository.update_status := task_update_status |}.

(** The service wired as [src/presentation/dependencies.py] does:
    [NotificationService(email_enabled=True)]. *)
#[global] Instance notification_service : NotificationSender.t Store :=
  NotificationService true.

(** A [notification_service] whose call raises, as the mock of
    [test_notification_error_handling] does. *)
Definition failing_notification_service : NotificationSender.t Store :=
  {| NotificationSender.send_email_notification :=
       fun _ => raise (Exception "Email service unavailable") |}.

End InMemory.

(** ** Concrete worlds *)

Module Fixtures.
Import InMemory.

Definition alice : User.t :=
  User.mk (Some 1) "alice@example.com" "alice" None "hash-a" true (Some 1000) None.
Definition bob : User.t :=
  User.mk (Some 2) "bob@example.com" "bob" None "hash-b" true (Some 1000) None.
(** An account that was deactivated. *)
Definition carol : User.t :=
  User.mk (Some 3) "carol@example.com" "carol" None "hash-c" false (Some 1000) None.

Definition groceries : TaskList.t :=
  TaskList.mk (Some 1) "Groceries" None 1 (Some 2000) None [].

Definition task (i : Z) (st : TaskStatus) (assignee : option Z) (due : option any_datetime)
    : Task.t :=
  Task.mk (Some i) "Milk" None st MEDIUM 1 assignee (Some 3000) None due.

(** Alice owns the list; its three tasks: one for nobody, two for Bob. *)
Definition store : Store :=
  mkStore [alice; bob; carol] [groceries]
          [task 1 PENDING None None; task 2 PENDING (Some 2) None;
           task 3 COMPLETED (Some 2) None].

Definition world : World Store := mkWorld store 5000 [].

(** A stand-in for passlib's bcrypt: the hash of [p] is ["hash-"] followed by
    [p], and a password that holds a NUL character is refused, by [hash] and by
    [verify] alike, as bcrypt refuses it ([PasswordValueError]). *)
Definition has_nul (p : string) : bool :=
  existsb (Ascii.eqb Ascii.zero) (list_ascii_of_string p).
Definition null_password : Exn := Exception "bcrypt does not allow NULL bytes in password".
Definition pwd_hash (p : string) : Result string :=
  if has_nul p then inl null_password else inr ("hash-" ++ p).
Definition pwd_verify (p h : string) : Result bool :=
  if has_nul p then inl null_password else inr (String.eqb ("hash-" ++ p) h).
(** A stand-in for jose: the token is the subject claim. *)
Definition jwt (payload : list (string * ClaimValue)) (key alg : string) : Result string :=
  match payload with
  | (_, ClaimStr s) :: _ => inr s
  | _ => inr EmptyString
  end.
Definition auth : AuthService.t := AuthService.mk "secret" "HS256" 30.

(** A password that holds a NUL character: [a], NUL, [b]. [LoginDTO] asks for
    one character at least and takes it. *)
Definition nul_password : string := String "a"%char (String Ascii.zero "b").

(** Three tasks, the first of them completed. *)
Definition one_of_three : TaskList.t :=
  TaskList.mk (Some 1) "Groceries" None 1 (Some 2000) None
    [task 1 COMPLETED None None; task 2 PENDING None None; task 3 PENDING None None].
End Fixtures.

(** ** Exact arithmetic, to compare the floats with *)

(** [100 k / n] as a rational number. *)
Definition exact_percentage (k n : Z) : Q := (100 * k) # Z.to_pos n.

(** A finite float whose value is within [1e-13] of [q]. *)
Definition float_near (f : float) (q : Q) : bool :=
  match float_value f with
  | Some v => Qle_bool (Qabs (v - q)) (1 # 10 ^ 13)
  | None => false
  end.

(** Every [(k / n) * 100.0] with [0 <= k <= n] and [1 <= n <= bound] is near
    [100 k / n]. *)
Definition percent_near_upto (bound : nat) : bool :=
  forallb (fun n =>
    forallb (fun k =>
      float_near (PrimFloat.mul (truediv (Z.of_nat k) (Z.of_nat n)) 100%float)
                 (exact_percentage (Z.of_nat k) (Z.of_nat n)))
      (seq 0 (Datatypes.S n)))
    (seq 1 bound).

(** [p] is the percentage of [tasks] as claimed, up to rounding: [0.0] for no
    task; else the binary64 number [(K / N) * 100.0], with [N] the number of
    tasks and [K] the number of COMPLETED ones, which for [N <= 100] is within
    [1e-13] of [100 K / N]. *)
Definition percentage_of (tasks : list Task.t) (p : float) : Prop :=
  let N := len tasks in
  let K := len (filter (fun task => TaskStatus_eqb (Task.status task) COMPLETED) tasks) in
  (N = 0 -> p = 0%float)
  /\ (0 < N -> p = PrimFloat.mul (truediv K N) 100%float)
  /\ (0 < N <= 100 -> float_near p (exact_percentage K N) = true).

(** ** Entities as a repository hands them out *)

(** A stored entity has its primary key and its creation time. *)
Definition User_stored (u : User.t) : Prop :=
  User.id u <> None /\ User.created_at u <> None.

Definition TaskList_stored (l : TaskList.t) : Prop :=
  TaskList.id l <> None /\ TaskList.created_at l <> None.

(** A stored task has, besides, a due date that is not aware: the [due_date]
    column of [src/infrastructure/database.py] is a [DateTime] without
    timezone, and what is read from it is naive. *)
Definition Task_stored (t : Task.t) : Prop :=
  Task.id t <> None /\ Task.created_at t <> None
  /\ forall d utcoffset, Task.due_date t <> Some (aware d utcoffset).

(** The user a login identifier stands for: the one with that email, and only
    when there is none, the one with that username. *)
Definition resolve_login {S : Type} {user_repository : UserRepository.t S}
    (identifier : string) (s : S) : option User.t :=
  match UserRepository.get_by_email identifier s with
  | Some u => Some u
  | None => UserRepository.get_by_username identifier s
  end.

(** The two [AuthenticationError]s of a login. *)
Definition invalid_credentials : Exn := AuthenticationError "Invalid credentials".

Definition account_inactive : Exn := AuthenticationError "User account is inactive".

(** The fields of a task after the assignments of [update_task]: each field
    the request supplies ([is not None]) replaces the task's. *)
Definition updated_fields (update_data : TaskUpdateDTO.t) (task : Task.t) : Task.t :=
  Task.mk (Task.id task)
    (match TaskUpdateDTO.title update_data with Some v => v | None => Task.title task end)
    (match TaskUpdateDTO.description update_data with
     | Some v => Some v
     | None => Task.description task
     end)
    (Task.status task)
    (match TaskUpdateDTO.priority update_data with
     | Some v => v
     | None => Task.priority task
     end)
    (Task.task_list_id task)
    (match TaskUpdateDTO.assigned_to update_data with
     | Some v => Some v
     | None => Task.assigned_to task
     end)
    (Task.created_at task)
    (Task.updated_at task)
    (match TaskUpdateDTO.due_date update_data with
     | Some v => Some v
     | None => Task.due_date task
     end).

(** The email [_send_assignment_notification] composes for [task] and its assignee. *)
Definition assignment_email (task : Task.t) (assignee : User.t) : EmailNotificationDTO.t :=
  EmailNotificationDTO.mk
    (User.email assignee)
    ("Task Assigned: " ++ Task.title task)
    ("You have been assigned a new task: " ++ Task.title task
       ++ String (ascii_of_nat 10) (String (ascii_of_nat 10) "Description: ")
       ++ match Task.description task with
          | Some EmptyString | None => "No description"
          | Some d => d
          end)
    (Task.id task)
    (User.id assignee).

(** The requester owns the list of the task or is the task's assignee. *)
Definition owner_or_assignee (l : TaskList.t) (task : Task.t) (user_id : Z) : Prop :=
  TaskList.owner_id l = user_id \/ Task.assigned_to task = Some user_id.

(** The two [AuthorizationError]s the services raise. *)
Definition no_access_to_list : Exn :=
  AuthorizationError "You don't have access to this task list".

Definition no_access_to_task : Exn :=
  AuthorizationError "You don't have access to this task".

(** ** The current user ([AuthService.get_current_user]) *)

(** [d.get(k)] *)
Fixpoint dict_get (d : list (string * ClaimValue)) (k : string) : option ClaimValue :=
  match d with
  | [] => None
  | (k', v) :: d' => if String.eqb k' k then Some v else dict_get d' k
  end.

Section CurrentUser.

Context {S : Type}.
Context {user_repository : UserRepository.t S}.

(** jose's [jwt.decode(token, key, algorithms)], called at a given time (it
    checks ["exp"] against the clock): the payload, or [None] when it raises
    [JWTError]. *)
Variable jwt_decode :
  string -> string -> list string -> datetime -> option (list (string * ClaimValue)).

(** Python's [int(x)] on a claim: the integer, or the exception it raises. *)
Variable python_int : ClaimValue -> Result Z.

Variable self : AuthService.t.

Definition get_current_user (token : string) : M S User.t :=
  t <- utcnow ;;
  match jwt_decode token (AuthService.secret_key self) [AuthService.algorithm self] t with
  | None => raise (AuthenticationError "Invalid token")
  | Some payload =>
      match dict_get payload "sub" with
      | None => raise (AuthenticationError "Invalid token")
      | Some user_id =>
          i <- construct (python_int user_id) ;;
          user <- query (UserRepository.get_by_id i) ;;
          match user with
          | None => raise (AuthenticationError "User not found")
          | Some user => ret user
          end
      end
  end.

End CurrentUser.

(** ** The exception handler ([src/presentation/exception_handlers.py]) *)

(** [isinstance(exc, C)] for the classes the handler tests. *)
Definition is_EntityNotFoundError (exc : Exn) : bool :=
  match exc with
  | TaskListNotFoundError _ | TaskNotFoundError _ | UserNotFoundError _ => true
  | _ => false
  end.

Definition is_AuthenticationError (exc : Exn) : bool :=
  match exc with
  | AuthenticationError _ => true
  | _ => false
  end.

Definition is_AuthorizationError (exc : Exn) : bool :=
  match exc with
  | AuthorizationError _ => true
  | _ => false
  end.

(** No exception of [Exn] is the hierarchy's own [ValidationError]. *)
Definition is_ValidationError (exc : Exn) : bool := false.

Definition is_BusinessRuleViolationError (exc : Exn) : bool :=
  match exc with
  | TaskAssignmentError _ => true
  | _ => false
  end.

Module JSONResponse.
Record t := mk {
  status_code : Z;
  content_message : string;
  content_error_code : string
}.
End JSONResponse.

(** [task_manager_exception_handler], registered for [TaskManagerException]:
    [None] for an exception outside the hierarchy, which it does not receive. *)
Definition task_manager_exception_handler (exc : Exn) : option JSONResponse.t :=
  match message exc, error_code exc with
  | Some m, Some c =>
      let status_code :=
        if is_EntityNotFoundError exc then 404
        else if is_AuthenticationError exc then 401
        else if is_AuthorizationError exc then 403
        else if is_ValidationError exc then 422
        else if is_BusinessRuleViolationError exc then 409
        else 400 in
      Some (JSONResponse.mk status_code m c)
  | _, _ => None
  end.

(** ** Spelling out what the services hand to the repositories *)

(** The user [register_user] asks the repository to create, once the password
    is hashed. *)
Definition new_user (hashed_password : string) (user_data : UserCreateDTO.t)
    (t : datetime) : User.t :=
  User.mk None (UserCreateDTO.email user_data) (UserCreateDTO.username user_data)
          (UserCreateDTO.full_name user_data) hashed_password true (Some t) None.

(** The task [create_task] asks the repository to create. *)
Definition new_task (task_list_id : Z) (task_data : TaskCreateDTO.t) (t : datetime) : Task.t :=
  Task.mk None (TaskCreateDTO.title task_data) (TaskCreateDTO.description task_data)
          PENDING (TaskCreateDTO.priority task_data) task_list_id
          (TaskCreateDTO.assigned_to task_data) (Some t) None
          (TaskCreateDTO.due_date task_data).

(** The list [update_task_list] asks the repository to store. *)
Definition updated_list (update_data : TaskListUpdateDTO.t) (t : datetime) (l : TaskList.t)
    : TaskList.t :=
  TaskList.mk (TaskList.id l)
    (match TaskListUpdateDTO.name update_data with Some v => v | None => TaskList.name l end)
    (match TaskListUpdateDTO.description update_data with
     | Some v => Some v
     | None => TaskList.description l
     end)
    (TaskList.owner_id l) (TaskList.created_at l) (Some t) (TaskList.tasks l).

(** The payload [_create_access_token] signs for a user, to expire at [expire]. *)
Definition token_payload (user : User.t) (expire : datetime) : list (string * ClaimValue) :=
  dict_update [("sub", ClaimStr (str_opt_int (User.id user)))] "exp" (ClaimTime expire).

(** A binary64 number between [0.0] and [100.0]. *)
Definition is_percentage (f : float) : bool :=
  PrimFloat.leb 0%float f && PrimFloat.leb f 100%float.

(** Every [(k / n) * 100.0] with [0 <= k <= n] and [1 <= n <= bound] is a
    percentage. *)
Definition percentages_upto (bound : nat) : bool :=
  forallb (fun n =>
    forallb (fun k =>
      is_percentage (PrimFloat.mul (truediv (Z.of_nat k) (Z.of_nat n)) 100%float))
      (seq 0 (Datatypes.S n)))
    (seq 1 bound).

(** Every [(n / n) * 100.0] is [100.0] and every [(0 / n) * 100.0] is [0.0],
    for [1 <= n <= bound]. *)
Definition extremes_upto (bound : nat) : bool :=
  forallb (fun n =>
    PrimFloat.eqb (PrimFloat.mul (truediv (Z.of_nat n) (Z.of_nat n)) 100%float) 100%float
    && PrimFloat.eqb (PrimFloat.mul (truediv 0 (Z.of_nat n)) 100%float) 0%float)
    (seq 1 bound).

(** What [NotificationService(email_enabled)] logs when a task is handed to
    [_send_assignment_notification] in a database [s]: nothing without a truthy
    assignee or when no user has that id, else one record. *)
Definition assignment_log {S : Type} {user_repository : UserRepository.t S}
    (email_enabled : bool) (task : Task.t) (s : S) : list LogRecord :=
  match Task.assigned_to task with
  | None => []
  | Some a =>
      if a =? 0 then []
      else match UserRepository.get_by_id a s with
           | None => []
           | Some assignee =>
               if email_enabled
               then [SendingEmail (User.email assignee) ("Task Assigned: " ++ Task.title task)]
               else [EmailDisabled]
           end
  end.

(** An [assigned_to] the assignee check lets through: none, [0], or the id of
    an active user. *)
Definition assignable {S : Type} {user_repository : UserRepository.t S}
    (assigned_to : option Z) (s : S) : Prop :=
  match assigned_to with
  | None => True
  | Some a =>
      a = 0 \/ exists assignee, UserRepository.get_by_id a s = Some assignee
                                /\ User.is_active assignee = true
  end.

(** Alice's list with 101 tasks, the last of them the only completed one. *)
Definition crowded_store : InMemory.Store :=
  InMemory.mkStore [Fixtures.alice] [Fixtures.groceries]
    (map (fun i => Fixtures.task (Z.of_nat i) PENDING None None) (seq 1 100)
     ++ [Fixtures.task 101 COMPLETED None None])%list.

Definition crowded_world : World InMemory.Store := mkWorld crowded_store 5000 [].

(** Stand-ins for jose's [jwt.decode] and Python's [int], to go with the
    stand-ins of [Fixtures]: the only token that decodes is the one
    [Fixtures.jwt] gives Alice, until it expires 30 minutes after [5000]; as
    jose does, it gives the expiry back in whole seconds. [int] reads decimal
    numerals. *)
Module AuthFixtures.
Definition decode (token key : string) (algorithms : list string) (t : datetime)
    : option (list (string * ClaimValue)) :=
  if String.eqb token "1" && (t <? 5000 + 30 * 60 * 1000000)
  then Some [("sub", ClaimStr "1"); ("exp", ClaimInt 1800)]
  else None.

Definition parse_int (v : ClaimValue) : Result Z :=
  match v with
  | ClaimStr s =>
      match NilEmpty.int_of_string s with
      | Some d => inr (Z.of_int d)
      | None => inl (Exception "invalid literal for int() with base 10")
      end
  | ClaimInt n => inr n
  | ClaimTime _ => inl (Exception "int() argument must be a string or a number")
  end.

Definition dave : UserCreateDTO.t :=
  UserCreateDTO.mk "dave@example.com" "dave" None "longenoughpw".

(** Midnight of 1 January 2026, day 739617. *)
Definition new_year_2026 : datetime := (739617 - 1) * 86400 * 1000000.

(** A service configured with tokens good for 5000000000 minutes. *)
Definition long_lived : AuthService.t := AuthService.mk "secret" "HS256" 5000000000.
End AuthFixtures.

(** The status the exception handler answers an exception with, if it does. *)
Definition status_of (exc : Exn) : option Z :=
  option_map JSONResponse.status_code (task_manager_exception_handler exc).

(** Three tasks due at [4000], seen at [5000]: one pending, one completed, and
    one pending without due date. *)
Definition overdue_world : World InMemory.Store :=
  mkWorld
    (InMemory.mkStore [Fixtures.alice] [Fixtures.groceries]
       [Fixtures.task 1 PENDING None (Some (naive 4000));
        Fixtures.task 2 COMPLETED None (Some (naive 4000));
        Fixtures.task 3 PENDING None None])
    5000 [].

(** * Properties *)

(** ** Python values *)

Lemma TaskStatus_eqb_eq (a b : TaskStatus) : TaskStatus_eqb a b = true <-> a = b.
Proof. destruct a, b; simpl; split; congruence. Qed.

Lemma TaskStatus_eqb_neq (a b : TaskStatus) : TaskStatus_eqb a b = false <-> a <> b.
Proof. destruct a, b; simpl; split; congruence. Qed.

Lemma opt_int_eqb_eq (a b : option Z) : opt_int_eqb a b = true <-> a = b.
Proof.
  destruct a as [x|], b as [y|]; simpl; split; try congruence.
  - intros H. apply Z.eqb_eq in H. congruence.
  - intros H. injection H as ->. apply Z.eqb_refl.
Qed.

Lemma truthy_int_zero : truthy_int (Some 0) = false.
Proof. reflexivity. Qed.

Lemma truthy_int_nonzero (n : Z) : n <> 0 -> truthy_int (Some n) = true.
Proof. intros H. simpl. apply Z.eqb_neq in H. now rewrite H. Qed.

Lemma fold_add_ones {A : Type} (xs : list A) (acc : Z) :
  fold_left Z.add (map (fun _ => 1) xs) acc = acc + len xs.
Proof.
  unfold len. revert acc.
  induction xs as [|x xs IH]; intros acc.
  - simpl. lia.
  - cbn [map fold_left List.length]. rewrite IH. lia.
Qed.

(** The generator sum counts the elements that pass. *)
Lemma sum_ones_count {A : Type} (p : A -> bool) (xs : list A) :
  sum_ones p xs = len (filter p xs).
Proof. unfold sum_ones. rewrite fold_add_ones. lia. Qed.

Lemma len_filter_le {A : Type} (p : A -> bool) (xs : list A) :
  0 <= len (filter p xs) <= len xs.
Proof.
  unfold len. split; [lia|].
  apply Nat2Z.inj_le.
  induction xs as [|x xs IH]; simpl; [lia|].
  destruct (p x); simpl; lia.
Qed.

(** ** Overdue tasks *)

Lemma is_overdue_naive (t d : datetime) (task : Task.t) :
  Task.due_date task = Some (naive d) ->
  Task.is_overdue t task = inr ((d <? t) && negb (TaskStatus_eqb (Task.status task) COMPLETED)).
Proof. intros H. unfold Task.is_overdue. now rewrite H. Qed.

Lemma is_overdue_aware (t d utcoffset : datetime) (task : Task.t) :
  Task.due_date task = Some (aware d utcoffset) -> Task.is_overdue t task = inl TypeError.
Proof. intros H. unfold Task.is_overdue. now rewrite H. Qed.

Lemma is_overdue_true (t : datetime) (task : Task.t) :
  Task.is_overdue t task = inr true <->
  exists d, Task.due_date task = Some (naive d) /\ d < t /\ Task.status task <> COMPLETED.
Proof.
  unfold Task.is_overdue. destruct (Task.due_date task) as [[d|d off]|]; cbn.
  - split.
    + intros H. injection H as H.
      rewrite andb_true_iff, negb_true_iff, Z.ltb_lt, TaskStatus_eqb_neq in H.
      exists d. tauto.
    + intros (d' & Hd & Hlt & Hst). injection Hd as <-.
      f_equal. rewrite andb_true_iff, negb_true_iff, Z.ltb_lt, TaskStatus_eqb_neq. tauto.
  - split; [discriminate|]. intros (d' & Hd & _). discriminate.
  - split; [discriminate|]. intros (d' & Hd & _). discriminate.
Qed.

(** What [is_overdue] raises is the [TypeError] of an aware due date. *)
Lemma is_overdue_raises (t : datetime) (task : Task.t) (e : Exn) :
  Task.is_overdue t task = inl e ->
  e = TypeError /\ exists d utcoffset, Task.due_date task = Some (aware d utcoffset).
Proof.
  unfold Task.is_overdue. destruct (Task.due_date task) as [[d|d off]|]; cbn;
    try discriminate.
  intros H. injection H as <-. eauto.
Qed.

(** C8, as the code has it. [is_overdue] returns [True] exactly when the task
    has a naive due date, the current time is strictly after it, and the status
    is not COMPLETED: so a CANCELLED task past its naive due date is overdue.
    It returns [False] for a task without due date, and for a naive due date
    that is not past or a COMPLETED status. On an aware due date it does not
    return: comparing it with [utcnow()] raises [TypeError], whatever the
    status. *)
Theorem is_overdue_iff (t : datetime) (task : Task.t) :
  (Task.is_overdue t task = inr true <->
     exists d, Task.due_date task = Some (naive d) /\ d < t /\ Task.status task <> COMPLETED)
  /\ (forall d, Task.status task = CANCELLED -> Task.due_date task = Some (naive d) -> d < t ->
        Task.is_overdue t task = inr true)
  /\ (Task.due_date task = None -> Task.is_overdue t task = inr false)
  /\ (forall d, Task.due_date task = Some (naive d) ->
        ~ (d < t /\ Task.status task <> COMPLETED) ->
        Task.is_overdue t task = inr false)
  /\ (forall d utcoffset, Task.due_date task = Some (aware d utcoffset) ->
        Task.is_overdue t task = inl TypeError).
Proof.
  split; [apply is_overdue_true|]. split; [|split; [|split]].
  - intros d Hst Hd Hlt. apply is_overdue_true. exists d. rewrite Hst.
    repeat split; auto; discriminate.
  - intros Hd. unfold Task.is_overdue. now rewrite Hd.
  - intros d Hd Hnot. rewrite (is_overdue_naive t d task Hd). f_equal.
    destruct ((d <? t) && negb (TaskStatus_eqb (Task.status task) COMPLETED)) eqn:E;
      [|reflexivity].
    exfalso. apply Hnot.
    rewrite andb_true_iff, negb_true_iff, Z.ltb_lt, TaskStatus_eqb_neq in E. exact E.
  - intros d off Hd. exact (is_overdue_aware t d off task Hd).
Qed.

Lemma is_overdue_iff_witness :
  Task.is_overdue 5000 (Fixtures.task 7 CANCELLED None (Some (naive 4000))) = inr true
  /\ Task.is_overdue 5000 (Fixtures.task 7 COMPLETED None (Some (naive 4000))) = inr false
  /\ Task.is_overdue 5000 (Fixtures.task 7 PENDING None None) = inr false
  /\ Task.is_overdue 5000 (Fixtures.task 7 COMPLETED None (Some (aware 4000 0)))
     = inl TypeError.
Proof.
  split; [|split; [|split]].
  - apply (proj1 (proj2 (is_overdue_iff 5000
                           (Fixtures.task 7 CANCELLED None (Some (naive 4000)))))
             4000); [reflexivity | reflexivity | lia].
  - apply (proj1 (proj2 (proj2 (proj2 (is_overdue_iff 5000
                           (Fixtures.task 7 COMPLETED None (Some (naive 4000)))))))
             4000); [reflexivity|].
    intros [_ H]. now apply H.
  - apply (proj1 (proj2 (proj2 (is_overdue_iff 5000 (Fixtures.task 7 PENDING None None))))).
    reflexivity.
  - apply (proj2 (proj2 (proj2 (proj2 (is_overdue_iff 5000
                           (Fixtures.task 7 COMPLETED None (Some (aware 4000 0)))))))
             4000 0).
    reflexivity.
Defined.

(** C8, as stated, fails. A PENDING task whose due date, midnight UTC written
    with its offset, is past: the claim makes it overdue, and [is_overdue]
    raises [TypeError]. The same task COMPLETED: the claim makes it not
    overdue, and [is_overdue] raises all the same. *)
Lemma is_overdue_aware_due_date_raises :
  Task.due_date (Fixtures.task 7 PENDING None (Some (aware 4000 0))) <> None
  /\ 4000 < 5000
  /\ Task.status (Fixtures.task 7 PENDING None (Some (aware 4000 0))) <> COMPLETED
  /\ Task.is_overdue 5000 (Fixtures.task 7 PENDING None (Some (aware 4000 0))) = inl TypeError
  /\ Task.is_overdue 5000 (Fixtures.task 7 PENDING None (Some (aware 4000 0))) <> inr true
  /\ Task.is_overdue 5000 (Fixtures.task 7 COMPLETED None (Some (aware 4000 0))) <> inr false.
Proof. repeat split; try discriminate; try reflexivity; lia. Qed.

(** ** Completion percentage *)

Lemma completion_percentage_entity (l : TaskList.t) :
  completion_percentage (TaskList.tasks l) = TaskList.calculate_completion_percentage l.
Proof. reflexivity. Qed.

Lemma percent_near_upto_sound (bound : nat) (k n : Z) :
  percent_near_upto bound = true ->
  0 <= k <= n -> 1 <= n <= Z.of_nat bound ->
  float_near (PrimFloat.mul (truediv k n) 100%float) (exact_percentage k n) = true.
Proof.
  unfold percent_near_upto. intros Hall Hk Hn.
  rewrite forallb_forall in Hall.
  assert (Hn' : In (Z.to_nat n) (seq 1 bound)) by (apply in_seq; lia).
  specialize (Hall (Z.to_nat n) Hn').
  rewrite forallb_forall in Hall.
  assert (Hk' : In (Z.to_nat k) (seq 0 (Datatypes.S (Z.to_nat n)))) by (apply in_seq; lia).
  specialize (Hall (Z.to_nat k) Hk').
  rewrite !Z2Nat.id in Hall by lia.
  exact Hall.
Qed.

Lemma percent_near_upto_100 : percent_near_upto 100 = true.
Proof. vm_compute. reflexivity. Qed.

(** The expression the entity and the two services compute. *)
Lemma completion_percentage_of (tasks : list Task.t) :
  percentage_of tasks (completion_percentage tasks).
Proof.
  unfold percentage_of. cbv zeta.
  assert (Hpos : 0 < len tasks ->
      completion_percentage tasks
      = PrimFloat.mul
          (truediv (len (filter (fun task => TaskStatus_eqb (Task.status task) COMPLETED)
                                tasks))
                   (len tasks)) 100%float).
  { unfold completion_percentage. destruct tasks as [|x xs].
    - cbn. lia.
    - intros _. now rewrite sum_ones_count. }
  split; [|split; [exact Hpos|]].
  - unfold completion_percentage. destruct tasks as [|x xs]; [reflexivity|].
    unfold len. cbn [List.length]. lia.
  - intros [HN Hle]. rewrite (Hpos HN).
    apply (percent_near_upto_sound 100); [exact percent_near_upto_100| |lia].
    apply len_filter_le.
Qed.

(** ** Running a service call *)

Ltac run_step :=
  unfold bind, query, command, when, or_raise, attr, raise, ret, construct,
    utcnow, logger_info; cbn [fst snd db now log].

Lemma required_stored {A : Type} (o : option A) :
  o <> None -> exists a, o = Some a /\ required o = inr a.
Proof. destruct o as [a|]; [eauto | congruence]. Qed.

(** The comparison of [is_overdue] answers for a stored task. *)
Lemma is_overdue_stored (t : datetime) (task : Task.t) :
  Task_stored task -> exists o, Task.is_overdue t task = inr o.
Proof.
  intros (_ & _ & Hdue). unfold Task.is_overdue.
  destruct (Task.due_date task) as [[d|d off]|]; cbn; eauto.
  now destruct (Hdue d off).
Qed.

(** The response of a stored task can be built. *)
Lemma of_task_stored (t : datetime) (task : Task.t) (a : option UserResponseDTO.t) :
  Task_stored task ->
  exists dto, TaskResponseDTO.of_task task (Task.is_overdue t task) a = inr dto
              /\ TaskResponseDTO.id dto = match Task.id task with Some i => i | None => 0 end
              /\ TaskResponseDTO.assigned_to dto = Task.assigned_to task
              /\ TaskResponseDTO.status dto = Task.status task
              /\ Task.is_overdue t task = inr (TaskResponseDTO.is_overdue dto).
Proof.
  intros Hst. destruct (is_overdue_stored t task Hst) as (o & Ho).
  destruct Hst as (Hid & Hc & _). rewrite Ho. unfold TaskResponseDTO.of_task.
  destruct (Task.id task); [|congruence].
  destruct (Task.created_at task); [|congruence].
  cbn. eexists. repeat split; reflexivity.
Qed.

Lemma of_task_list_stored (l : TaskList.t) (p : float) (n : Z) :
  TaskList_stored l ->
  exists dto, TaskListResponseDTO.of_task_list l p n = inr dto
              /\ TaskListResponseDTO.completion_percentage dto = p
              /\ TaskListResponseDTO.task_count dto = n.
Proof.
  intros [Hid Hc]. unfold TaskListResponseDTO.of_task_list.
  destruct (TaskList.id l); [|congruence].
  destruct (TaskList.created_at l); [|congruence].
  cbn. eexists. repeat split; reflexivity.
Qed.

Lemma with_tasks_stored (l : TaskList.t) (p : float) (ts : list TaskResponseDTO.t) :
  TaskList_stored l ->
  exists dto, TaskListWithTasksDTO.of_task_list l p ts = inr dto
              /\ TaskListWithTasksDTO.completion_percentage dto = p
              /\ TaskListWithTasksDTO.tasks dto = ts.
Proof.
  intros [Hid Hc]. unfold TaskListWithTasksDTO.of_task_list.
  destruct (TaskList.id l); [|congruence].
  destruct (TaskList.created_at l); [|congruence].
  cbn. eexists. repeat split; reflexivity.
Qed.

Lemma of_user_stored (u : User.t) :
  User_stored u -> exists dto, UserResponseDTO.of_user u = inr dto.
Proof.
  intros [Hid Hc]. unfold UserResponseDTO.of_user.
  destruct (User.id u); [|congruence].
  destruct (User.created_at u); [|congruence].
  cbn. eauto.
Qed.

Section Running.

Context {S : Type}.

(** Building a task response reads the clock and writes nothing. *)
Lemma task_response_run (task : Task.t) (w : World S) :
  task_response task w
  = (TaskResponseDTO.of_task task (Task.is_overdue (now w) task) None, w).
Proof. reflexivity. Qed.

(** The responses of stored tasks: one per task, in order. *)
Lemma for_each_task_response (tasks : list Task.t) (w : World S) :
  Forall Task_stored tasks ->
  exists dtos,
    for_each task_response tasks w = (inr dtos, w)
    /\ Forall2 (fun task dto =>
                  TaskResponseDTO.of_task task (Task.is_overdue (now w) task) None = inr dto)
               tasks dtos.
Proof.
  induction 1 as [|task tasks Hst _ IH].
  - exists []. split; [reflexivity | constructor].
  - destruct IH as (dtos & Hrun & Hall).
    destruct (of_task_stored (now w) task None Hst) as (dto & Hdto & _).
    exists (dto :: dtos). split.
    + cbn [for_each]. unfold bind at 1. rewrite task_response_run, Hdto.
      unfold bind at 1. rewrite Hrun. reflexivity.
    + constructor; assumption.
Qed.

End Running.

(** ** Task lists: absence, then ownership *)

Lemma set_fields_stored (update_data : TaskListUpdateDTO.t) (t : datetime) (l : TaskList.t) :
  TaskList_stored l ->
  TaskList_stored
    (TaskList.set_updated_at (Some t)
       (match TaskListUpdateDTO.description update_data with
        | Some v => TaskList.set_description (Some v)
        | None => fun x => x
        end
          (match TaskListUpdateDTO.name update_data with
           | Some v => TaskList.set_name v l
           | None => l
           end))).
Proof.
  intros H.
  destruct (TaskListUpdateDTO.description update_data),
           (TaskListUpdateDTO.name update_data); exact H.
Qed.

Lemma of_task_list_fields (l : TaskList.t) (p : float) (n : Z) (dto : TaskListResponseDTO.t) :
  TaskListResponseDTO.of_task_list l p n = inr dto ->
  TaskList.id l = Some (TaskListResponseDTO.id dto)
  /\ TaskListResponseDTO.name dto = TaskList.name l
  /\ TaskListResponseDTO.owner_id dto = TaskList.owner_id l
  /\ TaskListResponseDTO.completion_percentage dto = p
  /\ TaskListResponseDTO.task_count dto = n.
Proof.
  unfold TaskListResponseDTO.of_task_list.
  destruct (TaskList.id l), (TaskList.created_at l); cbn; try discriminate.
  intros H. injection H as <-. repeat split.
Qed.

Section TaskListGate.

Context {S : Type}.
Context {task_list_repository : TaskListRepository.t S}.
Context {task_repository : TaskRepository.t S}.

Lemma get_task_list_absent (w : World S) (task_list_id user_id : Z) :
  TaskListRepository.get_by_id task_list_id (db w) = None ->
  get_task_list task_list_id user_id w = (inl (TaskListNotFoundError task_list_id), w).
Proof. intros H. unfold get_task_list. run_step. now rewrite H. Qed.

Lemma update_task_list_absent (w : World S) (task_list_id user_id : Z)
    (update_data : TaskListUpdateDTO.t) :
  TaskListRepository.get_by_id task_list_id (db w) = None ->
  update_task_list task_list_id update_data user_id w
  = (inl (TaskListNotFoundError task_list_id), w).
Proof. intros H. unfold update_task_list. run_step. now rewrite H. Qed.

Lemma delete_task_list_absent (w : World S) (task_list_id user_id : Z) :
  TaskListRepository.get_by_id task_list_id (db w) = None ->
  delete_task_list task_list_id user_id w = (inl (TaskListNotFoundError task_list_id), w).
Proof. intros H. unfold delete_task_list. run_step. now rewrite H. Qed.

Lemma get_task_list_forbidden (w : World S) (task_list_id user_id : Z) (l : TaskList.t) :
  TaskListRepository.get_by_id task_list_id (db w) = Some l ->
  TaskList.owner_id l <> user_id ->
  get_task_list task_list_id user_id w = (inl no_access_to_list, w).
Proof.
  intros H Hne. apply Z.eqb_neq in Hne.
  unfold get_task_list. run_step. rewrite H. cbn. now rewrite Hne.
Qed.

Lemma update_task_list_forbidden (w : World S) (task_list_id user_id : Z)
    (update_data : TaskListUpdateDTO.t) (l : TaskList.t) :
  TaskListRepository.get_by_id task_list_id (db w) = Some l ->
  TaskList.owner_id l <> user_id ->
  update_task_list task_list_id update_data user_id w = (inl no_access_to_list, w).
Proof.
  intros H Hne. apply Z.eqb_neq in Hne.
  unfold update_task_list. run_step. rewrite H. cbn. now rewrite Hne.
Qed.

Lemma delete_task_list_forbidden (w : World S) (task_list_id user_id : Z) (l : TaskList.t) :
  TaskListRepository.get_by_id task_list_id (db w) = Some l ->
  TaskList.owner_id l <> user_id ->
  delete_task_list task_list_id user_id w = (inl no_access_to_list, w).
Proof.
  intros H Hne. apply Z.eqb_neq in Hne.
  unfold delete_task_list. run_step. rewrite H. cbn. now rewrite Hne.
Qed.

(** The owner gets the list, with one response per fetched task and the
    percentage computed from the fetched tasks; nothing is written. *)
Lemma get_task_list_owner (w : World S) (task_list_id : Z) (l : TaskList.t) :
  TaskListRepository.get_by_id task_list_id (db w) = Some l ->
  TaskList_stored l ->
  Forall Task_stored (TaskRepository.get_by_task_list task_list_id 0 100 None None (db w)) ->
  exists dto,
    get_task_list task_list_id (TaskList.owner_id l) w = (inr dto, w)
    /\ TaskListWithTasksDTO.completion_percentage dto
       = completion_percentage
           (TaskRepository.get_by_task_list task_list_id 0 100 None None (db w))
    /\ List.length (TaskListWithTasksDTO.tasks dto)
       = List.length (TaskRepository.get_by_task_list task_list_id 0 100 None None (db w)).
Proof.
  intros H Hl Hts.
  destruct (for_each_task_response _ w Hts) as (dtos & Hrun & Hall).
  destruct (with_tasks_stored l
              (completion_percentage
                 (TaskRepository.get_by_task_list task_list_id 0 100 None None (db w)))
              dtos Hl) as (dto & Hdto & Hp & Hd).
  exists dto. split; [|split].
  - unfold get_task_list. run_step. rewrite H. cbn. rewrite Z.eqb_refl. cbn.
    rewrite Hrun. exact (f_equal (fun r => (r, w)) Hdto).
  - exact Hp.
  - rewrite Hd. symmetry. exact (Forall2_length Hall).
Qed.

(** An item of [list_user_task_lists]: the count and the percentage of the
    tasks fetched for that list. *)
Lemma task_list_response_stored (w : World S) (l : TaskList.t) (i : Z) :
  TaskList.id l = Some i ->
  TaskList.created_at l <> None ->
  exists dto,
    task_list_response l w = (inr dto, w)
    /\ TaskListResponseDTO.completion_percentage dto
       = completion_percentage (TaskRepository.get_by_task_list i 0 100 None None (db w))
    /\ TaskListResponseDTO.task_count dto
       = len (TaskRepository.get_by_task_list i 0 100 None None (db w)).
Proof.
  intros Hi Hc.
  assert (Hl : TaskList_stored l) by (split; [congruence | exact Hc]).
  destruct (of_task_list_stored l
              (completion_percentage
                 (TaskRepository.get_by_task_list i 0 100 None None (db w)))
              (len (TaskRepository.get_by_task_list i 0 100 None None (db w))) Hl)
    as (dto & Hdto & Hp & Hn).
  exists dto. split; [|split; assumption].
  unfold task_list_response. rewrite Hi. run_step. cbn [required].
  exact (f_equal (fun r => (r, w)) Hdto).
Qed.

Lemma for_each_task_list_response (lists : list TaskList.t) (w : World S) :
  Forall TaskList_stored lists ->
  exists dtos,
    for_each task_list_response lists w = (inr dtos, w)
    /\ Forall2 (fun l dto =>
                  TaskList.id l = Some (TaskListResponseDTO.id dto)
                  /\ TaskListResponseDTO.name dto = TaskList.name l
                  /\ TaskListResponseDTO.task_count dto
                     = len (TaskRepository.get_by_task_list (TaskListResponseDTO.id dto) 0 100 None None
                            (db w))
                  /\ TaskListResponseDTO.completion_percentage dto
                     = completion_percentage
                         (TaskRepository.get_by_task_list (TaskListResponseDTO.id dto) 0 100 None None
                            (db w)))
               lists dtos.
Proof.
  induction 1 as [|l lists Hl _ IH].
  - exists []. split; [reflexivity | constructor].
  - destruct IH as (dtos & Hrun & Hall).
    destruct Hl as [Hid Hc].
    destruct (TaskList.id l) as [i|] eqn:Ei; [|congruence].
    destruct (task_list_response_stored w l i Ei Hc) as (dto & Hdto & Hp & Hn).
    assert (Hfields : TaskList.id l = Some (TaskListResponseDTO.id dto)
                      /\ TaskListResponseDTO.name dto = TaskList.name l).
    { revert Hdto. unfold task_list_response. rewrite Ei. run_step. cbn [required].
      intros H. injection H as H.
      destruct (of_task_list_fields _ _ _ _ H) as (Hi & Hname & _).
      split; [congruence | exact Hname]. }
    destruct Hfields as [Hi Hname].
    assert (i = TaskListResponseDTO.id dto) by congruence. subst i.
    exists (dto :: dtos). split.
    + cbn [for_each]. unfold bind at 1. rewrite Hdto.
      unfold bind at 1. rewrite Hrun. reflexivity.
    + constructor; [|exact Hall]. auto.
Qed.

Lemma update_task_list_owner (w : World S) (task_list_id : Z)
    (update_data : TaskListUpdateDTO.t) (l : TaskList.t) :
  TaskListRepository.get_by_id task_list_id (db w) = Some l ->
  TaskList_stored l ->
  (forall x, TaskList_stored x -> TaskList_stored (fst (TaskListRepository.update x (db w)))) ->
  exists dto w',
    update_task_list task_list_id update_data (TaskList.owner_id l) w = (inr dto, w').
Proof.
  intros H Hl Hupd.
  pose proof (Hupd _ (set_fields_stored update_data (now w) l Hl)) as Hst.
  unfold update_task_list. run_step. rewrite H. cbn. rewrite Z.eqb_refl. cbn.
  destruct (TaskListUpdateDTO.description update_data),
           (TaskListUpdateDTO.name update_data); cbn in Hst |- *;
  match goal with
  | |- context [TaskListRepository.update ?x (db w)] =>
      destruct (TaskListRepository.update x (db w)) as [l' s'] eqn:E
  end; cbn in Hst |- *;
  destruct (of_task_list_stored l' (TaskList.calculate_completion_percentage l') 0 Hst)
    as (dto & Hdto & _); rewrite Hdto; eauto.
Qed.

Lemma delete_task_list_owner (w : World S) (task_list_id : Z) (l : TaskList.t) :
  TaskListRepository.get_by_id task_list_id (db w) = Some l ->
  exists result w',
    delete_task_list task_list_id (TaskList.owner_id l) w = (inr result, w')
    /\ (result, db w') = TaskListRepository.delete task_list_id (db w).
Proof.
  intros H. unfold delete_task_list. run_step. rewrite H. cbn. rewrite Z.eqb_refl. cbn.
  destruct (TaskListRepository.delete task_list_id (db w)) as [[|] s'];
    cbn; eexists; eexists; split; reflexivity.
Qed.

(** C1. On a list that is absent, get, update and delete raise
    [TaskListNotFoundError] for every requester. On a list owned by [A], they
    raise [AuthorizationError] for every requester [B <> A] and return for [A]. *)
Theorem task_list_ownership_gate (w : World S) (task_list_id A B : Z)
    (update_data : TaskListUpdateDTO.t) :
  (TaskListRepository.get_by_id task_list_id (db w) = None ->
     get_task_list task_list_id B w = (inl (TaskListNotFoundError task_list_id), w)
     /\ update_task_list task_list_id update_data B w
        = (inl (TaskListNotFoundError task_list_id), w)
     /\ delete_task_list task_list_id B w = (inl (TaskListNotFoundError task_list_id), w))
  /\ (forall l,
        TaskListRepository.get_by_id task_list_id (db w) = Some l ->
        TaskList.owner_id l = A ->
        (B <> A ->
           get_task_list task_list_id B w = (inl no_access_to_list, w)
           /\ update_task_list task_list_id update_data B w = (inl no_access_to_list, w)
           /\ delete_task_list task_list_id B w = (inl no_access_to_list, w))
        /\ (TaskList_stored l ->
            Forall Task_stored
              (TaskRepository.get_by_task_list task_list_id 0 100 None None (db w)) ->
            exists dto, get_task_list task_list_id A w = (inr dto, w))
        /\ (TaskList_stored l ->
            (forall x, TaskList_stored x ->
                       TaskList_stored (fst (TaskListRepository.update x (db w)))) ->
            exists dto w', update_task_list task_list_id update_data A w = (inr dto, w'))
        /\ (exists result w', delete_task_list task_list_id A w = (inr result, w'))).
Proof.
  split.
  - intros H. split; [|split].
    + now apply get_task_list_absent.
    + now apply update_task_list_absent.
    + now apply delete_task_list_absent.
  - intros l H <-. split; [|split; [|split]].
    + intros Hne. split; [|split].
      * apply get_task_list_forbidden with l; auto.
      * apply update_task_list_forbidden with l; auto.
      * apply delete_task_list_forbidden with l; auto.
    + intros Hl Hts.
      destruct (get_task_list_owner w task_list_id l H Hl Hts) as (dto & Hrun & _).
      eauto.
    + intros Hl Hupd. now apply update_task_list_owner.
    + destruct (delete_task_list_owner w task_list_id l H) as (r & w' & Hrun & _).
      eauto.
Qed.

End TaskListGate.

Lemma in_memory_update_stored (s : InMemory.Store) (x : TaskList.t) :
  TaskList_stored x -> TaskList_stored (fst (TaskListRepository.update x s)).
Proof. intros H. exact H. Qed.

Lemma task_list_ownership_gate_witness :
  (get_task_list 99 2 Fixtures.world = (inl (TaskListNotFoundError 99), Fixtures.world)
   /\ update_task_list 99 (TaskListUpdateDTO.mk (Some "Food") None) 2 Fixtures.world
      = (inl (TaskListNotFoundError 99), Fixtures.world)
   /\ delete_task_list 99 2 Fixtures.world
      = (inl (TaskListNotFoundError 99), Fixtures.world))
  /\ (get_task_list 1 2 Fixtures.world = (inl no_access_to_list, Fixtures.world)
      /\ update_task_list 1 (TaskListUpdateDTO.mk (Some "Food") None) 2 Fixtures.world
         = (inl no_access_to_list, Fixtures.world)
      /\ delete_task_list 1 2 Fixtures.world = (inl no_access_to_list, Fixtures.world))
  /\ (exists dto, get_task_list 1 1 Fixtures.world = (inr dto, Fixtures.world))
  /\ (exists dto w',
        update_task_list 1 (TaskListUpdateDTO.mk (Some "Food") None) 1 Fixtures.world
        = (inr dto, w'))
  /\ (exists result w', delete_task_list 1 1 Fixtures.world = (inr result, w')).
Proof.
  split.
  - apply (proj1 (task_list_ownership_gate Fixtures.world 99 1 2
                    (TaskListUpdateDTO.mk (Some "Food") None))).
    reflexivity.
  - assert (Hl : TaskListRepository.get_by_id 1 (db Fixtures.world)
                 = Some Fixtures.groceries) by (vm_compute; reflexivity).
    assert (Ho : TaskList.owner_id Fixtures.groceries = 1) by reflexivity.
    destruct (proj2 (task_list_ownership_gate Fixtures.world 1 1 2
                       (TaskListUpdateDTO.mk (Some "Food") None))
                Fixtures.groceries Hl Ho) as (Hb & Hget & Hupd & Hdel).
    split; [apply Hb; lia|]. split; [|split; [|exact Hdel]].
    + apply Hget.
      * split; discriminate.
      * vm_compute. repeat constructor; discriminate.
    + apply Hupd.
      * split; discriminate.
      * apply in_memory_update_stored.
Defined.

(** ** The completion percentage of a response *)

(** C5, as the code has it. The percentage a response carries is computed from
    the tasks the service fetched for the list, the first page of the
    repository's default listing ([skip = 0], [limit = 100]), not from every
    task of the list: [get_task_list] and each item of [list_user_task_lists]
    carry [0.0] when that page is empty, and else the binary64 number
    [(K / N) * 100.0], [K / N] rounded and then the product rounded, with [N]
    the number of fetched tasks and [K] the number of COMPLETED ones among
    them. That number is [100 K / N] up to rounding (within [1e-13] for up to
    100 tasks). [TaskList.calculate_completion_percentage] computes the same
    from the tasks the entity carries. *)
Theorem completion_percentage_rounded :
  (forall l : TaskList.t,
     percentage_of (TaskList.tasks l) (TaskList.calculate_completion_percentage l))
  /\ (forall (S : Type) (task_list_repository : TaskListRepository.t S)
             (task_repository : TaskRepository.t S)
             (w : World S) (task_list_id : Z) (l : TaskList.t),
        TaskListRepository.get_by_id task_list_id (db w) = Some l ->
        TaskList_stored l ->
        let fetched := TaskRepository.get_by_task_list task_list_id 0 100 None None (db w) in
        Forall Task_stored fetched ->
        exists dto,
          get_task_list task_list_id (TaskList.owner_id l) w = (inr dto, w)
          /\ percentage_of fetched (TaskListWithTasksDTO.completion_percentage dto))
  /\ (forall (S : Type) (task_list_repository : TaskListRepository.t S)
             (task_repository : TaskRepository.t S)
             (w : World S) (user_id : Z) (pagination : PaginationDTO.t),
        let task_lists :=
          TaskListRepository.get_by_owner user_id (PaginationDTO.skip pagination)
            (PaginationDTO.limit pagination) (db w) in
        Forall TaskList_stored task_lists ->
        exists dtos,
          list_user_task_lists user_id pagination w = (inr dtos, w)
          /\ Forall2 (fun l dto =>
                        TaskList.id l = Some (TaskListResponseDTO.id dto)
                        /\ let fetched :=
                             TaskRepository.get_by_task_list (TaskListResponseDTO.id dto)
                               0 100 None None (db w) in
                           TaskListResponseDTO.task_count dto = len fetched
                           /\ percentage_of fetched
                                (TaskListResponseDTO.completion_percentage dto))
                     task_lists dtos).
Proof.
  split; [|split].
  - intros l. rewrite <- completion_percentage_entity. apply completion_percentage_of.
  - intros S tlr tr w task_list_id l Hl Hst fetched Hts.
    destruct (get_task_list_owner w task_list_id l Hl Hst Hts) as (dto & Hrun & Hp & _).
    exists dto. split; [exact Hrun|]. rewrite Hp. apply completion_percentage_of.
  - intros S tlr tr w user_id pagination task_lists Hst.
    destruct (for_each_task_list_response _ w Hst) as (dtos & Hrun & Hall).
    exists dtos. split.
    + unfold list_user_task_lists. run_step. exact Hrun.
    + clear Hrun Hst. induction Hall as [|l dto ls ds (Hid & _ & Hn & Hp) _ IH]; constructor.
      * split; [exact Hid|]. cbv zeta. split; [exact Hn|].
        rewrite Hp. apply completion_percentage_of.
      * exact IH.
Qed.

Lemma completion_percentage_rounded_witness :
  TaskList.calculate_completion_percentage Fixtures.one_of_three
  = PrimFloat.mul (truediv 1 3) 100%float
  /\ float_near (TaskList.calculate_completion_percentage Fixtures.one_of_three)
       (exact_percentage 1 3) = true
  /\ exists dto,
       get_task_list 1 1 Fixtures.world = (inr dto, Fixtures.world)
       /\ TaskListWithTasksDTO.completion_percentage dto
          = PrimFloat.mul (truediv 1 3) 100%float.
Proof.
  destruct completion_percentage_rounded as (Hentity & Hget & _).
  destruct (Hentity Fixtures.one_of_three) as (_ & Hpos & Hnear).
  split; [|split].
  - apply Hpos. vm_compute. reflexivity.
  - apply Hnear. split; vm_compute; [reflexivity | discriminate].
  - destruct (Hget InMemory.Store _ _ Fixtures.world 1 Fixtures.groceries)
      as (dto & Hrun & _ & Hp & _).
    + vm_compute. reflexivity.
    + split; discriminate.
    + vm_compute. repeat constructor; discriminate.
    + exists dto. split; [exact Hrun|]. apply Hp. vm_compute. reflexivity.
Defined.

(** C5, as stated, fails, twice over. With one task of three completed the
    code returns [0x1.0aaaaaaaaaaaap+5] (printed 33.33333333333333), which is
    neither the rational [100 * 1 / 3] nor the binary64 quotient [100 * 1 / 3]
    (printed 33.333333333333336). And [N] is not the number of tasks in the
    list: Alice's list holds 101 tasks, one of them completed, and
    [get_task_list] answers the first 100 and the percentage [0.0]. *)
Lemma completion_percentage_not_exact :
  TaskList.calculate_completion_percentage Fixtures.one_of_three = 0x1.0aaaaaaaaaaaap+5%float
  /\ (forall v, float_value (TaskList.calculate_completion_percentage Fixtures.one_of_three)
                = Some v -> ~ (v == exact_percentage 1 3)%Q)
  /\ TaskList.calculate_completion_percentage Fixtures.one_of_three <> truediv (100 * 1) 3
  /\ len (filter (fun task => Task.task_list_id task =? 1) (InMemory.tasks crowded_store))
     = 101
  /\ len (filter (fun task => (Task.task_list_id task =? 1)
                              && TaskStatus_eqb (Task.status task) COMPLETED)
            (InMemory.tasks crowded_store)) = 1
  /\ exists dto,
       get_task_list 1 1 crowded_world = (inr dto, crowded_world)
       /\ len (TaskListWithTasksDTO.tasks dto) = 100
       /\ TaskListWithTasksDTO.completion_percentage dto = 0%float.
Proof.
  split; [vm_compute; reflexivity|]. split; [|split; [|split; [|split]]].
  - intros v Hv. vm_compute in Hv. injection Hv as <-.
    intros Heq. apply Qeq_bool_iff in Heq. vm_compute in Heq. discriminate.
  - intros Heq.
    assert (H : PrimFloat.eqb (TaskList.calculate_completion_percentage Fixtures.one_of_three)
                  (truediv (100 * 1) 3) = true).
    { rewrite Heq. vm_compute. reflexivity. }
    vm_compute in H. discriminate.
  - vm_compute. reflexivity.
  - vm_compute. reflexivity.
  - eexists. split; [vm_compute; reflexivity|]. split; vm_compute; reflexivity.
Qed.

(** ** Tasks: the owner, the assignee and everybody else *)

Lemma opt_int_eqb_refl (a : option Z) : opt_int_eqb a a = true.
Proof. now apply opt_int_eqb_eq. Qed.

Lemma opt_int_eqb_false (a b : option Z) : a <> b -> opt_int_eqb a b = false.
Proof.
  intros H. destruct (opt_int_eqb a b) eqn:E; [|reflexivity].
  apply opt_int_eqb_eq in E. contradiction.
Qed.

Section TaskGate.

Context {S : Type}.
Context {user_repository : UserRepository.t S}.
Context {task_list_repository : TaskListRepository.t S}.
Context {task_repository : TaskRepository.t S}.
Context {notification_service : NotificationSender.t S}.

Variables (w : World S) (task_id user_id : Z) (task : Task.t) (l : TaskList.t).
Hypothesis Htask : TaskRepository.get_by_id task_id (db w) = Some task.
Hypothesis Hlist : TaskListRepository.get_by_id (Task.task_list_id task) (db w) = Some l.

Lemma owner_or_assignee_gate :
  owner_or_assignee l task user_id ->
  negb (TaskList.owner_id l =? user_id)
  && negb (opt_int_eqb (Task.assigned_to task) (Some user_id)) = false.
Proof.
  intros [H|H].
  - apply Z.eqb_eq in H. now rewrite H.
  - apply opt_int_eqb_eq in H. rewrite H. apply andb_false_r.
Qed.

Lemma stranger_gate :
  ~ owner_or_assignee l task user_id ->
  negb (TaskList.owner_id l =? user_id)
  && negb (opt_int_eqb (Task.assigned_to task) (Some user_id)) = true.
Proof.
  intros H. unfold owner_or_assignee in H.
  rewrite (proj2 (Z.eqb_neq _ _)) by tauto.
  rewrite opt_int_eqb_false by tauto.
  reflexivity.
Qed.

Lemma get_task_allowed :
  owner_or_assignee l task user_id ->
  Task_stored task ->
  (forall a u, Task.assigned_to task = Some a ->
               UserRepository.get_by_id a (db w) = Some u -> User_stored u) ->
  exists dto, get_task task_id user_id w = (inr dto, w)
              /\ TaskResponseDTO.id dto = match Task.id task with Some i => i | None => 0 end.
Proof.
  intros Hok Hst Husr.
  unfold get_task. run_step. rewrite Htask. cbn. rewrite Hlist. cbn.
  rewrite (owner_or_assignee_gate Hok). cbn.
  destruct (Task.assigned_to task) as [a|] eqn:Ea; cbn.
  - destruct (a =? 0); cbn.
    + destruct (of_task_stored (now w) task None Hst)
        as (dto & -> & Hid & _). eauto.
    + destruct (UserRepository.get_by_id a (db w)) as [u|] eqn:Eu; cbn.
      * destruct (of_user_stored u (Husr a u eq_refl Eu)) as (udto & ->). cbn.
        destruct (of_task_stored (now w) task (Some udto) Hst)
          as (dto & -> & Hid & _). eauto.
      * destruct (of_task_stored (now w) task None Hst)
          as (dto & -> & Hid & _). eauto.
  - destruct (of_task_stored (now w) task None Hst)
      as (dto & -> & Hid & _). eauto.
Qed.

Lemma get_task_stranger :
  ~ owner_or_assignee l task user_id -> get_task task_id user_id w = (inl no_access_to_task, w).
Proof.
  intros Hno. unfold get_task. run_step. rewrite Htask. cbn. rewrite Hlist. cbn.
  now rewrite (stranger_gate Hno).
Qed.

Lemma update_task_status_allowed (status_data : TaskStatusUpdateDTO.t) :
  owner_or_assignee l task user_id ->
  Task_stored
    (fst (TaskRepository.update_status task_id (TaskStatusUpdateDTO.status status_data)
            (db w))) ->
  exists dto w', update_task_status task_id status_data user_id w = (inr dto, w').
Proof.
  intros Hok Hst.
  unfold update_task_status. run_step. rewrite Htask. cbn. rewrite Hlist. cbn.
  rewrite (owner_or_assignee_gate Hok). cbn.
  destruct (TaskRepository.update_status task_id (TaskStatusUpdateDTO.status status_data)
              (db w)) as [t' s'].
  cbn in Hst |- *.
  destruct (of_task_stored (now w) t' None Hst) as (dto & -> & _).
  unfold construct. eauto.
Qed.

Lemma update_task_status_stranger (status_data : TaskStatusUpdateDTO.t) :
  ~ owner_or_assignee l task user_id ->
  update_task_status task_id status_data user_id w = (inl no_access_to_task, w).
Proof.
  intros Hno. unfold update_task_status. run_step. rewrite Htask. cbn. rewrite Hlist. cbn.
  now rewrite (stranger_gate Hno).
Qed.

Lemma update_task_not_owner (update_data : TaskUpdateDTO.t) :
  TaskList.owner_id l <> user_id ->
  update_task task_id update_data user_id w = (inl no_access_to_task, w).
Proof.
  intros Hne. apply Z.eqb_neq in Hne.
  unfold update_task. run_step. rewrite Htask. cbn. rewrite Hlist. cbn.
  now rewrite Hne.
Qed.

Lemma delete_task_not_owner :
  TaskList.owner_id l <> user_id ->
  delete_task task_id user_id w = (inl no_access_to_task, w).
Proof.
  intros Hne. apply Z.eqb_neq in Hne.
  unfold delete_task. run_step. rewrite Htask. cbn. rewrite Hlist. cbn.
  now rewrite Hne.
Qed.

Lemma delete_task_owner :
  TaskList.owner_id l = user_id ->
  exists result w', delete_task task_id user_id w = (inr result, w')
                    /\ (result, db w') = TaskRepository.delete task_id (db w).
Proof.
  intros Ho. apply Z.eqb_eq in Ho.
  unfold delete_task. run_step. rewrite Htask. cbn. rewrite Hlist. cbn.
  rewrite Ho. cbn.
  destruct (TaskRepository.delete task_id (db w)) as [[|] s'];
    cbn; eexists; eexists; split; reflexivity.
Qed.

(** The owner's update that leaves the assignee alone and brings no aware
    due date goes through, when the repository answers with the task it was
    given to store. *)
Lemma update_task_owner (update_data : TaskUpdateDTO.t) :
  TaskList.owner_id l = user_id ->
  TaskUpdateDTO.assigned_to update_data = None ->
  (forall d utcoffset, TaskUpdateDTO.due_date update_data <> Some (aware d utcoffset)) ->
  Task_stored task ->
  (forall x, fst (TaskRepository.update x (db w)) = x) ->
  exists dto w', update_task task_id update_data user_id w = (inr dto, w').
Proof.
  intros Ho Hnone Hdue Hst Hupd. apply Z.eqb_eq in Ho.
  unfold update_task. run_step. rewrite Htask. cbn. rewrite Hlist. cbn.
  rewrite Ho. cbn. unfold verify_assignee.
  destruct update_data as [ti de pr asg du]. cbn in Hnone, Hdue. subst asg.
  destruct ti, de, pr, du; cbn;
    match goal with
    | |- context [TaskRepository.update ?x (db w)] =>
        assert (Hst' : Task_stored x)
          by (destruct Hst as (Hi & Hc & Hd);
              split; [exact Hi | split; [exact Hc | first [exact Hd | exact Hdue]]]);
        pose proof (Hupd x) as Hx;
        destruct (TaskRepository.update x (db w)) as [t' s'];
        cbn in Hx; subst t'; cbn;
        rewrite opt_int_eqb_refl; cbn;
        destruct (of_task_stored (now w) x None Hst')
          as (dto & Hdto & _);
        cbn in Hdto; unfold task_response; run_step; cbn; rewrite Hdto; eauto
    end.
Qed.

(** C2. For a task that exists (and whose list exists): get and
    update_status return for the list's owner and for the task's assignee and
    raise [AuthorizationError] for everybody else; update and delete raise
    [AuthorizationError] for everybody but the list's owner, the assignee
    included, so they return only for the owner. (The owner's update returns
    when the request brings no aware due date: one is stored, and then makes
    the response fail.) *)
Theorem task_access_gate (status_data : TaskStatusUpdateDTO.t)
    (update_data : TaskUpdateDTO.t) :
  (owner_or_assignee l task user_id ->
     Task_stored task ->
     (forall a u, Task.assigned_to task = Some a ->
                  UserRepository.get_by_id a (db w) = Some u -> User_stored u) ->
     exists dto, get_task task_id user_id w = (inr dto, w))
  /\ (owner_or_assignee l task user_id ->
      Task_stored
        (fst (TaskRepository.update_status task_id (TaskStatusUpdateDTO.status status_data)
                (db w))) ->
      exists dto w', update_task_status task_id status_data user_id w = (inr dto, w'))
  /\ (~ owner_or_assignee l task user_id ->
      get_task task_id user_id w = (inl no_access_to_task, w)
      /\ update_task_status task_id status_data user_id w = (inl no_access_to_task, w))
  /\ (TaskList.owner_id l <> user_id ->
      update_task task_id update_data user_id w = (inl no_access_to_task, w)
      /\ delete_task task_id user_id w = (inl no_access_to_task, w))
  /\ (forall dto w', update_task task_id update_data user_id w = (inr dto, w') ->
                     TaskList.owner_id l = user_id)
  /\ (forall result w', delete_task task_id user_id w = (inr result, w') ->
                        TaskList.owner_id l = user_id)
  /\ (TaskList.owner_id l = user_id ->
      exists result w', delete_task task_id user_id w = (inr result, w'))
  /\ (TaskList.owner_id l = user_id ->
      TaskUpdateDTO.assigned_to update_data = None ->
      (forall d utcoffset, TaskUpdateDTO.due_date update_data <> Some (aware d utcoffset)) ->
      Task_stored task ->
      (forall x, fst (TaskRepository.update x (db w)) = x) ->
      exists dto w', update_task task_id update_data user_id w = (inr dto, w')).
Proof.
  repeat apply conj.
  - intros Hok Hst Husr.
    destruct (get_task_allowed Hok Hst Husr) as (dto & Hrun & _). eauto.
  - apply update_task_status_allowed.
  - intros Hno. split.
    + now apply get_task_stranger.
    + now apply update_task_status_stranger.
  - intros Hne. split.
    + now apply update_task_not_owner.
    + now apply delete_task_not_owner.
  - intros dto w' Hrun.
    destruct (Z.eq_dec (TaskList.owner_id l) user_id) as [|Hne]; [assumption|].
    rewrite (update_task_not_owner update_data Hne) in Hrun. discriminate.
  - intros result w' Hrun.
    destruct (Z.eq_dec (TaskList.owner_id l) user_id) as [|Hne]; [assumption|].
    rewrite (delete_task_not_owner Hne) in Hrun. discriminate.
  - intros Ho. destruct (delete_task_owner Ho) as (r & w' & Hrun & _). eauto.
  - apply update_task_owner.
Qed.

End TaskGate.

Lemma task_access_gate_witness :
  (exists dto, get_task 2 1 Fixtures.world = (inr dto, Fixtures.world))
  /\ (exists dto, get_task 2 2 Fixtures.world = (inr dto, Fixtures.world))
  /\ (exists dto w',
        update_task_status 2 (TaskStatusUpdateDTO.mk COMPLETED) 2 Fixtures.world
        = (inr dto, w'))
  /\ get_task 2 3 Fixtures.world = (inl no_access_to_task, Fixtures.world)
  /\ update_task_status 2 (TaskStatusUpdateDTO.mk COMPLETED) 3 Fixtures.world
     = (inl no_access_to_task, Fixtures.world)
  /\ update_task 2 (TaskUpdateDTO.mk (Some "Bread") None None None None) 2 Fixtures.world
     = (inl no_access_to_task, Fixtures.world)
  /\ delete_task 2 2 Fixtures.world = (inl no_access_to_task, Fixtures.world)
  /\ (exists dto w',
        update_task 2 (TaskUpdateDTO.mk (Some "Bread") None None None None) 1 Fixtures.world
        = (inr dto, w'))
  /\ (exists result w', delete_task 2 1 Fixtures.world = (inr result, w')).
Proof.
  assert (Ht : TaskRepository.get_by_id 2 (db Fixtures.world)
               = Some (Fixtures.task 2 PENDING (Some 2) None)) by (vm_compute; reflexivity).
  assert (Hl : TaskListRepository.get_by_id
                 (Task.task_list_id (Fixtures.task 2 PENDING (Some 2) None))
                 (db Fixtures.world) = Some Fixtures.groceries) by (vm_compute; reflexivity).
  assert (Hst : Task_stored (Fixtures.task 2 PENDING (Some 2) None))
    by (repeat split; discriminate).
  pose (gate := fun user_id =>
          task_access_gate Fixtures.world 2 user_id _ _
            Ht Hl (TaskStatusUpdateDTO.mk COMPLETED)
            (TaskUpdateDTO.mk (Some "Bread") None None None None)).
  assert (Husr : forall a u,
             Task.assigned_to (Fixtures.task 2 PENDING (Some 2) None) = Some a ->
             UserRepository.get_by_id a (db Fixtures.world) = Some u -> User_stored u).
  { intros a u Ha. injection Ha as <-. vm_compute. intros Hu. injection Hu as <-.
    split; discriminate. }
  destruct (gate 1) as (Hget1 & _ & _ & _ & _ & _ & Hdel1 & Hupd1).
  destruct (gate 2) as (Hget2 & Hst2 & _ & Hno2 & _).
  destruct (gate 3) as (_ & _ & Hno3 & _).
  assert (Hbob : TaskList.owner_id Fixtures.groceries <> 2) by (vm_compute; discriminate).
  assert (Hcarol : ~ owner_or_assignee Fixtures.groceries
                       (Fixtures.task 2 PENDING (Some 2) None) 3).
  { intros [H|H]; vm_compute in H; discriminate. }
  split; [apply Hget1; [left; reflexivity | exact Hst | exact Husr]|].
  split; [apply Hget2; [right; reflexivity | exact Hst | exact Husr]|].
  split; [apply Hst2; [right; reflexivity | vm_compute; repeat split; discriminate]|].
  split; [apply (proj1 (Hno3 Hcarol))|].
  split; [apply (proj2 (Hno3 Hcarol))|].
  split; [apply (proj1 (Hno2 Hbob))|].
  split; [apply (proj2 (Hno2 Hbob))|].
  split; [apply Hupd1; [reflexivity | reflexivity | discriminate | exact Hst | reflexivity]|].
  apply Hdel1. reflexivity.
Defined.

(** ** Registration and login *)

(** What the expiry computation raises is an [OverflowError]. *)
Lemma add_minutes_raises (d : datetime) (m : Z) (e : Exn) :
  add_minutes d m = inl e -> e = OverflowError.
Proof.
  unfold add_minutes, timedelta_minutes.
  destruct ((-999999999 <=? m / 1440) && (m / 1440 <=? 999999999)).
  - destruct ((0 <=? d + m * 60 * 1000000) && (d + m * 60 * 1000000 <=? datetime_max));
      congruence.
  - congruence.
Qed.

Section Auth.

Context {S : Type}.
Context {user_repository : UserRepository.t S}.

Variable pwd_context_hash : string -> Result string.
Variable pwd_context_verify : string -> string -> Result bool.
Variable jwt_encode : list (string * ClaimValue) -> string -> string -> Result string.
Variable self : AuthService.t.

Lemma register_user_email_taken (w : World S) (user_data : UserCreateDTO.t) :
  UserRepository.get_by_email (UserCreateDTO.email user_data) (db w) <> None ->
  register_user pwd_context_hash user_data w
  = (inl (EmailAlreadyExistsError (UserCreateDTO.email user_data)), w).
Proof.
  intros H. unfold register_user. run_step.
  destruct (UserRepository.get_by_email (UserCreateDTO.email user_data) (db w));
    [reflexivity | congruence].
Qed.

Lemma register_user_username_taken (w : World S) (user_data : UserCreateDTO.t) :
  UserRepository.get_by_email (UserCreateDTO.email user_data) (db w) = None ->
  UserRepository.get_by_username (UserCreateDTO.username user_data) (db w) <> None ->
  register_user pwd_context_hash user_data w
  = (inl (UsernameAlreadyExistsError (UserCreateDTO.username user_data)), w).
Proof.
  intros He H. unfold register_user. run_step. rewrite He. cbn.
  destruct (UserRepository.get_by_username (UserCreateDTO.username user_data) (db w));
    [reflexivity | congruence].
Qed.

(** A registration with a free email and a free username: the password is
    hashed, and what [hash] raises is raised before anything is written; else
    the user is created, the creation logged and the created user answered. *)
Lemma register_user_run (w : World S) (user_data : UserCreateDTO.t) :
  UserRepository.get_by_email (UserCreateDTO.email user_data) (db w) = None ->
  UserRepository.get_by_username (UserCreateDTO.username user_data) (db w) = None ->
  register_user pwd_context_hash user_data w
  = match pwd_context_hash (UserCreateDTO.password user_data) with
    | inl e => (inl e, w)
    | inr hashed_password =>
        let (created, s) :=
          UserRepository.create (new_user hashed_password user_data (now w)) (db w) in
        (UserResponseDTO.of_user created,
         mkWorld s (now w) (log w ++ [UserRegistered (User.email created)]))
    end.
Proof.
  intros He Hu. unfold register_user, _hash_password. run_step.
  rewrite He. cbn. rewrite Hu. cbn.
  destruct (pwd_context_hash (UserCreateDTO.password user_data)) as [e|h]; [reflexivity|].
  unfold new_user.
  destruct (UserRepository.create _ (db w)) as [created s]. reflexivity.
Qed.

(** C4. A registration whose email is taken raises [EmailAlreadyExistsError];
    one whose email is free and whose username is taken raises
    [UsernameAlreadyExistsError]; with both taken it is the email that is
    reported. Nothing is written in any of these cases. *)
Theorem register_user_conflicts (w : World S) (user_data : UserCreateDTO.t) :
  let email := UserCreateDTO.email user_data in
  let username := UserCreateDTO.username user_data in
  (UserRepository.get_by_email email (db w) <> None ->
     register_user pwd_context_hash user_data w = (inl (EmailAlreadyExistsError email), w))
  /\ (UserRepository.get_by_email email (db w) = None ->
      UserRepository.get_by_username username (db w) <> None ->
      register_user pwd_context_hash user_data w
      = (inl (UsernameAlreadyExistsError username), w))
  /\ (UserRepository.get_by_email email (db w) <> None ->
      UserRepository.get_by_username username (db w) <> None ->
      register_user pwd_context_hash user_data w = (inl (EmailAlreadyExistsError email), w)).
Proof.
  cbv zeta. split; [|split].
  - apply register_user_email_taken.
  - apply register_user_username_taken.
  - intros He _. now apply register_user_email_taken.
Qed.

Lemma authenticate_user_unknown (w : World S) (login_data : LoginDTO.t) :
  resolve_login (LoginDTO.email login_data) (db w) = None ->
  authenticate_user pwd_context_verify jwt_encode self login_data w
  = (inl invalid_credentials, w).
Proof.
  unfold resolve_login, authenticate_user. run_step.
  destruct (UserRepository.get_by_email (LoginDTO.email login_data) (db w)); cbn;
    [discriminate|].
  intros ->. reflexivity.
Qed.

(** Once the identifier stands for [user], the outcome depends on [user], the
    two libraries and the clock: the password is verified first, the account
    looked at next, then the expiry computed and the token signed. *)
Lemma authenticate_user_known (w : World S) (login_data : LoginDTO.t) (user : User.t) :
  resolve_login (LoginDTO.email login_data) (db w) = Some user ->
  authenticate_user pwd_context_verify jwt_encode self login_data w
  = match pwd_context_verify (LoginDTO.password login_data) (User.hashed_password user) with
    | inl e => (inl e, w)
    | inr verified =>
        if negb verified then (inl invalid_credentials, w)
        else if negb (User.is_active user) then (inl account_inactive, w)
        else
          match add_minutes (now w) (AuthService.access_token_expire_minutes self) with
          | inl e => (inl e, w)
          | inr expire =>
              match jwt_encode (token_payload user expire)
                      (AuthService.secret_key self) (AuthService.algorithm self) with
              | inl e => (inl e, w)
              | inr access_token =>
                  (inr (TokenResponseDTO.mk access_token "bearer"
                          (AuthService.access_token_expire_minutes self * 60)),
                   mkWorld (db w) (now w) (log w ++ [UserAuthenticated (User.email user)]))
              end
          end
    end.
Proof.
  assert (Hrest : forall u : User.t,
    (verified <-
       construct (_verify_password pwd_context_verify (LoginDTO.password login_data)
                    (User.hashed_password u)) ;;
     if negb verified
     then raise (AuthenticationError "Invalid credentials")
     else
       when (negb (User.is_active u))
            (raise (AuthenticationError "User account is inactive")) ;;;
       access_token <-
         _create_access_token jwt_encode self [("sub", ClaimStr (str_opt_int (User.id u)))] ;;
       logger_info (UserAuthenticated (User.email u)) ;;;
       ret (TokenResponseDTO.mk access_token "bearer"
              (AuthService.access_token_expire_minutes self * 60))) w
    = match pwd_context_verify (LoginDTO.password login_data) (User.hashed_password u) with
      | inl e => (inl e, w)
      | inr verified =>
          if negb verified then (inl invalid_credentials, w)
          else if negb (User.is_active u) then (inl account_inactive, w)
          else
            match add_minutes (now w) (AuthService.access_token_expire_minutes self) with
            | inl e => (inl e, w)
            | inr expire =>
                match jwt_encode (token_payload u expire)
                        (AuthService.secret_key self) (AuthService.algorithm self) with
                | inl e => (inl e, w)
                | inr access_token =>
                    (inr (TokenResponseDTO.mk access_token "bearer"
                            (AuthService.access_token_expire_minutes self * 60)),
                     mkWorld (db w) (now w) (log w ++ [UserAuthenticated (User.email u)]))
                end
            end
      end).
  { intros u. unfold _verify_password, _create_access_token, token_payload. run_step.
    destruct (pwd_context_verify _ _) as [e|[|]]; cbn; try reflexivity.
    destruct (User.is_active u); cbn; [|reflexivity].
    destruct (add_minutes _ _) as [e|expire]; cbn; [reflexivity|].
    destruct (jwt_encode _ _ _) as [e|token]; reflexivity. }
  unfold resolve_login. intros Hres.
  unfold authenticate_user. unfold bind at 1. unfold query at 1.
  destruct (UserRepository.get_by_email (LoginDTO.email login_data) (db w)) as [u|].
  - injection Hres as ->. cbn [is_some negb]. unfold bind at 1. unfold ret at 1.
    apply Hrest.
  - cbn [is_some negb]. unfold bind at 1. unfold query at 1. rewrite Hres.
    apply Hrest.
Qed.

(** C3, as the code has it. The login identifier is looked up as an email
    first and as a username only when no user has that email. When no user is
    found, or the verifier answers that the password does not match, the one
    [AuthenticationError] "Invalid credentials" is raised; when the verifier
    itself raises on the password of a user who was found, that exception is
    what the login raises. "User account is inactive" is raised exactly when a
    user is found, the password verifies and the account is not active (the
    libraries raising exceptions of their own, not this one). Otherwise the
    expiry is computed and the token signed: what either raises comes out of
    the login, and else the token comes back. Nothing is written on a failure.
    The two errors are the same class and code, told apart by their message. *)
Theorem authenticate_user_outcomes (w : World S) (login_data : LoginDTO.t) :
  let identifier := LoginDTO.email login_data in
  let login := authenticate_user pwd_context_verify jwt_encode self login_data w in
  let verifies (u : User.t) :=
    pwd_context_verify (LoginDTO.password login_data) (User.hashed_password u) in
  let expire_minutes := AuthService.access_token_expire_minutes self in
  let encode (u : User.t) (expire : datetime) :=
    jwt_encode (token_payload u expire)
      (AuthService.secret_key self) (AuthService.algorithm self) in
  (invalid_credentials <> account_inactive
   /\ error_code invalid_credentials = error_code account_inactive)
  /\ (forall u, UserRepository.get_by_email identifier (db w) = Some u ->
                resolve_login identifier (db w) = Some u)
  /\ (UserRepository.get_by_email identifier (db w) = None ->
      resolve_login identifier (db w) = UserRepository.get_by_username identifier (db w))
  /\ (resolve_login identifier (db w) = None -> login = (inl invalid_credentials, w))
  /\ (forall u, resolve_login identifier (db w) = Some u -> verifies u = inr false ->
                login = (inl invalid_credentials, w))
  /\ (forall u e, resolve_login identifier (db w) = Some u -> verifies u = inl e ->
                  login = (inl e, w))
  /\ ((forall u m, verifies u <> inl (AuthenticationError m)) ->
      (forall u expire m, encode u expire <> inl (AuthenticationError m)) ->
      forall w', login = (inl account_inactive, w') <->
                 w' = w /\ exists u, resolve_login identifier (db w) = Some u
                                     /\ verifies u = inr true /\ User.is_active u = false)
  /\ (forall u, resolve_login identifier (db w) = Some u -> verifies u = inr true ->
                User.is_active u = true ->
                (forall e, add_minutes (now w) expire_minutes = inl e -> login = (inl e, w))
                /\ (forall expire e, add_minutes (now w) expire_minutes = inr expire ->
                                     encode u expire = inl e -> login = (inl e, w))
                /\ (forall expire access_token,
                      add_minutes (now w) expire_minutes = inr expire ->
                      encode u expire = inr access_token ->
                      login = (inr (TokenResponseDTO.mk access_token "bearer"
                                      (expire_minutes * 60)),
                               mkWorld (db w) (now w)
                                 (log w ++ [UserAuthenticated (User.email u)])))).
Proof.
  cbv zeta. repeat apply conj.
  - discriminate.
  - reflexivity.
  - intros u H. unfold resolve_login. now rewrite H.
  - intros H. unfold resolve_login. now rewrite H.
  - apply authenticate_user_unknown.
  - intros u Hu Hv. rewrite (authenticate_user_known w login_data u Hu), Hv. reflexivity.
  - intros u e Hu Hv. rewrite (authenticate_user_known w login_data u Hu), Hv. reflexivity.
  - intros Hverify Hencode w'. split.
    + destruct (resolve_login (LoginDTO.email login_data) (db w)) as [u|] eqn:Hu.
      * rewrite (authenticate_user_known w login_data u Hu).
        destruct (pwd_context_verify _ _) as [e|[|]] eqn:Hv; cbn.
        -- intros H. injection H as -> _. now destruct (Hverify u _ Hv).
        -- destruct (User.is_active u) eqn:Ha; cbn.
           ++ destruct (add_minutes _ _) as [e|expire] eqn:Hx.
              ** apply add_minutes_raises in Hx. subst e. discriminate.
              ** destruct (jwt_encode _ _ _) as [e|token] eqn:He; [|discriminate].
                 intros H. injection H as -> _. now destruct (Hencode u expire _ He).
           ++ intros H. injection H as <-. split; [reflexivity|]. exists u. auto.
        -- discriminate.
      * rewrite (authenticate_user_unknown w login_data Hu). discriminate.
    + intros (-> & u & Hu & Hv & Ha).
      rewrite (authenticate_user_known w login_data u Hu), Hv, Ha. reflexivity.
  - intros u Hu Hv Ha.
    rewrite (authenticate_user_known w login_data u Hu), Hv, Ha. cbn [negb].
    split; [|split].
    + intros e Hx. rewrite Hx. reflexivity.
    + intros expire e Hx He. rewrite Hx, He. reflexivity.
    + intros expire access_token Hx He. rewrite Hx, He. reflexivity.
Qed.

End Auth.

Lemma register_user_conflicts_witness :
  register_user Fixtures.pwd_hash
    (UserCreateDTO.mk "alice@example.com" "bob" None "longenoughpw") Fixtures.world
  = (inl (EmailAlreadyExistsError "alice@example.com"), Fixtures.world)
  /\ register_user Fixtures.pwd_hash
       (UserCreateDTO.mk "new@example.com" "bob" None "longenoughpw") Fixtures.world
     = (inl (UsernameAlreadyExistsError "bob"), Fixtures.world).
Proof.
  split.
  - apply (proj2 (proj2 (register_user_conflicts Fixtures.pwd_hash Fixtures.world
                           (UserCreateDTO.mk "alice@example.com" "bob" None "longenoughpw"))));
      vm_compute; discriminate.
  - apply (proj1 (proj2 (register_user_conflicts Fixtures.pwd_hash Fixtures.world
                           (UserCreateDTO.mk "new@example.com" "bob" None "longenoughpw"))));
      vm_compute; [reflexivity | discriminate].
Defined.

Lemma authenticate_user_outcomes_witness :
  authenticate_user Fixtures.pwd_verify Fixtures.jwt Fixtures.auth
    (LoginDTO.mk "nobody" "a") Fixtures.world
  = (inl invalid_credentials, Fixtures.world)
  /\ authenticate_user Fixtures.pwd_verify Fixtures.jwt Fixtures.auth
       (LoginDTO.mk "alice@example.com" "wrong") Fixtures.world
     = (inl invalid_credentials, Fixtures.world)
  /\ authenticate_user Fixtures.pwd_verify Fixtures.jwt Fixtures.auth
       (LoginDTO.mk "alice" Fixtures.nul_password) Fixtures.world
     = (inl Fixtures.null_password, Fixtures.world)
  /\ authenticate_user Fixtures.pwd_verify Fixtures.jwt Fixtures.auth
       (LoginDTO.mk "carol" "c") Fixtures.world
     = (inl account_inactive, Fixtures.world)
  /\ authenticate_user Fixtures.pwd_verify Fixtures.jwt Fixtures.auth
       (LoginDTO.mk "alice" "a") Fixtures.world
     = (inr (TokenResponseDTO.mk "1" "bearer" 1800),
        mkWorld Fixtures.store 5000 [UserAuthenticated "alice@example.com"]).
Proof.
  assert (outcomes := authenticate_user_outcomes Fixtures.pwd_verify Fixtures.jwt
                        Fixtures.auth Fixtures.world).
  cbv zeta in outcomes.
  split; [|split; [|split; [|split]]].
  - destruct (outcomes (LoginDTO.mk "nobody" "a")) as (_ & _ & _ & Hnone & _).
    apply Hnone. vm_compute. reflexivity.
  - destruct (outcomes (LoginDTO.mk "alice@example.com" "wrong"))
      as (_ & _ & _ & _ & Hfalse & _).
    apply (Hfalse Fixtures.alice); vm_compute; reflexivity.
  - destruct (outcomes (LoginDTO.mk "alice" Fixtures.nul_password))
      as (_ & _ & _ & _ & _ & Hraise & _).
    apply (Hraise Fixtures.alice); vm_compute; reflexivity.
  - destruct (outcomes (LoginDTO.mk "carol" "c")) as (_ & _ & _ & _ & _ & _ & Hinactive & _).
    apply Hinactive.
    + intros u m. unfold Fixtures.pwd_verify.
      destruct (Fixtures.has_nul _); discriminate.
    + intros u expire m. discriminate.
    + split; [reflexivity|]. exists Fixtures.carol. repeat split; vm_compute; reflexivity.
  - destruct (outcomes (LoginDTO.mk "alice" "a")) as (_ & _ & _ & _ & _ & _ & _ & Htoken).
    destruct (Htoken Fixtures.alice) as (_ & _ & Hreturns);
      [vm_compute; reflexivity | vm_compute; reflexivity | reflexivity |].
    apply (Hreturns (5000 + 30 * 60 * 1000000)); vm_compute; reflexivity.
Defined.

(** C3, as stated, fails. Alice is known and the password handed in for her
    holds a NUL character: the verifier raises, and the login fails with the
    verifier's exception, which is not "Invalid credentials" and which the
    exception handler does not answer. With the same password for an
    identifier nobody has, the login fails with "Invalid credentials": the two
    cases are told apart. *)
Lemma authenticate_user_unverifiable_password :
  resolve_login "alice" Fixtures.store = Some Fixtures.alice
  /\ Fixtures.pwd_verify Fixtures.nul_password (User.hashed_password Fixtures.alice)
     = inl Fixtures.null_password
  /\ authenticate_user Fixtures.pwd_verify Fixtures.jwt Fixtures.auth
       (LoginDTO.mk "alice" Fixtures.nul_password) Fixtures.world
     = (inl Fixtures.null_password, Fixtures.world)
  /\ Fixtures.null_password <> invalid_credentials
  /\ task_manager_exception_handler Fixtures.null_password = None
  /\ resolve_login "nobody" Fixtures.store = None
  /\ authenticate_user Fixtures.pwd_verify Fixtures.jwt Fixtures.auth
       (LoginDTO.mk "nobody" Fixtures.nul_password) Fixtures.world
     = (inl invalid_credentials, Fixtures.world).
Proof. repeat split; try discriminate; vm_compute; reflexivity. Qed.

(** ** Assignment: the check, and the value that slips past it *)

(** An update that brings no aware due date leaves a stored task stored. *)
Lemma updated_fields_stored (update_data : TaskUpdateDTO.t) (t : datetime) (task : Task.t) :
  Task_stored task ->
  (forall d utcoffset, TaskUpdateDTO.due_date update_data <> Some (aware d utcoffset)) ->
  Task_stored (Task.set_updated_at (Some t) (updated_fields update_data task)).
Proof.
  intros (Hid & Hc & Hd) Hdue. split; [exact Hid | split; [exact Hc|]]. cbn.
  destruct (TaskUpdateDTO.due_date update_data); [exact Hdue | exact Hd].
Qed.

Section Assignment.

Context {S : Type}.
Context {user_repository : UserRepository.t S}.
Context {task_list_repository : TaskListRepository.t S}.
Context {task_repository : TaskRepository.t S}.
Context {notification_service : NotificationSender.t S}.

(** The check raises for a truthy user id that is unknown or inactive, and only
    then; it never writes. *)
Lemma verify_assignee_run (assigned_to : option Z) (w : World S) :
  verify_assignee assigned_to w
  = match assigned_to with
    | None => (inr tt, w)
    | Some a =>
        if a =? 0 then (inr tt, w)
        else match UserRepository.get_by_id a (db w) with
             | None => (inl (UserNotFoundError a), w)
             | Some assignee =>
                 if User.is_active assignee then (inr tt, w)
                 else (inl (TaskAssignmentError "Cannot assign task to inactive user"), w)
             end
    end.
Proof.
  unfold verify_assignee. destruct assigned_to as [a|]; cbn; [|reflexivity].
  destruct (a =? 0); cbn; [reflexivity|]. run_step.
  destruct (UserRepository.get_by_id a (db w)) as [u|]; cbn; [|reflexivity].
  destruct (User.is_active u); reflexivity.
Qed.

(** A truthy assignee that exists gets the email; what the notification
    service raises comes out of [_send_assignment_notification]. *)
Lemma send_assignment_notification_run (task : Task.t) (a : Z) (assignee : User.t)
    (w : World S) :
  Task.assigned_to task = Some a ->
  a <> 0 ->
  UserRepository.get_by_id a (db w) = Some assignee ->
  _send_assignment_notification task w
  = match NotificationSender.send_email_notification (assignment_email task assignee) w with
    | (inl e, w') => (inl e, w')
    | (inr _, w') => (inr tt, w')
    end.
Proof.
  intros Ha Hnz Hu. apply Z.eqb_neq in Hnz.
  unfold _send_assignment_notification. rewrite Ha. cbn [truthy_int required]. rewrite Hnz.
  cbn [negb]. run_step. rewrite Hu.
  assert (Hmail :
    EmailNotificationDTO.mk (User.email assignee) ("Task Assigned: " ++ Task.title task)
      ("You have been assigned a new task: " ++ Task.title task
         ++ String (ascii_of_nat 10) (String (ascii_of_nat 10) "Description: ")
         ++ (if truthy_str (Task.description task)
             then match Task.description task with Some d => d | None => EmptyString end
             else "No description"))
      (Task.id task) (User.id assignee)
    = assignment_email task assignee).
  { unfold assignment_email. destruct (Task.description task) as [[|c d]|]; reflexivity. }
  rewrite Hmail.
  destruct (NotificationSender.send_email_notification (assignment_email task assignee) w)
    as [[e|b] w']; reflexivity.
Qed.

Section Create.

Variables (w : World S) (task_list_id user_id : Z) (task_data : TaskCreateDTO.t).
Variable l : TaskList.t.
Hypothesis Hlist : TaskListRepository.get_by_id task_list_id (db w) = Some l.
Hypothesis Howner : TaskList.owner_id l = user_id.

(** After the two gates, [create_task] is the assignee check and then the rest. *)
Lemma create_task_past_gates :
  create_task task_list_id task_data user_id w
  = match verify_assignee (TaskCreateDTO.assigned_to task_data) w with
    | (inl e, w1) => (inl e, w1)
    | (inr _, w1) =>
        let task :=
          Task.mk None (TaskCreateDTO.title task_data) (TaskCreateDTO.description task_data)
                  PENDING (TaskCreateDTO.priority task_data) task_list_id
                  (TaskCreateDTO.assigned_to task_data) (Some (now w1)) None
                  (TaskCreateDTO.due_date task_data) in
        let (created_task, s) := TaskRepository.create task (db w1) in
        let w2 := mkWorld s (now w1)
                    (log w1 ++ [TaskCreated (Task.id created_task) task_list_id]) in
        match when (truthy_int (Task.assigned_to created_task))
                   (_send_assignment_notification created_task) w2 with
        | (inl e, w3) => (inl e, w3)
        | (inr _, w3) => task_response created_task w3
        end
    end.
Proof.
  apply Z.eqb_eq in Howner.
  unfold create_task. unfold bind at 1. unfold query at 1. rewrite Hlist.
  unfold bind at 1. unfold or_raise, ret at 1.
  unfold bind at 1. unfold when at 1. rewrite Howner. cbn [negb]. unfold ret at 1.
  unfold bind at 1.
  destruct (verify_assignee (TaskCreateDTO.assigned_to task_data) w) as [[e|[]] w1];
    [reflexivity|].
  unfold bind at 1. unfold utcnow at 1.
  unfold bind at 1. unfold command at 1.
  destruct (TaskRepository.create _ (db w1)) as [created_task s].
  unfold bind at 1. unfold logger_info at 1. cbn [db now log].
  unfold bind at 1. reflexivity.
Qed.

Lemma create_task_user_not_found (a : Z) :
  TaskCreateDTO.assigned_to task_data = Some a ->
  a <> 0 ->
  UserRepository.get_by_id a (db w) = None ->
  create_task task_list_id task_data user_id w = (inl (UserNotFoundError a), w).
Proof.
  intros Ha Hnz Hu. apply Z.eqb_neq in Hnz.
  rewrite create_task_past_gates, verify_assignee_run, Ha, Hnz, Hu. reflexivity.
Qed.

Lemma create_task_user_inactive (a : Z) (assignee : User.t) :
  TaskCreateDTO.assigned_to task_data = Some a ->
  a <> 0 ->
  UserRepository.get_by_id a (db w) = Some assignee ->
  User.is_active assignee = false ->
  create_task task_list_id task_data user_id w
  = (inl (TaskAssignmentError "Cannot assign task to inactive user"), w).
Proof.
  intros Ha Hnz Hu Hi. apply Z.eqb_neq in Hnz.
  rewrite create_task_past_gates, verify_assignee_run, Ha, Hnz, Hu, Hi. reflexivity.
Qed.

(** With [assigned_to = 0] no user is looked up: the task goes to the
    repository with assignee [0], and no notification is sent for it. *)
Lemma create_task_assignee_zero :
  TaskCreateDTO.assigned_to task_data = Some 0 ->
  let task :=
    Task.mk None (TaskCreateDTO.title task_data) (TaskCreateDTO.description task_data)
            PENDING (TaskCreateDTO.priority task_data) task_list_id
            (Some 0) (Some (now w)) None (TaskCreateDTO.due_date task_data) in
  Task_stored (fst (TaskRepository.create task (db w))) ->
  Task.assigned_to (fst (TaskRepository.create task (db w))) = Some 0 ->
  exists dto w',
    create_task task_list_id task_data user_id w = (inr dto, w')
    /\ TaskResponseDTO.assigned_to dto = Some 0
    /\ db w' = snd (TaskRepository.create task (db w)).
Proof.
  intros Ha task Hst Hz.
  rewrite create_task_past_gates, verify_assignee_run, Ha. cbn [Z.eqb].
  cbv zeta. fold task.
  destruct (TaskRepository.create task (db w)) as [created s] eqn:E.
  cbn [fst snd] in *. rewrite Hz. cbn [truthy_int Z.eqb negb when ret].
  rewrite task_response_run.
  destruct (of_task_stored (now w) created None Hst)
    as (dto & Hdto & _ & Hasg & _).
  cbn [now]. rewrite Hdto. exists dto. eexists. split; [reflexivity|].
  split; [congruence | reflexivity].
Qed.

(** Nothing stands between the notification and the caller: what the
    notification service raises, [create_task] raises, after the task was
    stored. *)
Lemma create_task_notification_raises (a : Z) (assignee assignee' : User.t)
    (created : Task.t) (s : S) (e : Exn) (w' : World S) :
  TaskCreateDTO.assigned_to task_data = Some a ->
  a <> 0 ->
  UserRepository.get_by_id a (db w) = Some assignee ->
  User.is_active assignee = true ->
  TaskRepository.create
    (Task.mk None (TaskCreateDTO.title task_data) (TaskCreateDTO.description task_data)
             PENDING (TaskCreateDTO.priority task_data) task_list_id
             (Some a) (Some (now w)) None (TaskCreateDTO.due_date task_data))
    (db w) = (created, s) ->
  Task.assigned_to created = Some a ->
  UserRepository.get_by_id a s = Some assignee' ->
  NotificationSender.send_email_notification (assignment_email created assignee')
    (mkWorld s (now w) (log w ++ [TaskCreated (Task.id created) task_list_id]))
  = (inl e, w') ->
  create_task task_list_id task_data user_id w = (inl e, w').
Proof.
  intros Ha Hnz Hu Hact Hcreate Hasg Hu' Hsend.
  rewrite create_task_past_gates, verify_assignee_run, Ha.
  rewrite (proj2 (Z.eqb_neq a 0) Hnz), Hu, Hact. cbv zeta. rewrite Hcreate.
  rewrite Hasg. cbn [truthy_int]. rewrite (proj2 (Z.eqb_neq a 0) Hnz). cbn [negb when].
  rewrite (send_assignment_notification_run created a assignee'
             (mkWorld s (now w) (log w ++ [TaskCreated (Task.id created) task_list_id]))
             Hasg Hnz Hu'), Hsend.
  reflexivity.
Qed.

End Create.

Section Update.

Variables (w : World S) (task_id user_id : Z) (update_data : TaskUpdateDTO.t).
Variables (task : Task.t) (l : TaskList.t).
Hypothesis Htask : TaskRepository.get_by_id task_id (db w) = Some task.
Hypothesis Hlist : TaskListRepository.get_by_id (Task.task_list_id task) (db w) = Some l.
Hypothesis Howner : TaskList.owner_id l = user_id.

Lemma update_task_past_gates :
  update_task task_id update_data user_id w
  = match verify_assignee (TaskUpdateDTO.assigned_to update_data) w with
    | (inl e, w1) => (inl e, w1)
    | (inr _, w1) =>
        let task' := Task.set_updated_at (Some (now w1)) (updated_fields update_data task) in
        let (updated_task, s) := TaskRepository.update task' (db w1) in
        let w2 := mkWorld s (now w1) (log w1 ++ [TaskUpdated task_id user_id]) in
        match when (negb (opt_int_eqb (Task.assigned_to task) (Task.assigned_to updated_task))
                    && truthy_int (Task.assigned_to updated_task))
                   (_send_assignment_notification updated_task) w2 with
        | (inl e, w3) => (inl e, w3)
        | (inr _, w3) => task_response updated_task w3
        end
    end.
Proof.
  apply Z.eqb_eq in Howner.
  unfold update_task. unfold bind at 1. unfold query at 1. rewrite Htask.
  unfold bind at 1. unfold or_raise, ret at 1.
  unfold bind at 1. unfold query at 1. rewrite Hlist.
  unfold bind at 1. unfold attr, ret at 1.
  unfold bind at 1. unfold when at 1. rewrite Howner. cbn [negb]. unfold ret at 1.
  unfold bind at 1.
  destruct (verify_assignee (TaskUpdateDTO.assigned_to update_data) w) as [[e|[]] w1];
    [reflexivity|].
  unfold bind at 1. unfold utcnow at 1.
  unfold bind at 1. unfold command at 1.
  match goal with
  | |- context [TaskRepository.update ?x (db w1)] =>
      replace x with (Task.set_updated_at (Some (now w1)) (updated_fields update_data task))
  end.
  - cbv zeta.
    destruct (TaskRepository.update _ (db w1)) as [updated_task s].
    unfold bind at 1. unfold logger_info at 1. cbn [db now log].
    unfold bind at 1. reflexivity.
  - destruct update_data as [ti de pr asg du], task.
    destruct ti, de, pr, asg, du; reflexivity.
Qed.

Lemma update_task_user_not_found (a : Z) :
  TaskUpdateDTO.assigned_to update_data = Some a ->
  a <> 0 ->
  UserRepository.get_by_id a (db w) = None ->
  update_task task_id update_data user_id w = (inl (UserNotFoundError a), w).
Proof.
  intros Ha Hnz Hu. apply Z.eqb_neq in Hnz.
  rewrite update_task_past_gates, verify_assignee_run, Ha, Hnz, Hu. reflexivity.
Qed.

Lemma update_task_user_inactive (a : Z) (assignee : User.t) :
  TaskUpdateDTO.assigned_to update_data = Some a ->
  a <> 0 ->
  UserRepository.get_by_id a (db w) = Some assignee ->
  User.is_active assignee = false ->
  update_task task_id update_data user_id w
  = (inl (TaskAssignmentError "Cannot assign task to inactive user"), w).
Proof.
  intros Ha Hnz Hu Hi. apply Z.eqb_neq in Hnz.
  rewrite update_task_past_gates, verify_assignee_run, Ha, Hnz, Hu, Hi. reflexivity.
Qed.

(** With [assigned_to = 0] no user is looked up, and the field is applied all
    the same: the task is stored with assignee [0]. *)
Lemma update_task_assignee_zero :
  TaskUpdateDTO.assigned_to update_data = Some 0 ->
  (forall d utcoffset, TaskUpdateDTO.due_date update_data <> Some (aware d utcoffset)) ->
  Task_stored task ->
  (forall x, fst (TaskRepository.update x (db w)) = x) ->
  exists dto w',
    update_task task_id update_data user_id w = (inr dto, w')
    /\ TaskResponseDTO.assigned_to dto = Some 0
    /\ db w' = snd (TaskRepository.update
                      (Task.set_updated_at (Some (now w)) (updated_fields update_data task))
                      (db w)).
Proof.
  intros Ha Hdue Hst Hupd.
  rewrite update_task_past_gates, verify_assignee_run, Ha. cbn [Z.eqb]. cbv zeta.
  pose proof (Hupd (Task.set_updated_at (Some (now w)) (updated_fields update_data task)))
    as Hx.
  destruct (TaskRepository.update _ (db w)) as [updated s] eqn:E.
  cbn [fst snd] in *. subst updated.
  assert (Hz : Task.assigned_to
                 (Task.set_updated_at (Some (now w)) (updated_fields update_data task))
               = Some 0) by (cbn; now rewrite Ha).
  rewrite Hz. cbn [truthy_int Z.eqb negb]. rewrite andb_false_r. cbn [when ret].
  rewrite task_response_run.
  assert (Hst' : Task_stored
                   (Task.set_updated_at (Some (now w)) (updated_fields update_data task)))
    by (now apply updated_fields_stored).
  destruct (of_task_stored (now w) _ None Hst') as (dto & Hdto & _ & Hasg & _).
  cbn [now]. rewrite Hdto. exists dto. eexists. split; [reflexivity|].
  split; [congruence | reflexivity].
Qed.

End Update.

(** C10. A request with [assigned_to = 0] gets past the assignee check of
    [create_task] and of [update_task], whatever the user repository holds
    under id [0]: neither [UserNotFoundError] nor [TaskAssignmentError] is
    raised, and the task is stored and returned with assignee [0]. (Returned,
    that is, when the due date is not aware.) *)
Theorem assignee_zero_skips_validation (w : World S) (user_id : Z) :
  (forall task_list_id task_data l,
     TaskListRepository.get_by_id task_list_id (db w) = Some l ->
     TaskList.owner_id l = user_id ->
     TaskCreateDTO.assigned_to task_data = Some 0 ->
     let task :=
       Task.mk None (TaskCreateDTO.title task_data) (TaskCreateDTO.description task_data)
               PENDING (TaskCreateDTO.priority task_data) task_list_id
               (Some 0) (Some (now w)) None (TaskCreateDTO.due_date task_data) in
     Task_stored (fst (TaskRepository.create task (db w))) ->
     Task.assigned_to (fst (TaskRepository.create task (db w))) = Some 0 ->
     exists dto w',
       create_task task_list_id task_data user_id w = (inr dto, w')
       /\ TaskResponseDTO.assigned_to dto = Some 0
       /\ db w' = snd (TaskRepository.create task (db w)))
  /\ (forall task_id update_data task l,
        TaskRepository.get_by_id task_id (db w) = Some task ->
        TaskListRepository.get_by_id (Task.task_list_id task) (db w) = Some l ->
        TaskList.owner_id l = user_id ->
        TaskUpdateDTO.assigned_to update_data = Some 0 ->
        (forall d utcoffset, TaskUpdateDTO.due_date update_data <> Some (aware d utcoffset)) ->
        Task_stored task ->
        (forall x, fst (TaskRepository.update x (db w)) = x) ->
        exists dto w',
          update_task task_id update_data user_id w = (inr dto, w')
          /\ TaskResponseDTO.assigned_to dto = Some 0
          /\ db w' = snd (TaskRepository.update
                            (Task.set_updated_at (Some (now w))
                               (updated_fields update_data task))
                            (db w))).
Proof.
  split.
  - intros task_list_id task_data l Hl Ho Ha.
    exact (create_task_assignee_zero w task_list_id user_id task_data l Hl Ho Ha).
  - intros task_id update_data task l Ht Hl Ho Ha Hdue Hst Hupd.
    exact (update_task_assignee_zero w task_id user_id update_data task l Ht Hl Ho Ha
             Hdue Hst Hupd).
Qed.

End Assignment.

(** [NotificationService.send_email_notification] as written cannot raise: it
    logs, and answers whether emails are enabled. *)
Lemma NotificationService_returns {S : Type} (email_enabled : bool)
    (notification : EmailNotificationDTO.t) (w : World S) :
  exists r, NotificationService_send_email_notification email_enabled notification w
            = (inr email_enabled, mkWorld (db w) (now w) (log w ++ [r])).
Proof. destruct email_enabled; eexists; reflexivity. Qed.

Lemma assignee_zero_skips_validation_witness :
  UserRepository.get_by_id 0 (db Fixtures.world) = None
  /\ (exists dto w',
        create_task 1 (TaskCreateDTO.mk "Eggs" None 1 MEDIUM (Some 0) None) 1 Fixtures.world
        = (inr dto, w')
        /\ TaskResponseDTO.assigned_to dto = Some 0
        /\ In (Some 0) (map Task.assigned_to (InMemory.tasks (db w'))))
  /\ (exists dto w',
        update_task 1 (TaskUpdateDTO.mk None None None (Some 0) None) 1 Fixtures.world
        = (inr dto, w')
        /\ TaskResponseDTO.assigned_to dto = Some 0
        /\ In (Some 0) (map Task.assigned_to (InMemory.tasks (db w')))).
Proof.
  destruct (assignee_zero_skips_validation Fixtures.world 1) as [Hcreate Hupdate].
  split; [vm_compute; reflexivity|]. split.
  - destruct (Hcreate 1 (TaskCreateDTO.mk "Eggs" None 1 MEDIUM (Some 0) None)
                Fixtures.groceries) as (dto & w' & Hrun & Hasg & Hdb).
    + vm_compute. reflexivity.
    + reflexivity.
    + reflexivity.
    + vm_compute. repeat split; discriminate.
    + vm_compute. reflexivity.
    + exists dto, w'. split; [exact Hrun|]. split; [exact Hasg|].
      rewrite Hdb. vm_compute. tauto.
  - destruct (Hupdate 1 (TaskUpdateDTO.mk None None None (Some 0) None)
                (Fixtures.task 1 PENDING None None) Fixtures.groceries)
      as (dto & w' & Hrun & Hasg & Hdb).
    + vm_compute. reflexivity.
    + vm_compute. reflexivity.
    + reflexivity.
    + reflexivity.
    + discriminate.
    + vm_compute. repeat split; discriminate.
    + reflexivity.
    + exists dto, w'. split; [exact Hrun|]. split; [exact Hasg|].
      rewrite Hdb. vm_compute. tauto.
Defined.

(** C6, where the code departs from it. No user has id [0], and a task is
    created for, and another reassigned to, [assigned_to = 0]: no
    [UserNotFoundError], and the store holds both tasks with assignee [0]. *)
Theorem unknown_assignee_zero_accepted :
  UserRepository.get_by_id 0 (db Fixtures.world) = None
  /\ create_task 1 (TaskCreateDTO.mk "Eggs" None 1 MEDIUM (Some 0) None) 1 Fixtures.world
     = (inr (TaskResponseDTO.mk 4 "Eggs" None PENDING MEDIUM 1 (Some 0) 5000 None None
               false None),
        mkWorld
          (InMemory.mkStore (InMemory.users Fixtures.store)
             (InMemory.task_lists Fixtures.store)
             (InMemory.tasks Fixtures.store
                ++ [Task.mk (Some 4) "Eggs" None PENDING MEDIUM 1 (Some 0) (Some 5000)
                      None None])%list)
          5000 [TaskCreated (Some 4) 1])
  /\ update_task 1 (TaskUpdateDTO.mk None None None (Some 0) None) 1 Fixtures.world
     = (inr (TaskResponseDTO.mk 1 "Milk" None PENDING MEDIUM 1 (Some 0) 3000 (Some 5000)
               None false None),
        mkWorld
          (InMemory.mkStore (InMemory.users Fixtures.store)
             (InMemory.task_lists Fixtures.store)
             [Task.mk (Some 1) "Milk" None PENDING MEDIUM 1 (Some 0) (Some 3000)
                (Some 5000) None;
              Fixtures.task 2 PENDING (Some 2) None;
              Fixtures.task 3 COMPLETED (Some 2) None])
          5000 [TaskUpdated 1 1]).
Proof. repeat split; vm_compute; reflexivity. Qed.

(** C7, where the code departs from it. Alice creates a task for Bob, and
    reassigns another to him, with a notification service that raises: the
    exception comes out of [create_task] and of [update_task], after the task
    was written. *)
Theorem notification_failure_fails_mutation :
  create_task (notification_service := InMemory.failing_notification_service)
    1 (TaskCreateDTO.mk "Eggs" None 1 MEDIUM (Some 2) None) 1 Fixtures.world
  = (inl (Exception "Email service unavailable"),
     mkWorld
       (InMemory.mkStore (InMemory.users Fixtures.store)
          (InMemory.task_lists Fixtures.store)
          (InMemory.tasks Fixtures.store
             ++ [Task.mk (Some 4) "Eggs" None PENDING MEDIUM 1 (Some 2) (Some 5000)
                   None None])%list)
       5000 [TaskCreated (Some 4) 1])
  /\ update_task (notification_service := InMemory.failing_notification_service)
       1 (TaskUpdateDTO.mk None None None (Some 2) None) 1 Fixtures.world
     = (inl (Exception "Email service unavailable"),
        mkWorld
          (InMemory.mkStore (InMemory.users Fixtures.store)
             (InMemory.task_lists Fixtures.store)
             [Task.mk (Some 1) "Milk" None PENDING MEDIUM 1 (Some 2) (Some 3000)
                (Some 5000) None;
              Fixtures.task 2 PENDING (Some 2) None;
              Fixtures.task 3 COMPLETED (Some 2) None])
          5000 [TaskUpdated 1 1])
  /\ (exists dto w',
        create_task 1 (TaskCreateDTO.mk "Eggs" None 1 MEDIUM (Some 2) None) 1 Fixtures.world
        = (inr dto, w')
        /\ log w' = [TaskCreated (Some 4) 1;
                     SendingEmail "bob@example.com" "Task Assigned: Eggs"]).
Proof.
  split; [vm_compute; reflexivity|]. split; [vm_compute; reflexivity|].
  eexists. eexists. split; vm_compute; reflexivity.
Qed.

(** ** Listing tasks: page first, filter after *)

Lemma page_length {A : Type} (skip limit : Z) (xs : list A) :
  (List.length (page skip limit xs) <= Z.to_nat limit)%nat.
Proof. unfold page. apply firstn_le_length. Qed.

(** What a comprehension that returns keeps. *)
Lemma comprehension_In {A : Type} (p : A -> Result bool) (xs ys : list A) :
  comprehension p xs = inr ys ->
  forall x, In x ys <-> In x xs /\ p x = inr true.
Proof.
  revert ys. induction xs as [|a xs IH]; intros ys; cbn [comprehension].
  - intros H. injection H as <-. cbn. tauto.
  - destruct (p a) as [e|keep] eqn:Ea; [discriminate|].
    destruct (comprehension p xs) as [e|zs]; [discriminate|].
    intros H. injection H as <-. intros x. specialize (IH zs eq_refl x).
    destruct keep; cbn [In]; split.
    + intros [<-|Hin]; [tauto|]. apply IH in Hin. tauto.
    + intros [[<-|Hin] Hp]; [tauto|]. right. apply IH. tauto.
    + intros Hin. apply IH in Hin. tauto.
    + intros [[<-|Hin] Hp]; [congruence|]. apply IH. tauto.
Qed.

Lemma comprehension_length {A : Type} (p : A -> Result bool) (xs ys : list A) :
  comprehension p xs = inr ys -> (List.length ys <= List.length xs)%nat.
Proof.
  revert ys. induction xs as [|a xs IH]; intros ys; cbn [comprehension].
  - intros H. injection H as <-. apply Nat.le_refl.
  - destruct (p a) as [e|keep]; [discriminate|].
    destruct (comprehension p xs) as [e|zs]; [discriminate|].
    intros H. injection H as <-. specialize (IH zs eq_refl).
    destruct keep; cbn [List.length]; lia.
Qed.

(** A comprehension returns when its condition answers on every element. *)
Lemma comprehension_answers {A : Type} (p : A -> Result bool) (xs : list A) :
  Forall (fun x => exists keep, p x = inr keep) xs ->
  exists ys, comprehension p xs = inr ys.
Proof.
  induction 1 as [|a xs (keep & Ha) _ (zs & IH)]; cbn [comprehension].
  - eauto.
  - rewrite Ha, IH. eauto.
Qed.

(** What the two comprehensions keep of a page. *)
Lemma post_filter_In (t : datetime) (filters : TaskFilterDTO.t) (tasks kept : list Task.t)
    (task : Task.t) :
  post_filter t filters tasks = inr kept ->
  In task kept
  <-> In task tasks
      /\ (TaskFilterDTO.overdue_only filters = true -> Task.is_overdue t task = inr true)
      /\ (truthy_int (TaskFilterDTO.assigned_to filters) = true ->
          Task.assigned_to task = TaskFilterDTO.assigned_to filters).
Proof.
  unfold post_filter.
  destruct (TaskFilterDTO.overdue_only filters).
  - destruct (comprehension (Task.is_overdue t) tasks) as [e|late] eqn:E; [discriminate|].
    pose proof (comprehension_In _ _ _ E task) as Hlate.
    intros H. injection H as <-.
    destruct (truthy_int (TaskFilterDTO.assigned_to filters));
      rewrite ?filter_In, ?opt_int_eqb_eq, Hlate; intuition congruence.
  - intros H. injection H as <-.
    destruct (truthy_int (TaskFilterDTO.assigned_to filters));
      rewrite ?filter_In, ?opt_int_eqb_eq; intuition congruence.
Qed.

Lemma post_filter_length (t : datetime) (filters : TaskFilterDTO.t)
    (tasks kept : list Task.t) :
  post_filter t filters tasks = inr kept ->
  (List.length kept <= List.length tasks)%nat.
Proof.
  unfold post_filter.
  destruct (TaskFilterDTO.overdue_only filters).
  - destruct (comprehension (Task.is_overdue t) tasks) as [e|late] eqn:E; [discriminate|].
    apply comprehension_length in E.
    intros H. injection H as <-.
    destruct (truthy_int (TaskFilterDTO.assigned_to filters)); [|exact E].
    etransitivity; [apply filter_length_le | exact E].
  - intros H. injection H as <-.
    destruct (truthy_int (TaskFilterDTO.assigned_to filters));
      [apply filter_length_le | apply Nat.le_refl].
Qed.

(** On a page of stored tasks the comprehensions return, and what they keep is
    stored. *)
Lemma post_filter_stored (t : datetime) (filters : TaskFilterDTO.t) (tasks : list Task.t) :
  Forall Task_stored tasks ->
  exists kept, post_filter t filters tasks = inr kept /\ Forall Task_stored kept.
Proof.
  intros Hst.
  assert (Hans : exists late,
            (if TaskFilterDTO.overdue_only filters
             then comprehension (Task.is_overdue t) tasks
             else inr tasks) = inr late
            /\ forall task, In task late -> In task tasks).
  { destruct (TaskFilterDTO.overdue_only filters).
    - destruct (comprehension_answers (Task.is_overdue t) tasks) as (late & E).
      + revert Hst. apply Forall_impl. intros task. apply is_overdue_stored.
      + exists late. split; [exact E|]. intros task Hin.
        apply (comprehension_In _ _ _ E task) in Hin. tauto.
    - exists tasks. auto. }
  destruct Hans as (late & E & Hsub).
  unfold post_filter. rewrite E. eexists. split; [reflexivity|].
  rewrite Forall_forall in *. intros task Hin. apply Hst, Hsub.
  destruct (truthy_int (TaskFilterDTO.assigned_to filters)); [|exact Hin].
  apply filter_In in Hin. tauto.
Qed.

Section ListTasks.

Context {S : Type}.
Context {task_list_repository : TaskListRepository.t S}.
Context {task_repository : TaskRepository.t S}.

(** The owner's listing: the repository is asked once, for the page of the
    tasks with the wanted status and priority, and the responses are those of
    the tasks of that page that pass the two other filters. *)
Lemma list_tasks_owner (w : World S) (task_list_id user_id : Z) (filters : TaskFilterDTO.t)
    (pagination : PaginationDTO.t) (l : TaskList.t) :
  TaskListRepository.get_by_id task_list_id (db w) = Some l ->
  TaskList.owner_id l = user_id ->
  let fetched :=
    TaskRepository.get_by_task_list task_list_id
      (PaginationDTO.skip pagination) (PaginationDTO.limit pagination)
      (TaskFilterDTO.status filters) (TaskFilterDTO.priority filters) (db w) in
  Forall Task_stored fetched ->
  exists kept dtos,
    post_filter (now w) filters fetched = inr kept
    /\ list_tasks task_list_id filters pagination user_id w = (inr dtos, w)
    /\ Forall2 (fun task dto =>
                  TaskResponseDTO.of_task task (Task.is_overdue (now w) task) None = inr dto)
               kept dtos.
Proof.
  intros Hl Ho fetched Hst. apply Z.eqb_eq in Ho.
  destruct (post_filter_stored (now w) filters fetched Hst) as (kept & Hkept & Hkst).
  destruct (for_each_task_response kept w Hkst) as (dtos & Hrun & Hall).
  exists kept, dtos. split; [exact Hkept|]. split; [|exact Hall].
  unfold list_tasks. run_step. rewrite Hl. cbn. rewrite Ho. cbn.
  fold fetched. rewrite Hkept. exact Hrun.
Qed.

End ListTasks.

(** C9. [list_tasks] asks the repository for one page, selected by status and
    priority only, and then drops from that page the tasks that fail
    [overdue_only] and [assigned_to]: the answer holds one response per task
    of the page that passes, so never more than the page. With a repository
    that pages by [skip] and [limit], the page has at most [limit] tasks, and
    the answer can be shorter than [limit] while a matching task lies beyond
    the page. *)
Theorem list_tasks_filters_the_page :
  (forall (S : Type) (task_list_repository : TaskListRepository.t S)
          (task_repository : TaskRepository.t S)
          (w : World S) (task_list_id user_id : Z) (filters : TaskFilterDTO.t)
          (pagination : PaginationDTO.t) (l : TaskList.t),
      TaskListRepository.get_by_id task_list_id (db w) = Some l ->
      TaskList.owner_id l = user_id ->
      let fetched :=
        TaskRepository.get_by_task_list task_list_id
          (PaginationDTO.skip pagination) (PaginationDTO.limit pagination)
          (TaskFilterDTO.status filters) (TaskFilterDTO.priority filters) (db w) in
      Forall Task_stored fetched ->
      exists kept dtos,
        post_filter (now w) filters fetched = inr kept
        /\ list_tasks task_list_id filters pagination user_id w = (inr dtos, w)
        /\ Forall2 (fun task dto =>
                      TaskResponseDTO.of_task task (Task.is_overdue (now w) task) None
                      = inr dto)
                   kept dtos
        /\ (forall task,
              In task kept
              <-> In task fetched
                  /\ (TaskFilterDTO.overdue_only filters = true ->
                      Task.is_overdue (now w) task = inr true)
                  /\ (truthy_int (TaskFilterDTO.assigned_to filters) = true ->
                      Task.assigned_to task = TaskFilterDTO.assigned_to filters))
        /\ (List.length dtos <= List.length fetched)%nat)
  /\ (forall (s : InMemory.Store) task_list_id skip limit status priority,
        (List.length (TaskRepository.get_by_task_list task_list_id skip limit status priority s)
         <= Z.to_nat limit)%nat)
  /\ (exists dtos beyond,
        list_tasks 1 (TaskFilterDTO.mk None None (Some 2) false) (PaginationDTO.mk 0 2) 1
          Fixtures.world = (inr dtos, Fixtures.world)
        /\ (List.length dtos < 2)%nat
        /\ In beyond (InMemory.tasks Fixtures.store)
        /\ Task.task_list_id beyond = 1
        /\ Task.assigned_to beyond = Some 2
        /\ ~ In (Task.id beyond)
               (map Task.id (TaskRepository.get_by_task_list 1 0 2 None None Fixtures.store))).
Proof.
  split; [|split].
  - intros S tlr tr w task_list_id user_id filters pagination l Hl Ho fetched Hst.
    destruct (list_tasks_owner w task_list_id user_id filters pagination l Hl Ho Hst)
      as (kept & dtos & Hkept & Hrun & Hall).
    exists kept, dtos. split; [exact Hkept|]. split; [exact Hrun|]. split; [exact Hall|].
    split.
    + intros task. now apply post_filter_In.
    + rewrite <- (Forall2_length Hall). now apply (post_filter_length (now w) filters).
  - intros s task_list_id skip limit status priority. apply page_length.
  - eexists. exists (Fixtures.task 3 COMPLETED (Some 2) None).
    split; [vm_compute; reflexivity|].
    split; [cbn; lia|].
    split; [cbn; tauto|].
    split; [reflexivity|]. split; [reflexivity|].
    vm_compute. intros [H|[H|[]]]; discriminate.
Qed.

Lemma list_tasks_filters_the_page_witness :
  exists dtos,
    list_tasks 1 (TaskFilterDTO.mk None None (Some 2) false) (PaginationDTO.mk 0 2) 1
      Fixtures.world = (inr dtos, Fixtures.world)
    /\ map TaskResponseDTO.id dtos = [2].
Proof.
  destruct (proj1 list_tasks_filters_the_page InMemory.Store _ _ Fixtures.world 1 1
              (TaskFilterDTO.mk None None (Some 2) false) (PaginationDTO.mk 0 2)
              Fixtures.groceries) as (kept & dtos & Hkept & Hrun & Hall & _).
  - vm_compute. reflexivity.
  - reflexivity.
  - vm_compute. repeat constructor; discriminate.
  - exists dtos. split; [exact Hrun|].
    vm_compute in Hkept. injection Hkept as <-.
    vm_compute in Hall.
    inversion Hall as [|? dto ? rest Hdto Hrest]; subst.
    inversion Hrest; subst. injection Hdto as <-. reflexivity.
Defined.

(** * Further properties of the services *)

(** ** Tasks that are absent, lists that are gone *)

Section TaskLookup.

Context {S : Type}.
Context {user_repository : UserRepository.t S}.
Context {task_list_repository : TaskListRepository.t S}.
Context {task_repository : TaskRepository.t S}.
Context {notification_service : NotificationSender.t S}.

(** X1. On a task id the repository does not know, [get_task], [update_task],
    [update_task_status] and [delete_task] raise [TaskNotFoundError] for every
    requester and every request body, and touch nothing. *)
Theorem task_operations_absent_task (w : World S) (task_id user_id : Z)
    (update_data : TaskUpdateDTO.t) (status_data : TaskStatusUpdateDTO.t) :
  TaskRepository.get_by_id task_id (db w) = None ->
  get_task task_id user_id w = (inl (TaskNotFoundError task_id), w)
  /\ update_task task_id update_data user_id w = (inl (TaskNotFoundError task_id), w)
  /\ update_task_status task_id status_data user_id w = (inl (TaskNotFoundError task_id), w)
  /\ delete_task task_id user_id w = (inl (TaskNotFoundError task_id), w).
Proof.
  intros H. repeat split.
  - unfold get_task. run_step. now rewrite H.
  - unfold update_task. run_step. now rewrite H.
  - unfold update_task_status. run_step. now rewrite H.
  - unfold delete_task. run_step. now rewrite H.
Qed.

(** X2. On a task whose [task_list_id] names no list, the four operations
    raise [AttributeError] (the owner is read off [None]): an exception outside
    the hierarchy, which the exception handler does not turn into a response.
    Nothing is written. *)
Theorem task_operations_orphan_task (w : World S) (task_id user_id : Z) (task : Task.t)
    (update_data : TaskUpdateDTO.t) (status_data : TaskStatusUpdateDTO.t) :
  TaskRepository.get_by_id task_id (db w) = Some task ->
  TaskListRepository.get_by_id (Task.task_list_id task) (db w) = None ->
  get_task task_id user_id w = (inl AttributeError, w)
  /\ update_task task_id update_data user_id w = (inl AttributeError, w)
  /\ update_task_status task_id status_data user_id w = (inl AttributeError, w)
  /\ delete_task task_id user_id w = (inl AttributeError, w)
  /\ task_manager_exception_handler AttributeError = None.
Proof.
  intros Ht Hl. repeat split.
  - unfold get_task. run_step. rewrite Ht. cbn. now rewrite Hl.
  - unfold update_task. run_step. rewrite Ht. cbn. now rewrite Hl.
  - unfold update_task_status. run_step. rewrite Ht. cbn. now rewrite Hl.
  - unfold delete_task. run_step. rewrite Ht. cbn. now rewrite Hl.
Qed.

(** X3. [create_task] and [list_tasks] look the list up first and compare its
    owner with the requester next: [TaskListNotFoundError] on an absent list,
    [AuthorizationError] for everybody but the owner, whatever the request
    holds (an unknown assignee included), and nothing is written. *)
Theorem create_and_list_gate (w : World S) (task_list_id user_id : Z)
    (task_data : TaskCreateDTO.t) (filters : TaskFilterDTO.t)
    (pagination : PaginationDTO.t) :
  (TaskListRepository.get_by_id task_list_id (db w) = None ->
     create_task task_list_id task_data user_id w
     = (inl (TaskListNotFoundError task_list_id), w)
     /\ list_tasks task_list_id filters pagination user_id w
        = (inl (TaskListNotFoundError task_list_id), w))
  /\ (forall l,
        TaskListRepository.get_by_id task_list_id (db w) = Some l ->
        TaskList.owner_id l <> user_id ->
        create_task task_list_id task_data user_id w = (inl no_access_to_list, w)
        /\ list_tasks task_list_id filters pagination user_id w
           = (inl no_access_to_list, w)).
Proof.
  split.
  - intros H. split.
    + unfold create_task. run_step. now rewrite H.
    + unfold list_tasks. run_step. now rewrite H.
  - intros l H Hne. apply Z.eqb_neq in Hne. split.
    + unfold create_task. run_step. rewrite H. cbn. now rewrite Hne.
    + unfold list_tasks. run_step. rewrite H. cbn. now rewrite Hne.
Qed.

End TaskLookup.

Lemma task_operations_absent_task_witness :
  get_task 99 1 Fixtures.world = (inl (TaskNotFoundError 99), Fixtures.world)
  /\ delete_task 99 1 Fixtures.world = (inl (TaskNotFoundError 99), Fixtures.world).
Proof.
  destruct (task_operations_absent_task Fixtures.world 99 1
              (TaskUpdateDTO.mk None None None None None) (TaskStatusUpdateDTO.mk COMPLETED))
    as (Hget & _ & _ & Hdel).
  - vm_compute. reflexivity.
  - split; assumption.
Defined.

Lemma task_operations_orphan_task_witness :
  get_task 1 1 (mkWorld (InMemory.mkStore [] [] [Fixtures.task 1 PENDING None None]) 5000 [])
  = (inl AttributeError,
     mkWorld (InMemory.mkStore [] [] [Fixtures.task 1 PENDING None None]) 5000 []).
Proof.
  apply (task_operations_orphan_task
           (mkWorld (InMemory.mkStore [] [] [Fixtures.task 1 PENDING None None]) 5000 [])
           1 1 (Fixtures.task 1 PENDING None None)
           (TaskUpdateDTO.mk None None None None None) (TaskStatusUpdateDTO.mk COMPLETED));
    vm_compute; reflexivity.
Defined.

Lemma create_and_list_gate_witness :
  create_task 99 (TaskCreateDTO.mk "Eggs" None 99 MEDIUM (Some 77) None) 1 Fixtures.world
  = (inl (TaskListNotFoundError 99), Fixtures.world)
  /\ create_task 1 (TaskCreateDTO.mk "Eggs" None 1 MEDIUM (Some 77) None) 2 Fixtures.world
     = (inl no_access_to_list, Fixtures.world)
  /\ list_tasks 1 (TaskFilterDTO.mk None None None false) (PaginationDTO.mk 0 100) 2
       Fixtures.world
     = (inl no_access_to_list, Fixtures.world).
Proof.
  split; [|split].
  - apply (proj1 (create_and_list_gate Fixtures.world 99 1
                    (TaskCreateDTO.mk "Eggs" None 99 MEDIUM (Some 77) None)
                    (TaskFilterDTO.mk None None None false) (PaginationDTO.mk 0 100))).
    vm_compute. reflexivity.
  - apply (proj2 (create_and_list_gate Fixtures.world 1 2
                    (TaskCreateDTO.mk "Eggs" None 1 MEDIUM (Some 77) None)
                    (TaskFilterDTO.mk None None None false) (PaginationDTO.mk 0 100))
             Fixtures.groceries); vm_compute; [reflexivity | discriminate].
  - apply (proj2 (create_and_list_gate Fixtures.world 1 2
                    (TaskCreateDTO.mk "Eggs" None 1 MEDIUM (Some 77) None)
                    (TaskFilterDTO.mk None None None false) (PaginationDTO.mk 0 100))
             Fixtures.groceries); vm_compute; [reflexivity | discriminate].
Defined.

(** ** Creating and updating tasks with [NotificationService] *)

Section WithNotificationService.

Context {S : Type}.
Context {user_repository : UserRepository.t S}.
Context {task_list_repository : TaskListRepository.t S}.
Context {task_repository : TaskRepository.t S}.

Variable email_enabled : bool.

(** The services below are those wired with [NotificationService(email_enabled)]. *)
Local Instance shipped_notification_service : NotificationSender.t S :=
  NotificationService email_enabled.

(** With [NotificationService], sending the assignment notification returns,
    and only adds to the log. *)
Lemma send_assignment_notification_logs (task : Task.t) (w : World S) :
  _send_assignment_notification task w
  = (inr tt, mkWorld (db w) (now w) (log w ++ assignment_log email_enabled task (db w))).
Proof.
  unfold _send_assignment_notification, assignment_log.
  destruct (Task.assigned_to task) as [a|] eqn:Ea; cbn.
  - destruct (a =? 0) eqn:Ez; cbn.
    + rewrite app_nil_r. now destruct w.
    + run_step. destruct (UserRepository.get_by_id a (db w)) as [u|]; cbn.
      * unfold NotificationService_send_email_notification.
        destruct email_enabled; reflexivity.
      * rewrite app_nil_r. now destruct w.
  - rewrite app_nil_r. now destruct w.
Qed.

Lemma verify_assignee_assignable (assigned_to : option Z) (w : World S) :
  assignable assigned_to (db w) -> verify_assignee assigned_to w = (inr tt, w).
Proof.
  rewrite verify_assignee_run. destruct assigned_to as [a|]; cbn; [|reflexivity].
  intros [->|(u & Hu & Ha)]; [reflexivity|].
  rewrite Hu, Ha. now destruct (a =? 0).
Qed.

Lemma assignment_log_stale (task : Task.t) (s : S) :
  truthy_int (Task.assigned_to task) = false -> assignment_log email_enabled task s = [].
Proof.
  unfold assignment_log. destruct (Task.assigned_to task) as [a|]; cbn; [|reflexivity].
  destruct (a =? 0); [reflexivity | discriminate].
Qed.

(** [create_task] by the owner, past the assignee check: one write, one log
    record, the notification, and then the response, or what building it
    raises. *)
Lemma create_task_run (w : World S) (task_list_id : Z) (task_data : TaskCreateDTO.t)
    (l : TaskList.t) (created : Task.t) (s : S) :
  TaskListRepository.get_by_id task_list_id (db w) = Some l ->
  assignable (TaskCreateDTO.assigned_to task_data) (db w) ->
  TaskRepository.create (new_task task_list_id task_data (now w)) (db w) = (created, s) ->
  create_task task_list_id task_data (TaskList.owner_id l) w
  = (TaskResponseDTO.of_task created (Task.is_overdue (now w) created) None,
     mkWorld s (now w)
       (log w ++ TaskCreated (Task.id created) task_list_id
              :: assignment_log email_enabled created s)).
Proof.
  intros Hl Hok Hc.
  rewrite (create_task_past_gates w task_list_id (TaskList.owner_id l) task_data l Hl eq_refl).
  rewrite (verify_assignee_assignable _ w Hok). cbv zeta.
  unfold new_task in Hc. rewrite Hc.
  destruct (truthy_int (Task.assigned_to created)) eqn:Et; cbn [when].
  - rewrite send_assignment_notification_logs. cbn [db now log].
    rewrite task_response_run. cbn [now]. rewrite <- app_assoc. reflexivity.
  - rewrite (assignment_log_stale created s Et). cbn [ret].
    rewrite task_response_run. reflexivity.
Qed.

(** [update_task] by the owner, past the assignee check. *)
Lemma update_task_run (w : World S) (task_id : Z) (update_data : TaskUpdateDTO.t)
    (task : Task.t) (l : TaskList.t) (updated : Task.t) (s : S) :
  TaskRepository.get_by_id task_id (db w) = Some task ->
  TaskListRepository.get_by_id (Task.task_list_id task) (db w) = Some l ->
  assignable (TaskUpdateDTO.assigned_to update_data) (db w) ->
  TaskRepository.update
    (Task.set_updated_at (Some (now w)) (updated_fields update_data task)) (db w)
  = (updated, s) ->
  update_task task_id update_data (TaskList.owner_id l) w
  = (TaskResponseDTO.of_task updated (Task.is_overdue (now w) updated) None,
     mkWorld s (now w)
       (log w ++ TaskUpdated task_id (TaskList.owner_id l)
              :: (if opt_int_eqb (Task.assigned_to task) (Task.assigned_to updated)
                  then []
                  else assignment_log email_enabled updated s))).
Proof.
  intros Ht Hl Hok Hu.
  rewrite (update_task_past_gates w task_id (TaskList.owner_id l) update_data task l
             Ht Hl eq_refl).
  rewrite (verify_assignee_assignable _ w Hok). cbv zeta. rewrite Hu.
  destruct (opt_int_eqb (Task.assigned_to task) (Task.assigned_to updated)); cbn [negb andb].
  - cbn [when ret]. rewrite task_response_run. reflexivity.
  - destruct (truthy_int (Task.assigned_to updated)) eqn:Et; cbn [when].
    + rewrite send_assignment_notification_logs. cbn [db now log].
      rewrite task_response_run. cbn [now]. rewrite <- app_assoc. reflexivity.
    + rewrite (assignment_log_stale updated s Et). cbn [ret].
      rewrite task_response_run. reflexivity.
Qed.

(** X4. The owner's [create_task] with an acceptable assignee writes once: the
    repository is asked to create a PENDING task without id, created now, with
    the due date of the request as it came. The creation is logged, then the
    user the created task names is looked up in the database as written and
    emailed (with emails disabled that is logged instead). All of this is done
    before the response is built, whatever becomes of the response: it is
    returned when the repository's answer is a stored task, and when that
    answer carries an aware due date the call raises [TypeError] instead, the
    task created all the same. *)
Theorem create_task_stores_then_notifies (w : World S) (task_list_id : Z)
    (task_data : TaskCreateDTO.t) (l : TaskList.t) (created : Task.t) (s : S) :
  TaskListRepository.get_by_id task_list_id (db w) = Some l ->
  assignable (TaskCreateDTO.assigned_to task_data) (db w) ->
  TaskRepository.create (new_task task_list_id task_data (now w)) (db w) = (created, s) ->
  let written :=
    mkWorld s (now w)
      (log w ++ TaskCreated (Task.id created) task_list_id
             :: assignment_log email_enabled created s) in
  Task.id (new_task task_list_id task_data (now w)) = None
  /\ Task.status (new_task task_list_id task_data (now w)) = PENDING
  /\ Task.created_at (new_task task_list_id task_data (now w)) = Some (now w)
  /\ Task.due_date (new_task task_list_id task_data (now w)) = TaskCreateDTO.due_date task_data
  /\ snd (create_task task_list_id task_data (TaskList.owner_id l) w) = written
  /\ (Task_stored created ->
      exists dto,
        create_task task_list_id task_data (TaskList.owner_id l) w = (inr dto, written)
        /\ TaskResponseDTO.status dto = Task.status created
        /\ TaskResponseDTO.assigned_to dto = Task.assigned_to created
        /\ Task.is_overdue (now w) created = inr (TaskResponseDTO.is_overdue dto))
  /\ (forall d utcoffset,
        Task.due_date created = Some (aware d utcoffset) ->
        create_task task_list_id task_data (TaskList.owner_id l) w = (inl TypeError, written)).
Proof.
  intros Hl Hok Hc written.
  rewrite (create_task_run w task_list_id task_data l created s Hl Hok Hc).
  repeat split.
  - intros Hst.
    destruct (of_task_stored (now w) created None Hst) as (dto & -> & _ & Ha & Hs & Ho).
    exists dto. auto.
  - intros d off Hd. now rewrite (is_overdue_aware (now w) d off created Hd).
Qed.

(** X5. What [update_task] stores is the task it found with the supplied
    fields replaced and [updated_at] set to now: id, status, list and creation
    time are never touched; a field the request leaves out keeps its value, so
    that no request sets a description, an assignee or a due date back to
    [None]; a field the request supplies is stored as supplied, the empty
    description and the assignee [0] included. *)
Theorem update_task_keeps_the_rest (w : World S) (task_id : Z)
    (update_data : TaskUpdateDTO.t) (task : Task.t) (l : TaskList.t)
    (updated : Task.t) (s : S) :
  TaskRepository.get_by_id task_id (db w) = Some task ->
  TaskListRepository.get_by_id (Task.task_list_id task) (db w) = Some l ->
  assignable (TaskUpdateDTO.assigned_to update_data) (db w) ->
  forall stored,
    stored = Task.set_updated_at (Some (now w)) (updated_fields update_data task) ->
    TaskRepository.update stored (db w) = (updated, s) ->
    Task_stored updated ->
    (exists dto w',
       update_task task_id update_data (TaskList.owner_id l) w = (inr dto, w')
       /\ db w' = s)
    /\ Task.id stored = Task.id task
    /\ Task.status stored = Task.status task
    /\ Task.task_list_id stored = Task.task_list_id task
    /\ Task.created_at stored = Task.created_at task
    /\ Task.updated_at stored = Some (now w)
    /\ (TaskUpdateDTO.title update_data = None -> Task.title stored = Task.title task)
    /\ (TaskUpdateDTO.priority update_data = None ->
        Task.priority stored = Task.priority task)
    /\ (TaskUpdateDTO.description update_data = None ->
        Task.description stored = Task.description task)
    /\ (TaskUpdateDTO.assigned_to update_data = None ->
        Task.assigned_to stored = Task.assigned_to task)
    /\ (TaskUpdateDTO.due_date update_data = None ->
        Task.due_date stored = Task.due_date task)
    /\ (forall v, TaskUpdateDTO.title update_data = Some v -> Task.title stored = v)
    /\ (forall v, TaskUpdateDTO.priority update_data = Some v -> Task.priority stored = v)
    /\ (forall v, TaskUpdateDTO.description update_data = Some v ->
                  Task.description stored = Some v)
    /\ (forall v, TaskUpdateDTO.assigned_to update_data = Some v ->
                  Task.assigned_to stored = Some v)
    /\ (forall v, TaskUpdateDTO.due_date update_data = Some v ->
                  Task.due_date stored = Some v)
    /\ (Task.description task <> None -> Task.description stored <> None)
    /\ (Task.assigned_to task <> None -> Task.assigned_to stored <> None)
    /\ (Task.due_date task <> None -> Task.due_date stored <> None).
Proof.
  intros Ht Hl Hok stored -> Hu Hst. split.
  - rewrite (update_task_run w task_id update_data task l updated s Ht Hl Hok Hu).
    destruct (of_task_stored (now w) updated None Hst) as (dto & -> & _).
    eexists. eexists. split; reflexivity.
  - cbn. repeat split; try (now intros ->); try (now intros v ->).
    + destruct (TaskUpdateDTO.description update_data); [discriminate | auto].
    + destruct (TaskUpdateDTO.assigned_to update_data); [discriminate | auto].
    + destruct (TaskUpdateDTO.due_date update_data); [discriminate | auto].
Qed.

(** X6. [update_task] sends the assignment email only when the assignee
    changes: a request that leaves the assignee out, or names the one the task
    already has, logs the update and nothing else; one that names another
    active user logs the update and then the email to that user. (The
    repository answers with the assignee it was given.) *)
Theorem update_task_notifies_on_change (w : World S) (task_id : Z)
    (update_data : TaskUpdateDTO.t) (task : Task.t) (l : TaskList.t)
    (updated : Task.t) (s : S) :
  TaskRepository.get_by_id task_id (db w) = Some task ->
  TaskListRepository.get_by_id (Task.task_list_id task) (db w) = Some l ->
  assignable (TaskUpdateDTO.assigned_to update_data) (db w) ->
  TaskRepository.update
    (Task.set_updated_at (Some (now w)) (updated_fields update_data task)) (db w)
  = (updated, s) ->
  Task.assigned_to updated
  = Task.assigned_to (Task.set_updated_at (Some (now w)) (updated_fields update_data task)) ->
  forall r w',
    update_task task_id update_data (TaskList.owner_id l) w = (r, w') ->
    ((TaskUpdateDTO.assigned_to update_data = None
      \/ TaskUpdateDTO.assigned_to update_data = Task.assigned_to task) ->
     log w' = (log w ++ [TaskUpdated task_id (TaskList.owner_id l)])%list)
    /\ (forall a assignee,
          TaskUpdateDTO.assigned_to update_data = Some a ->
          a <> 0 ->
          Task.assigned_to task <> Some a ->
          UserRepository.get_by_id a s = Some assignee ->
          log w'
          = (log w ++ [TaskUpdated task_id (TaskList.owner_id l);
                       if email_enabled
                       then SendingEmail (User.email assignee)
                              ("Task Assigned: " ++ Task.title updated)
                       else EmailDisabled])%list).
Proof.
  intros Ht Hl Hok Hu Hsame r w' Hrun.
  rewrite (update_task_run w task_id update_data task l updated s Ht Hl Hok Hu) in Hrun.
  injection Hrun as _ <-. cbn [log].
  assert (Hnew : Task.assigned_to updated
                 = match TaskUpdateDTO.assigned_to update_data with
                   | Some v => Some v
                   | None => Task.assigned_to task
                   end) by (rewrite Hsame; reflexivity).
  split.
  - intros Hkeep.
    assert (Heq : Task.assigned_to updated = Task.assigned_to task).
    { rewrite Hnew. destruct Hkeep as [-> | Hk]; [reflexivity|].
      rewrite Hk. now destruct (Task.assigned_to task). }
    rewrite Heq, opt_int_eqb_refl. reflexivity.
  - intros a assignee Ha Hnz Hold Husr.
    rewrite Ha in Hnew.
    rewrite Hnew, (opt_int_eqb_false _ _ Hold).
    unfold assignment_log. rewrite Hnew, (proj2 (Z.eqb_neq a 0) Hnz), Husr.
    destruct email_enabled; reflexivity.
Qed.

(** X7. An aware due date is not refused on the way in: it goes to the
    repository with the task, and the [TypeError] of [is_overdue] is raised
    only when the response is built. So the owner's [create_task] and
    [update_task] with an aware due date, the repository answering with the
    due date it was given, raise [TypeError] after the task was written, the
    write logged and the assignee notified; and the exception handler does not
    answer a [TypeError]. *)
Theorem aware_due_date_raises_after_write (w : World S) (d utcoffset : datetime) :
  (forall task_list_id task_data l created s,
     TaskListRepository.get_by_id task_list_id (db w) = Some l ->
     assignable (TaskCreateDTO.assigned_to task_data) (db w) ->
     TaskCreateDTO.due_date task_data = Some (aware d utcoffset) ->
     TaskRepository.create (new_task task_list_id task_data (now w)) (db w) = (created, s) ->
     Task.due_date created = Task.due_date (new_task task_list_id task_data (now w)) ->
     create_task task_list_id task_data (TaskList.owner_id l) w
     = (inl TypeError,
        mkWorld s (now w)
          (log w ++ TaskCreated (Task.id created) task_list_id
                 :: assignment_log email_enabled created s)))
  /\ (forall task_id update_data task l updated s,
        TaskRepository.get_by_id task_id (db w) = Some task ->
        TaskListRepository.get_by_id (Task.task_list_id task) (db w) = Some l ->
        assignable (TaskUpdateDTO.assigned_to update_data) (db w) ->
        TaskUpdateDTO.due_date update_data = Some (aware d utcoffset) ->
        TaskRepository.update
          (Task.set_updated_at (Some (now w)) (updated_fields update_data task)) (db w)
        = (updated, s) ->
        Task.due_date updated
        = Task.due_date
            (Task.set_updated_at (Some (now w)) (updated_fields update_data task)) ->
        update_task task_id update_data (TaskList.owner_id l) w
        = (inl TypeError,
           mkWorld s (now w)
             (log w ++ TaskUpdated task_id (TaskList.owner_id l)
                    :: (if opt_int_eqb (Task.assigned_to task) (Task.assigned_to updated)
                        then []
                        else assignment_log email_enabled updated s))))
  /\ task_manager_exception_handler TypeError = None.
Proof.
  split; [|split; [|reflexivity]].
  - intros task_list_id task_data l created s Hl Hok Hdue Hc Hsame.
    rewrite (create_task_run w task_list_id task_data l created s Hl Hok Hc).
    assert (Hd : Task.due_date created = Some (aware d utcoffset))
      by (rewrite Hsame; exact Hdue).
    now rewrite (is_overdue_aware (now w) d utcoffset created Hd).
  - intros task_id update_data task l updated s Ht Hl Hok Hdue Hu Hsame.
    rewrite (update_task_run w task_id update_data task l updated s Ht Hl Hok Hu).
    assert (Hd : Task.due_date updated = Some (aware d utcoffset))
      by (rewrite Hsame; cbn; now rewrite Hdue).
    now rewrite (is_overdue_aware (now w) d utcoffset updated Hd).
Qed.

(** X21. The four refusals of [create_task], in the order they are checked,
    and what the exception handler answers each with: 404 for an absent list,
    403 for a requester who is not the owner, 404 for a non-zero assignee the
    repository does not know, 409 for an assignee who is not active. Each is
    raised before anything is written. *)
Theorem create_task_failures (w : World S) (task_list_id user_id : Z)
    (task_data : TaskCreateDTO.t) :
  (TaskListRepository.get_by_id task_list_id (db w) = None ->
   create_task task_list_id task_data user_id w = (inl (TaskListNotFoundError task_list_id), w)
   /\ status_of (TaskListNotFoundError task_list_id) = Some 404)
  /\ (forall l,
        TaskListRepository.get_by_id task_list_id (db w) = Some l ->
        (TaskList.owner_id l <> user_id ->
         create_task task_list_id task_data user_id w = (inl no_access_to_list, w)
         /\ status_of no_access_to_list = Some 403)
        /\ (forall a,
              TaskList.owner_id l = user_id ->
              TaskCreateDTO.assigned_to task_data = Some a -> a <> 0 ->
              UserRepository.get_by_id a (db w) = None ->
              create_task task_list_id task_data user_id w = (inl (UserNotFoundError a), w)
              /\ status_of (UserNotFoundError a) = Some 404)
        /\ (forall a assignee,
              TaskList.owner_id l = user_id ->
              TaskCreateDTO.assigned_to task_data = Some a -> a <> 0 ->
              UserRepository.get_by_id a (db w) = Some assignee ->
              User.is_active assignee = false ->
              create_task task_list_id task_data user_id w
              = (inl (TaskAssignmentError "Cannot assign task to inactive user"), w)
              /\ status_of (TaskAssignmentError "Cannot assign task to inactive user")
                 = Some 409)).
Proof.
  split.
  - intros Hl. split; [|reflexivity]. unfold create_task. run_step. now rewrite Hl.
  - intros l Hl. split; [|split].
    + intros Hne. split; [|reflexivity]. apply Z.eqb_neq in Hne.
      unfold create_task. run_step. rewrite Hl. cbn. now rewrite Hne.
    + intros a Ho Ha Hnz Hu. split; [|reflexivity].
      now apply (create_task_user_not_found w task_list_id user_id task_data l Hl Ho a).
    + intros a assignee Ho Ha Hnz Hu Hact. split; [|reflexivity].
      now apply (create_task_user_inactive w task_list_id user_id task_data l Hl Ho
                   a assignee).
Qed.

End WithNotificationService.

Lemma create_task_stores_then_notifies_witness :
  (exists dto w',
     create_task (notification_service := NotificationService true)
       1 (TaskCreateDTO.mk "Eggs" None 1 MEDIUM (Some 2) None) 1 Fixtures.world
     = (inr dto, w')
     /\ log w' = [TaskCreated (Some 4) 1; SendingEmail "bob@example.com" "Task Assigned: Eggs"]
     /\ TaskResponseDTO.status dto = PENDING)
  /\ create_task (notification_service := NotificationService true)
       1 (TaskCreateDTO.mk "Eggs" None 1 MEDIUM (Some 2) (Some (aware 9000 0))) 1
       Fixtures.world
     = (inl TypeError,
        mkWorld
          (InMemory.mkStore (InMemory.users Fixtures.store)
             (InMemory.task_lists Fixtures.store)
             (InMemory.tasks Fixtures.store
                ++ [Task.mk (Some 4) "Eggs" None PENDING MEDIUM 1 (Some 2) (Some 5000)
                      None (Some (aware 9000 0))])%list)
          5000 [TaskCreated (Some 4) 1; SendingEmail "bob@example.com" "Task Assigned: Eggs"]).
Proof.
  split.
  - destruct (create_task_stores_then_notifies true Fixtures.world 1
                (TaskCreateDTO.mk "Eggs" None 1 MEDIUM (Some 2) None) Fixtures.groceries
                (Task.mk (Some 4) "Eggs" None PENDING MEDIUM 1 (Some 2) (Some 5000) None None)
                (InMemory.mkStore (InMemory.users Fixtures.store)
                   (InMemory.task_lists Fixtures.store)
                   (InMemory.tasks Fixtures.store
                      ++ [Task.mk (Some 4) "Eggs" None PENDING MEDIUM 1 (Some 2) (Some 5000)
                            None None])%list))
      as (_ & _ & _ & _ & _ & Hreturns & _).
    + vm_compute. reflexivity.
    + right. exists Fixtures.bob. split; vm_compute; reflexivity.
    + vm_compute. reflexivity.
    + destruct Hreturns as (dto & Hrun & Hst & _); [repeat split; discriminate|].
      exists dto. eexists. split; [exact Hrun|].
      split; [vm_compute; reflexivity | exact Hst].
  - destruct (create_task_stores_then_notifies true Fixtures.world 1
                (TaskCreateDTO.mk "Eggs" None 1 MEDIUM (Some 2) (Some (aware 9000 0)))
                Fixtures.groceries
                (Task.mk (Some 4) "Eggs" None PENDING MEDIUM 1 (Some 2) (Some 5000) None
                   (Some (aware 9000 0)))
                (InMemory.mkStore (InMemory.users Fixtures.store)
                   (InMemory.task_lists Fixtures.store)
                   (InMemory.tasks Fixtures.store
                      ++ [Task.mk (Some 4) "Eggs" None PENDING MEDIUM 1 (Some 2) (Some 5000)
                            None (Some (aware 9000 0))])%list))
      as (_ & _ & _ & _ & _ & _ & Hraises).
    + vm_compute. reflexivity.
    + right. exists Fixtures.bob. split; vm_compute; reflexivity.
    + vm_compute. reflexivity.
    + etransitivity; [exact (Hraises 9000 0 eq_refl)|]. vm_compute. reflexivity.
Defined.

Lemma update_task_keeps_the_rest_witness :
  exists dto w',
    update_task (notification_service := NotificationService true)
      3 (TaskUpdateDTO.mk (Some "Bread") (Some EmptyString) None (Some 0) None) 1
      Fixtures.world
    = (inr dto, w')
    /\ InMemory.task_get_by_id 3 (db w')
       = Some (Task.mk (Some 3) "Bread" (Some EmptyString) COMPLETED MEDIUM 1 (Some 0)
                 (Some 3000) (Some 5000) None).
Proof.
  destruct (update_task_keeps_the_rest true Fixtures.world 3
              (TaskUpdateDTO.mk (Some "Bread") (Some EmptyString) None (Some 0) None)
              (Fixtures.task 3 COMPLETED (Some 2) None) Fixtures.groceries
              (Task.mk (Some 3) "Bread" (Some EmptyString) COMPLETED MEDIUM 1 (Some 0)
                 (Some 3000) (Some 5000) None)
              (InMemory.mkStore (InMemory.users Fixtures.store)
                 (InMemory.task_lists Fixtures.store)
                 [Fixtures.task 1 PENDING None None; Fixtures.task 2 PENDING (Some 2) None;
                  Task.mk (Some 3) "Bread" (Some EmptyString) COMPLETED MEDIUM 1 (Some 0)
                    (Some 3000) (Some 5000) None]))
    with (stored := Task.mk (Some 3) "Bread" (Some EmptyString) COMPLETED MEDIUM 1 (Some 0)
                      (Some 3000) (Some 5000) None)
    as ((dto & w' & Hrun & Hdb) & _).
  - vm_compute. reflexivity.
  - vm_compute. reflexivity.
  - left. reflexivity.
  - vm_compute. reflexivity.
  - vm_compute. reflexivity.
  - repeat split; discriminate.
  - exists dto, w'. split; [exact Hrun|]. rewrite Hdb. vm_compute. reflexivity.
Defined.

Lemma update_task_notifies_on_change_witness :
  log (snd (update_task (notification_service := NotificationService true)
              2 (TaskUpdateDTO.mk None None (Some HIGH) (Some 2) None) 1 Fixtures.world))
  = [TaskUpdated 2 1]
  /\ log (snd (update_task (notification_service := NotificationService true)
                 1 (TaskUpdateDTO.mk None None None (Some 2) None) 1 Fixtures.world))
     = [TaskUpdated 1 1; SendingEmail "bob@example.com" "Task Assigned: Milk"].
Proof.
  split.
  - destruct (update_task (notification_service := NotificationService true)
                2 (TaskUpdateDTO.mk None None (Some HIGH) (Some 2) None) 1 Fixtures.world)
      as [r w'] eqn:Hrun.
    cbn [snd].
    refine (proj1 (update_task_notifies_on_change true Fixtures.world 2
                     (TaskUpdateDTO.mk None None (Some HIGH) (Some 2) None)
                     (Fixtures.task 2 PENDING (Some 2) None) Fixtures.groceries
                     _ _ _ _ _ _ _ r w' Hrun) _).
    + vm_compute. reflexivity.
    + vm_compute. reflexivity.
    + right. exists Fixtures.bob. split; vm_compute; reflexivity.
    + reflexivity.
    + reflexivity.
    + right. reflexivity.
  - destruct (update_task (notification_service := NotificationService true)
                1 (TaskUpdateDTO.mk None None None (Some 2) None) 1 Fixtures.world)
      as [r w'] eqn:Hrun.
    cbn [snd].
    refine (proj2 (update_task_notifies_on_change true Fixtures.world 1
                     (TaskUpdateDTO.mk None None None (Some 2) None)
                     (Fixtures.task 1 PENDING None None) Fixtures.groceries
                     (Task.mk (Some 1) "Milk" None PENDING MEDIUM 1 (Some 2) (Some 3000)
                        (Some 5000) None)
                     (InMemory.mkStore (InMemory.users Fixtures.store)
                        (InMemory.task_lists Fixtures.store)
                        [Task.mk (Some 1) "Milk" None PENDING MEDIUM 1 (Some 2) (Some 3000)
                           (Some 5000) None;
                         Fixtures.task 2 PENDING (Some 2) None;
                         Fixtures.task 3 COMPLETED (Some 2) None])
                     _ _ _ _ _ r w' Hrun) 2 Fixtures.bob _ _ _ _).
    + vm_compute. reflexivity.
    + vm_compute. reflexivity.
    + right. exists Fixtures.bob. split; vm_compute; reflexivity.
    + reflexivity.
    + reflexivity.
    + reflexivity.
    + lia.
    + discriminate.
    + vm_compute. reflexivity.
Defined.

Lemma aware_due_date_raises_after_write_witness :
  create_task (notification_service := NotificationService true)
    1 (TaskCreateDTO.mk "Eggs" None 1 MEDIUM None (Some (aware 9000 0))) 1 Fixtures.world
  = (inl TypeError,
     mkWorld
       (InMemory.mkStore (InMemory.users Fixtures.store)
          (InMemory.task_lists Fixtures.store)
          (InMemory.tasks Fixtures.store
             ++ [Task.mk (Some 4) "Eggs" None PENDING MEDIUM 1 None (Some 5000)
                   None (Some (aware 9000 0))])%list)
       5000 [TaskCreated (Some 4) 1])
  /\ update_task (notification_service := NotificationService true)
       1 (TaskUpdateDTO.mk None None None None (Some (aware 9000 0))) 1 Fixtures.world
     = (inl TypeError,
        mkWorld
          (InMemory.mkStore (InMemory.users Fixtures.store)
             (InMemory.task_lists Fixtures.store)
             [Task.mk (Some 1) "Milk" None PENDING MEDIUM 1 None (Some 3000)
                (Some 5000) (Some (aware 9000 0));
              Fixtures.task 2 PENDING (Some 2) None;
              Fixtures.task 3 COMPLETED (Some 2) None])
          5000 [TaskUpdated 1 1]).
Proof.
  destruct (aware_due_date_raises_after_write true Fixtures.world 9000 0)
    as (Hcreate & Hupdate & _).
  split.
  - etransitivity;
      [apply (Hcreate 1 (TaskCreateDTO.mk "Eggs" None 1 MEDIUM None (Some (aware 9000 0)))
               Fixtures.groceries
               (Task.mk (Some 4) "Eggs" None PENDING MEDIUM 1 None (Some 5000)
                  None (Some (aware 9000 0)))
               (InMemory.mkStore (InMemory.users Fixtures.store)
                  (InMemory.task_lists Fixtures.store)
                  (InMemory.tasks Fixtures.store
                     ++ [Task.mk (Some 4) "Eggs" None PENDING MEDIUM 1 None (Some 5000)
                           None (Some (aware 9000 0))])%list))|].
    + vm_compute. reflexivity.
    + exact I.
    + reflexivity.
    + vm_compute. reflexivity.
    + reflexivity.
    + vm_compute. reflexivity.
  - etransitivity;
      [apply (Hupdate 1 (TaskUpdateDTO.mk None None None None (Some (aware 9000 0)))
               (Fixtures.task 1 PENDING None None) Fixtures.groceries
               (Task.mk (Some 1) "Milk" None PENDING MEDIUM 1 None (Some 3000)
                  (Some 5000) (Some (aware 9000 0)))
               (InMemory.mkStore (InMemory.users Fixtures.store)
                  (InMemory.task_lists Fixtures.store)
                  [Task.mk (Some 1) "Milk" None PENDING MEDIUM 1 None (Some 3000)
                     (Some 5000) (Some (aware 9000 0));
                   Fixtures.task 2 PENDING (Some 2) None;
                   Fixtures.task 3 COMPLETED (Some 2) None]))|].
    + vm_compute. reflexivity.
    + vm_compute. reflexivity.
    + exact I.
    + reflexivity.
    + vm_compute. reflexivity.
    + reflexivity.
    + vm_compute. reflexivity.
Defined.

(** ** Task lists: the listing, the default page, the update *)

Section TaskListMore.

Context {S : Type}.
Context {task_list_repository : TaskListRepository.t S}.
Context {task_repository : TaskRepository.t S}.

(** X8. [list_user_task_lists] answers one item per list the repository
    returns for the owner, in that order, each with the list's id and name, the
    number of tasks fetched for it and the percentage computed from them; an
    owner without lists gets the empty list; nothing is written or logged. *)
Theorem list_user_task_lists_items (w : World S) (user_id : Z) (pagination : PaginationDTO.t) :
  Forall TaskList_stored
    (TaskListRepository.get_by_owner user_id (PaginationDTO.skip pagination)
       (PaginationDTO.limit pagination) (db w)) ->
  exists dtos,
    list_user_task_lists user_id pagination w = (inr dtos, w)
    /\ Forall2 (fun l dto =>
                  TaskList.id l = Some (TaskListResponseDTO.id dto)
                  /\ TaskListResponseDTO.name dto = TaskList.name l
                  /\ TaskListResponseDTO.task_count dto
                     = len (TaskRepository.get_by_task_list (TaskListResponseDTO.id dto) 0 100 None None
                            (db w))
                  /\ TaskListResponseDTO.completion_percentage dto
                     = completion_percentage
                         (TaskRepository.get_by_task_list (TaskListResponseDTO.id dto) 0 100 None None
                            (db w)))
               (TaskListRepository.get_by_owner user_id (PaginationDTO.skip pagination)
                  (PaginationDTO.limit pagination) (db w))
               dtos
    /\ (TaskListRepository.get_by_owner user_id (PaginationDTO.skip pagination)
          (PaginationDTO.limit pagination) (db w) = [] -> dtos = []).
Proof.
  intros Hst.
  destruct (for_each_task_list_response _ w Hst) as (dtos & Hrun & Hall).
  exists dtos. split; [|split].
  - unfold list_user_task_lists. run_step. exact Hrun.
  - exact Hall.
  - intros Hnil. rewrite Hnil in Hall. now inversion Hall.
Qed.

(** X9. Both readers fetch a list's tasks with the interface's default page
    ([skip = 0], [limit = 100]): with a repository that returns at most
    [limit] rows, [get_task_list] shows at most [100] tasks and
    [list_user_task_lists] reports a [task_count] of at most [100], however
    many tasks the list has. *)
Theorem readers_see_the_default_page (w : World S) (user_id : Z)
    (pagination : PaginationDTO.t) :
  (forall i skip limit status priority s,
     (List.length (TaskRepository.get_by_task_list i skip limit status priority s)
      <= Z.to_nat limit)%nat) ->
  (forall task_list_id l,
     TaskListRepository.get_by_id task_list_id (db w) = Some l ->
     TaskList.owner_id l = user_id ->
     TaskList_stored l ->
     Forall Task_stored (TaskRepository.get_by_task_list task_list_id 0 100 None None (db w)) ->
     exists dto,
       get_task_list task_list_id user_id w = (inr dto, w)
       /\ (List.length (TaskListWithTasksDTO.tasks dto) <= 100)%nat)
  /\ (Forall TaskList_stored
        (TaskListRepository.get_by_owner user_id (PaginationDTO.skip pagination)
           (PaginationDTO.limit pagination) (db w)) ->
      exists dtos,
        list_user_task_lists user_id pagination w = (inr dtos, w)
        /\ Forall (fun dto => TaskListResponseDTO.task_count dto <= 100) dtos).
Proof.
  intros Hlimit. split.
  - intros task_list_id l Hl <- Hst Hts.
    destruct (get_task_list_owner w task_list_id l Hl Hst Hts) as (dto & Hrun & _ & Hlen).
    exists dto. split; [exact Hrun|]. rewrite Hlen.
    exact (Hlimit task_list_id 0 100 None None (db w)).
  - intros Hst.
    destruct (for_each_task_list_response _ w Hst) as (dtos & Hrun & Hall).
    exists dtos. split.
    + unfold list_user_task_lists. run_step. exact Hrun.
    + clear Hrun Hst. induction Hall as [|l dto ls ds (_ & _ & Hn & _) _ IH]; constructor.
      * rewrite Hn. unfold len.
        pose proof (Hlimit (TaskListResponseDTO.id dto) 0 100 None None (db w)). lia.
      * exact IH.
Qed.

(** [update_task_list] by the owner: what is stored, what is logged, what is
    answered. *)
Lemma update_task_list_run (w : World S) (task_list_id : Z)
    (update_data : TaskListUpdateDTO.t) (l l' : TaskList.t) (s : S) :
  TaskListRepository.get_by_id task_list_id (db w) = Some l ->
  TaskListRepository.update (updated_list update_data (now w) l) (db w) = (l', s) ->
  update_task_list task_list_id update_data (TaskList.owner_id l) w
  = (TaskListResponseDTO.of_task_list l' (TaskList.calculate_completion_percentage l') 0,
     mkWorld s (now w) (log w ++ [TaskListUpdated task_list_id (TaskList.owner_id l)])).
Proof.
  intros Hl Hu.
  unfold update_task_list. run_step. rewrite Hl. cbn. rewrite Z.eqb_refl. cbn.
  assert (Hsame : TaskList.set_updated_at (Some (now w))
            match TaskListUpdateDTO.description update_data with
            | Some v =>
                TaskList.set_description (Some v)
                  match TaskListUpdateDTO.name update_data with
                  | Some v0 => TaskList.set_name v0 l
                  | None => l
                  end
            | None =>
                match TaskListUpdateDTO.name update_data with
                | Some v => TaskList.set_name v l
                | None => l
                end
            end = updated_list update_data (now w) l).
  { unfold updated_list. destruct l.
    destruct (TaskListUpdateDTO.description update_data),
             (TaskListUpdateDTO.name update_data); reflexivity. }
  rewrite Hsame, Hu. reflexivity.
Qed.

(** X10. The owner's [update_task_list] stores the list it found with the
    supplied name and description replaced and [updated_at] set to now: id,
    owner, creation time and tasks are never touched and a description cannot
    be emptied. The answer always carries [task_count = 0], and a percentage
    computed from the tasks the repository's answer carries, not from the task
    repository: [0.0] when it carries none. *)
Theorem update_task_list_keeps_identity (w : World S) (task_list_id : Z)
    (update_data : TaskListUpdateDTO.t) (l l' : TaskList.t) (s : S) :
  TaskListRepository.get_by_id task_list_id (db w) = Some l ->
  forall stored,
    stored = updated_list update_data (now w) l ->
    TaskListRepository.update stored (db w) = (l', s) ->
    TaskList_stored l' ->
    (exists dto,
       update_task_list task_list_id update_data (TaskList.owner_id l) w
       = (inr dto,
          mkWorld s (now w) (log w ++ [TaskListUpdated task_list_id (TaskList.owner_id l)]))
       /\ TaskListResponseDTO.task_count dto = 0
       /\ TaskListResponseDTO.completion_percentage dto
          = TaskList.calculate_completion_percentage l'
       /\ (TaskList.tasks l' = [] ->
           TaskListResponseDTO.completion_percentage dto = 0%float))
    /\ TaskList.id stored = TaskList.id l
    /\ TaskList.owner_id stored = TaskList.owner_id l
    /\ TaskList.created_at stored = TaskList.created_at l
    /\ TaskList.tasks stored = TaskList.tasks l
    /\ TaskList.updated_at stored = Some (now w)
    /\ (TaskListUpdateDTO.name update_data = None -> TaskList.name stored = TaskList.name l)
    /\ (TaskList.description l <> None -> TaskList.description stored <> None).
Proof.
  intros Hl stored -> Hu Hst. split.
  - rewrite (update_task_list_run w task_list_id update_data l l' s Hl Hu).
    destruct (of_task_list_stored l' (TaskList.calculate_completion_percentage l') 0 Hst)
      as (dto & -> & Hp & Hn).
    exists dto. split; [reflexivity|]. split; [exact Hn|]. split; [exact Hp|].
    intros Hnil. rewrite Hp. unfold TaskList.calculate_completion_percentage.
    now rewrite Hnil.
  - cbn. repeat split.
    + now intros ->.
    + destruct (TaskListUpdateDTO.description update_data); [discriminate | auto].
Qed.

(** One task with an aware due date, behind stored tasks, and the loop that
    builds the responses raises [TypeError]. *)
Lemma for_each_task_response_aware (before after : list Task.t) (task : Task.t)
    (d utcoffset : datetime) (w : World S) :
  Forall Task_stored before ->
  Task.due_date task = Some (aware d utcoffset) ->
  for_each task_response (before ++ task :: after) w = (inl TypeError, w).
Proof.
  intros Hst Hd. induction Hst as [|x before Hx _ IH]; cbn [app for_each].
  - unfold bind at 1. rewrite task_response_run.
    now rewrite (is_overdue_aware (now w) d utcoffset task Hd).
  - unfold bind at 1. rewrite task_response_run.
    destruct (of_task_stored (now w) x None Hx) as (dto & -> & _).
    unfold bind at 1. now rewrite IH.
Qed.

(** X22. The two refusals of [get_task_list], [update_task_list] and
    [delete_task_list] as the exception handler answers them: 404 with the
    list's id in the message for an absent list, 403 for a requester who is not
    the owner, both raised before anything is written. And a failure it does
    not answer: when the page [get_task_list] fetches holds a task with an
    aware due date behind stored tasks, the owner's call raises [TypeError]. *)
Theorem task_list_failures (w : World S) (task_list_id user_id : Z)
    (update_data : TaskListUpdateDTO.t) :
  (TaskListRepository.get_by_id task_list_id (db w) = None ->
   get_task_list task_list_id user_id w = (inl (TaskListNotFoundError task_list_id), w)
   /\ update_task_list task_list_id update_data user_id w
      = (inl (TaskListNotFoundError task_list_id), w)
   /\ delete_task_list task_list_id user_id w = (inl (TaskListNotFoundError task_list_id), w)
   /\ task_manager_exception_handler (TaskListNotFoundError task_list_id)
      = Some (JSONResponse.mk 404 ("TaskList with id " ++ str_int task_list_id ++ " not found")
                "ENTITY_NOT_FOUND"))
  /\ (forall l,
        TaskListRepository.get_by_id task_list_id (db w) = Some l ->
        TaskList.owner_id l <> user_id ->
        get_task_list task_list_id user_id w = (inl no_access_to_list, w)
        /\ update_task_list task_list_id update_data user_id w = (inl no_access_to_list, w)
        /\ delete_task_list task_list_id user_id w = (inl no_access_to_list, w)
        /\ task_manager_exception_handler no_access_to_list
           = Some (JSONResponse.mk 403 "You don't have access to this task list"
                     "AUTHORIZATION_ERROR"))
  /\ (forall l before task after d utcoffset,
        TaskListRepository.get_by_id task_list_id (db w) = Some l ->
        TaskList.owner_id l = user_id ->
        TaskRepository.get_by_task_list task_list_id 0 100 None None (db w)
        = (before ++ task :: after)%list ->
        Forall Task_stored before ->
        Task.due_date task = Some (aware d utcoffset) ->
        get_task_list task_list_id user_id w = (inl TypeError, w)
        /\ task_manager_exception_handler TypeError = None).
Proof.
  split; [|split].
  - intros Hl. split; [|split; [|split]].
    + now apply get_task_list_absent.
    + now apply update_task_list_absent.
    + now apply delete_task_list_absent.
    + reflexivity.
  - intros l Hl Hne. split; [|split; [|split]].
    + now apply get_task_list_forbidden with l.
    + now apply update_task_list_forbidden with l.
    + now apply delete_task_list_forbidden with l.
    + reflexivity.
  - intros l before task after d off Hl Ho Hpage Hst Hd. split; [|reflexivity].
    apply Z.eqb_eq in Ho.
    unfold get_task_list. run_step. rewrite Hl. cbn. rewrite Ho. cbn.
    rewrite Hpage, (for_each_task_response_aware before after task d off w Hst Hd).
    reflexivity.
Qed.

End TaskListMore.

Lemma list_user_task_lists_items_witness :
  exists dtos,
    list_user_task_lists 1 (PaginationDTO.mk 0 10) Fixtures.world = (inr dtos, Fixtures.world)
    /\ map TaskListResponseDTO.task_count dtos = [3].
Proof.
  destruct (list_user_task_lists_items Fixtures.world 1 (PaginationDTO.mk 0 10))
    as (dtos & Hrun & Hall & _).
  - vm_compute. repeat constructor; discriminate.
  - exists dtos. split; [exact Hrun|].
    assert (Hl : TaskListRepository.get_by_owner 1 0 10 (db Fixtures.world)
                 = [Fixtures.groceries]) by (vm_compute; reflexivity).
    cbn [PaginationDTO.skip PaginationDTO.limit] in Hall. rewrite Hl in Hall.
    inversion Hall as [|? dto ? rest (Hid & _ & Hn & _) Hrest]; subst.
    inversion Hrest; subst. cbn [map]. rewrite Hn.
    assert (Hi : TaskListResponseDTO.id dto = 1)
      by (cbn [TaskList.id Fixtures.groceries] in Hid; congruence).
    rewrite Hi. vm_compute. reflexivity.
Defined.

Lemma in_memory_honours_limit (i skip limit : Z) (status : option TaskStatus)
    (priority : option TaskPriority) (s : InMemory.Store) :
  (List.length (TaskRepository.get_by_task_list i skip limit status priority s)
   <= Z.to_nat limit)%nat.
Proof. apply page_length. Qed.

Lemma readers_see_the_default_page_witness :
  List.length (InMemory.tasks (db crowded_world)) = 101%nat
  /\ (exists dto,
        get_task_list 1 1 crowded_world = (inr dto, crowded_world)
        /\ (List.length (TaskListWithTasksDTO.tasks dto) <= 100)%nat)
  /\ (exists dtos,
        list_user_task_lists 1 (PaginationDTO.mk 0 10) crowded_world
        = (inr dtos, crowded_world)
        /\ Forall (fun dto => TaskListResponseDTO.task_count dto <= 100) dtos).
Proof.
  destruct (readers_see_the_default_page crowded_world 1 (PaginationDTO.mk 0 10)
              in_memory_honours_limit) as [Hget Hlist].
  split; [reflexivity|]. split.
  - apply (Hget 1 Fixtures.groceries).
    + vm_compute. reflexivity.
    + reflexivity.
    + split; discriminate.
    + vm_compute. repeat constructor; discriminate.
  - apply Hlist. vm_compute. repeat constructor; discriminate.
Defined.

Lemma update_task_list_keeps_identity_witness :
  exists dto w',
    update_task_list 1 (TaskListUpdateDTO.mk (Some "Food") None) 1 Fixtures.world
    = (inr dto, w')
    /\ TaskListResponseDTO.task_count dto = 0
    /\ InMemory.task_list_get_by_id 1 (db w')
       = Some (TaskList.mk (Some 1) "Food" None 1 (Some 2000) (Some 5000) []).
Proof.
  destruct (update_task_list_keeps_identity Fixtures.world 1
              (TaskListUpdateDTO.mk (Some "Food") None) Fixtures.groceries
              (TaskList.mk (Some 1) "Food" None 1 (Some 2000) (Some 5000) [])
              (InMemory.mkStore (InMemory.users Fixtures.store)
                 [TaskList.mk (Some 1) "Food" None 1 (Some 2000) (Some 5000) []]
                 (InMemory.tasks Fixtures.store)))
    with (stored := TaskList.mk (Some 1) "Food" None 1 (Some 2000) (Some 5000) [])
    as ((dto & Hrun & Hn & _) & _).
  - vm_compute. reflexivity.
  - vm_compute. reflexivity.
  - vm_compute. reflexivity.
  - split; discriminate.
  - exists dto. eexists. split; [exact Hrun|]. split; [exact Hn|].
    vm_compute. reflexivity.
Defined.

(** ** Registration, tokens and the current user *)

Lemma dict_get_update_same (d : list (string * ClaimValue)) (k : string) (v : ClaimValue) :
  dict_get (dict_update d k v) k = Some v.
Proof.
  induction d as [|[k' v'] d IH]; cbn.
  - now rewrite String.eqb_refl.
  - destruct (String.eqb k' k) eqn:E; cbn; rewrite E; [reflexivity | exact IH].
Qed.

Lemma dict_get_update_other (d : list (string * ClaimValue)) (k k' : string)
    (v : ClaimValue) :
  k' <> k -> dict_get (dict_update d k v) k' = dict_get d k'.
Proof.
  intros Hne. induction d as [|[k0 v0] d IH]; cbn.
  - destruct (String.eqb k k') eqn:E; [|reflexivity].
    apply String.eqb_eq in E. congruence.
  - destruct (String.eqb k0 k) eqn:E; cbn.
    + apply String.eqb_eq in E. subst k0.
      destruct (String.eqb k k') eqn:E'; [|reflexivity].
      apply String.eqb_eq in E'. congruence.
    + now rewrite IH.
Qed.

(** [add_minutes] answers the exact sum, which is then a date, and raises
    when the sum is past [datetime.max]. *)
Lemma add_minutes_returns (d : datetime) (m : Z) (r : datetime) :
  add_minutes d m = inr r -> r = d + m * 60 * 1000000 /\ 0 <= r <= datetime_max.
Proof.
  unfold add_minutes, timedelta_minutes.
  destruct ((-999999999 <=? m / 1440) && (m / 1440 <=? 999999999)); [|discriminate].
  destruct ((0 <=? d + m * 60 * 1000000) && (d + m * 60 * 1000000 <=? datetime_max)) eqn:E;
    [|discriminate].
  intros H. injection H as <-. apply andb_true_iff in E.
  rewrite !Z.leb_le in E. tauto.
Qed.

Lemma add_minutes_past_max (d : datetime) (m : Z) :
  datetime_max < d + m * 60 * 1000000 -> add_minutes d m = inl OverflowError.
Proof.
  intros H. destruct (add_minutes d m) as [e|r] eqn:E.
  - now rewrite (add_minutes_raises d m e E).
  - apply add_minutes_returns in E. lia.
Qed.

Section AuthMore.

Context {S : Type}.
Context {user_repository : UserRepository.t S}.

Variable pwd_context_hash : string -> Result string.
Variable pwd_context_verify : string -> string -> Result bool.
Variable jwt_encode : list (string * ClaimValue) -> string -> string -> Result string.
Variable jwt_decode :
  string -> string -> list string -> datetime -> option (list (string * ClaimValue)).
Variable python_int : ClaimValue -> Result Z.
Variable self : AuthService.t.

(** X11. A registration with a free email and a free username hashes the
    password first: what the hashing raises is raised with nothing written.
    Once the password is hashed the registration writes once: the repository
    is asked to create an active user without id, created now, holding the
    hash and not the password handed in. The creation is logged, and the
    answer shows the user as the repository returned it, when that user is
    stored. *)
Theorem register_user_creates (w : World S) (user_data : UserCreateDTO.t) :
  UserRepository.get_by_email (UserCreateDTO.email user_data) (db w) = None ->
  UserRepository.get_by_username (UserCreateDTO.username user_data) (db w) = None ->
  (forall e, pwd_context_hash (UserCreateDTO.password user_data) = inl e ->
             register_user pwd_context_hash user_data w = (inl e, w))
  /\ (forall hashed_password asked created s,
        pwd_context_hash (UserCreateDTO.password user_data) = inr hashed_password ->
        asked = new_user hashed_password user_data (now w) ->
        UserRepository.create asked (db w) = (created, s) ->
        (User.hashed_password asked = hashed_password
         /\ User.email asked = UserCreateDTO.email user_data
         /\ User.username asked = UserCreateDTO.username user_data
         /\ User.is_active asked = true
         /\ User.id asked = None
         /\ User.created_at asked = Some (now w))
        /\ snd (register_user pwd_context_hash user_data w)
           = mkWorld s (now w) (log w ++ [UserRegistered (User.email created)])
        /\ (User_stored created ->
            exists dto,
              register_user pwd_context_hash user_data w
              = (inr dto, mkWorld s (now w) (log w ++ [UserRegistered (User.email created)]))
              /\ User.id created = Some (UserResponseDTO.id dto)
              /\ UserResponseDTO.email dto = User.email created
              /\ UserResponseDTO.username dto = User.username created
              /\ UserResponseDTO.is_active dto = User.is_active created)).
Proof.
  intros He Hu.
  rewrite (register_user_run pwd_context_hash w user_data He Hu). split.
  - intros e ->. reflexivity.
  - intros hashed_password asked created s -> -> Hc. rewrite Hc.
    split; [repeat split|]. split; [reflexivity|].
    intros [Hid Hcr]. unfold UserResponseDTO.of_user.
    destruct (User.id created) as [i|]; [|congruence].
    destruct (User.created_at created) as [c|]; [|congruence].
    cbn. eexists. repeat split.
Qed.

(** X12. Register, then log in. The password is hashed and the user created;
    when the repository then finds that user under the login identifier,
    stored active with the hash it was given, the verifier accepts the password
    against that hash, the expiry is a date and the token gets signed, the
    login that follows the registration returns that token, good for
    [60 * access_token_expire_minutes] seconds. *)
Theorem register_then_login (w : World S) (user_data : UserCreateDTO.t)
    (hashed_password : string) (created : User.t) (s : S) (identifier : string)
    (expire : datetime) (access_token : string) :
  UserRepository.get_by_email (UserCreateDTO.email user_data) (db w) = None ->
  UserRepository.get_by_username (UserCreateDTO.username user_data) (db w) = None ->
  pwd_context_hash (UserCreateDTO.password user_data) = inr hashed_password ->
  UserRepository.create (new_user hashed_password user_data (now w)) (db w) = (created, s) ->
  User_stored created ->
  User.hashed_password created = hashed_password ->
  User.is_active created = true ->
  resolve_login identifier s = Some created ->
  pwd_context_verify (UserCreateDTO.password user_data) hashed_password = inr true ->
  add_minutes (now w) (AuthService.access_token_expire_minutes self) = inr expire ->
  jwt_encode (token_payload created expire)
    (AuthService.secret_key self) (AuthService.algorithm self) = inr access_token ->
  exists dto w1 w2,
    register_user pwd_context_hash user_data w = (inr dto, w1)
    /\ authenticate_user pwd_context_verify jwt_encode self
         (LoginDTO.mk identifier (UserCreateDTO.password user_data)) w1
       = (inr (TokenResponseDTO.mk access_token "bearer"
                 (AuthService.access_token_expire_minutes self * 60)), w2)
    /\ db w2 = s.
Proof.
  intros He Hu Hh Hc Hst Hhash Hact Hres Hverify Hexp Henc.
  destruct (of_user_stored created Hst) as (dto & Hdto).
  exists dto, (mkWorld s (now w) (log w ++ [UserRegistered (User.email created)])).
  eexists. split.
  - rewrite (register_user_run pwd_context_hash w user_data He Hu), Hh, Hc, Hdto.
    reflexivity.
  - rewrite (authenticate_user_known pwd_context_verify jwt_encode self
               (mkWorld s (now w) (log w ++ [UserRegistered (User.email created)]))
               (LoginDTO.mk identifier (UserCreateDTO.password user_data)) created Hres).
    cbn [LoginDTO.password now]. rewrite Hhash, Hverify, Hact. cbn [negb].
    rewrite Hexp, Henc. split; reflexivity.
Qed.

(** X13. [_create_access_token] computes the expiry,
    [access_token_expire_minutes] minutes after now, and raises
    [OverflowError] when that is past [datetime.max], before anything is
    signed; else it signs the claims it is given with an ["exp"] claim added,
    or replaced, and every other claim kept. For a login that returns, the
    expiry is the instant [expires_in] seconds from now that the answer
    announces, signed next to the user's id as ["sub"]. *)
Theorem access_token_claims (w : World S) (data : list (string * ClaimValue)) :
  (forall expire,
     add_minutes (now w) (AuthService.access_token_expire_minutes self) = inr expire ->
     _create_access_token jwt_encode self data w
     = (jwt_encode (dict_update data "exp" (ClaimTime expire))
          (AuthService.secret_key self) (AuthService.algorithm self), w)
     /\ dict_get (dict_update data "exp" (ClaimTime expire)) "exp" = Some (ClaimTime expire)
     /\ (forall k, k <> "exp" ->
                   dict_get (dict_update data "exp" (ClaimTime expire)) k = dict_get data k)
     /\ expire = now w + AuthService.access_token_expire_minutes self * 60 * 1000000)
  /\ (datetime_max < now w + AuthService.access_token_expire_minutes self * 60 * 1000000 ->
      _create_access_token jwt_encode self data w = (inl OverflowError, w)
      /\ forall login_data user,
           resolve_login (LoginDTO.email login_data) (db w) = Some user ->
           pwd_context_verify (LoginDTO.password login_data) (User.hashed_password user)
           = inr true ->
           User.is_active user = true ->
           authenticate_user pwd_context_verify jwt_encode self login_data w
           = (inl OverflowError, w))
  /\ (forall login_data token w',
        authenticate_user pwd_context_verify jwt_encode self login_data w = (inr token, w') ->
        exists user expire,
          resolve_login (LoginDTO.email login_data) (db w) = Some user
          /\ jwt_encode (token_payload user expire)
               (AuthService.secret_key self) (AuthService.algorithm self)
             = inr (TokenResponseDTO.access_token token)
          /\ dict_get (token_payload user expire) "sub"
             = Some (ClaimStr (str_opt_int (User.id user)))
          /\ dict_get (token_payload user expire) "exp" = Some (ClaimTime expire)
          /\ expire = now w + TokenResponseDTO.expires_in token * 1000000).
Proof.
  split; [|split].
  - intros expire Hx. split; [|split; [|split]].
    + unfold _create_access_token. run_step. rewrite Hx. reflexivity.
    + apply dict_get_update_same.
    + intros k Hk. now apply dict_get_update_other.
    + now apply add_minutes_returns in Hx.
  - intros Hpast. apply add_minutes_past_max in Hpast. split.
    + unfold _create_access_token. run_step. rewrite Hpast. reflexivity.
    + intros login_data user Hres Hv Hact.
      rewrite (authenticate_user_known pwd_context_verify jwt_encode self w login_data
                 user Hres), Hv, Hact, Hpast.
      reflexivity.
  - intros login_data token w' Hrun.
    destruct (resolve_login (LoginDTO.email login_data) (db w)) as [user|] eqn:Hres.
    + rewrite (authenticate_user_known pwd_context_verify jwt_encode self w login_data
                 user Hres) in Hrun.
      destruct (pwd_context_verify _ _) as [e|[|]]; cbn in Hrun; try discriminate.
      destruct (User.is_active user); cbn in Hrun; [|discriminate].
      destruct (add_minutes _ _) as [e|expire] eqn:Hx; [discriminate|].
      destruct (jwt_encode _ _ _) as [e|access_token] eqn:Henc; [discriminate|].
      injection Hrun as <- _. exists user, expire.
      split; [reflexivity|]. split; [exact Henc|]. split; [reflexivity|].
      split; [apply dict_get_update_same|].
      apply add_minutes_returns in Hx. cbn [TokenResponseDTO.expires_in]. lia.
    + rewrite (authenticate_user_unknown pwd_context_verify jwt_encode self w login_data
                 Hres) in Hrun.
      discriminate.
Qed.

(** X14. A token from a login resolves to the user who logged in. The login
    signs the user's id as ["sub"]; at any later time at which jose decodes
    the token to a payload with that ["sub"] (it gives the expiry back in
    another form), and with an [int] that reads back the id as printed,
    [get_current_user] on the login's token returns the user stored under that
    id. It asks nothing else of the user: an account deactivated after the
    login is still returned. *)
Theorem login_token_resolves_user (w : World S) (login_data : LoginDTO.t)
    (user : User.t) (i : Z) (expire : datetime) (access_token : string) :
  resolve_login (LoginDTO.email login_data) (db w) = Some user ->
  pwd_context_verify (LoginDTO.password login_data) (User.hashed_password user) = inr true ->
  User.is_active user = true ->
  User.id user = Some i ->
  add_minutes (now w) (AuthService.access_token_expire_minutes self) = inr expire ->
  jwt_encode (token_payload user expire)
    (AuthService.secret_key self) (AuthService.algorithm self) = inr access_token ->
  python_int (ClaimStr (str_int i)) = inr i ->
  dict_get (token_payload user expire) "sub" = Some (ClaimStr (str_int i))
  /\ exists token w1,
       authenticate_user pwd_context_verify jwt_encode self login_data w = (inr token, w1)
       /\ TokenResponseDTO.access_token token = access_token
       /\ forall (w2 : World S) (payload : list (string * ClaimValue)) (stored : User.t),
            jwt_decode access_token (AuthService.secret_key self)
              [AuthService.algorithm self] (now w2) = Some payload ->
            dict_get payload "sub" = Some (ClaimStr (str_int i)) ->
            UserRepository.get_by_id i (db w2) = Some stored ->
            get_current_user jwt_decode python_int self access_token w2 = (inr stored, w2).
Proof.
  intros Hres Hv Hact Hid Hx Henc Hint. split.
  - unfold token_payload. rewrite dict_get_update_other by discriminate.
    rewrite Hid. reflexivity.
  - rewrite (authenticate_user_known pwd_context_verify jwt_encode self w login_data
               user Hres), Hv, Hact, Hx, Henc.
    cbn [negb]. eexists. eexists. split; [reflexivity|]. split; [reflexivity|].
    intros w2 payload stored Hdec Hsub Hget.
    unfold get_current_user. run_step. rewrite Hdec, Hsub. run_step.
    rewrite Hint, Hget. reflexivity.
Qed.

(** X15. The refusals of the authentication service as the exception handler
    answers them. Both failures of a login are answered 401, each with its
    message. [get_current_user] refuses a token jose does not decode, a payload
    without ["sub"] and a subject no user has, each with an
    [AuthenticationError], answered 401, and nothing written; what [int]
    raises on the subject is not caught. A duplicate email or username is
    answered 400. *)
Theorem auth_failures (w : World S) (token : string) :
  let decoded :=
    jwt_decode token (AuthService.secret_key self) [AuthService.algorithm self] (now w) in
  (forall m, task_manager_exception_handler (AuthenticationError m)
             = Some (JSONResponse.mk 401 m "AUTHENTICATION_ERROR"))
  /\ (task_manager_exception_handler invalid_credentials
      = Some (JSONResponse.mk 401 "Invalid credentials" "AUTHENTICATION_ERROR")
      /\ task_manager_exception_handler account_inactive
         = Some (JSONResponse.mk 401 "User account is inactive" "AUTHENTICATION_ERROR"))
  /\ (decoded = None ->
      get_current_user jwt_decode python_int self token w
      = (inl (AuthenticationError "Invalid token"), w))
  /\ (forall payload, decoded = Some payload -> dict_get payload "sub" = None ->
        get_current_user jwt_decode python_int self token w
        = (inl (AuthenticationError "Invalid token"), w))
  /\ (forall payload user_id i,
        decoded = Some payload -> dict_get payload "sub" = Some user_id ->
        python_int user_id = inr i -> UserRepository.get_by_id i (db w) = None ->
        get_current_user jwt_decode python_int self token w
        = (inl (AuthenticationError "User not found"), w))
  /\ (forall payload user_id e,
        decoded = Some payload -> dict_get payload "sub" = Some user_id ->
        python_int user_id = inl e ->
        get_current_user jwt_decode python_int self token w = (inl e, w))
  /\ (forall email,
        task_manager_exception_handler (EmailAlreadyExistsError email)
        = Some (JSONResponse.mk 400 ("User with email '" ++ email ++ "' already exists")
                  "DUPLICATE_ENTITY"))
  /\ (forall username,
        task_manager_exception_handler (UsernameAlreadyExistsError username)
        = Some (JSONResponse.mk 400
                  ("User with username '" ++ username ++ "' already exists")
                  "DUPLICATE_ENTITY")).
Proof.
  cbv zeta. repeat apply conj; try reflexivity.
  - intros Hdec. unfold get_current_user. run_step. now rewrite Hdec.
  - intros payload Hdec Hsub. unfold get_current_user. run_step. now rewrite Hdec, Hsub.
  - intros payload user_id i Hdec Hsub Hint Hget.
    unfold get_current_user. run_step. rewrite Hdec, Hsub. run_step.
    now rewrite Hint, Hget.
  - intros payload user_id e Hdec Hsub Hint.
    unfold get_current_user. run_step. rewrite Hdec, Hsub. run_step.
    now rewrite Hint.
Qed.

End AuthMore.

Lemma register_user_creates_witness :
  (exists dto w',
     register_user Fixtures.pwd_hash AuthFixtures.dave Fixtures.world = (inr dto, w')
     /\ UserResponseDTO.id dto = 4
     /\ log w' = [UserRegistered "dave@example.com"])
  /\ register_user Fixtures.pwd_hash
       (UserCreateDTO.mk "dave@example.com" "dave" None Fixtures.nul_password) Fixtures.world
     = (inl Fixtures.null_password, Fixtures.world).
Proof.
  split.
  - destruct (register_user_creates Fixtures.pwd_hash Fixtures.world AuthFixtures.dave)
      as (_ & Hcreated); [vm_compute; reflexivity | vm_compute; reflexivity |].
    destruct (Hcreated "hash-longenoughpw"
                (new_user "hash-longenoughpw" AuthFixtures.dave 5000)
                (User.mk (Some 4) "dave@example.com" "dave" None "hash-longenoughpw" true
                   (Some 5000) None)
                (InMemory.mkStore
                   (InMemory.users Fixtures.store
                      ++ [User.mk (Some 4) "dave@example.com" "dave" None "hash-longenoughpw"
                            true (Some 5000) None])%list
                   (InMemory.task_lists Fixtures.store) (InMemory.tasks Fixtures.store)))
      as (_ & _ & Hreturns).
    + vm_compute. reflexivity.
    + reflexivity.
    + vm_compute. reflexivity.
    + destruct Hreturns as (dto & Hrun & Hid & _); [split; discriminate|].
      exists dto. eexists. split; [exact Hrun|]. split; [|reflexivity].
      cbn in Hid. congruence.
  - destruct (register_user_creates Fixtures.pwd_hash Fixtures.world
                (UserCreateDTO.mk "dave@example.com" "dave" None Fixtures.nul_password))
      as (Hraises & _); [vm_compute; reflexivity | vm_compute; reflexivity |].
    apply Hraises. vm_compute. reflexivity.
Defined.

Lemma register_then_login_witness :
  exists dto w1 w2,
    register_user Fixtures.pwd_hash AuthFixtures.dave Fixtures.world = (inr dto, w1)
    /\ authenticate_user Fixtures.pwd_verify Fixtures.jwt Fixtures.auth
         (LoginDTO.mk "dave@example.com" "longenoughpw") w1
       = (inr (TokenResponseDTO.mk "4" "bearer" 1800), w2).
Proof.
  destruct (register_then_login Fixtures.pwd_hash Fixtures.pwd_verify Fixtures.jwt
              Fixtures.auth Fixtures.world AuthFixtures.dave "hash-longenoughpw"
              (User.mk (Some 4) "dave@example.com" "dave" None "hash-longenoughpw" true
                 (Some 5000) None)
              (InMemory.mkStore
                 (InMemory.users Fixtures.store
                    ++ [User.mk (Some 4) "dave@example.com" "dave" None "hash-longenoughpw"
                          true (Some 5000) None])%list
                 (InMemory.task_lists Fixtures.store) (InMemory.tasks Fixtures.store))
              "dave@example.com" (5000 + 30 * 60 * 1000000) "4")
    as (dto & w1 & w2 & Hreg & Hlogin & _).
  - vm_compute. reflexivity.
  - vm_compute. reflexivity.
  - vm_compute. reflexivity.
  - vm_compute. reflexivity.
  - split; discriminate.
  - reflexivity.
  - reflexivity.
  - vm_compute. reflexivity.
  - vm_compute. reflexivity.
  - vm_compute. reflexivity.
  - vm_compute. reflexivity.
  - exists dto, w1, w2. split; [exact Hreg | exact Hlogin].
Defined.

Lemma access_token_claims_witness :
  (exists token w',
     authenticate_user Fixtures.pwd_verify Fixtures.jwt Fixtures.auth
       (LoginDTO.mk "alice" "a") Fixtures.world = (inr token, w')
     /\ dict_get (token_payload Fixtures.alice (5000 + 1800 * 1000000)) "exp"
        = Some (ClaimTime (5000 + 1800 * 1000000)))
  /\ authenticate_user Fixtures.pwd_verify Fixtures.jwt AuthFixtures.long_lived
       (LoginDTO.mk "alice" "a") (mkWorld Fixtures.store AuthFixtures.new_year_2026 [])
     = (inl OverflowError, mkWorld Fixtures.store AuthFixtures.new_year_2026 []).
Proof.
  split.
  - assert (Hrun : exists token w',
               authenticate_user Fixtures.pwd_verify Fixtures.jwt Fixtures.auth
                 (LoginDTO.mk "alice" "a") Fixtures.world = (inr token, w')
               /\ TokenResponseDTO.expires_in token = 1800).
    { eexists. eexists. split; vm_compute; reflexivity. }
    destruct Hrun as (token & w' & Hrun & Hexp).
    destruct (proj2 (proj2 (access_token_claims Fixtures.pwd_verify Fixtures.jwt
                              Fixtures.auth Fixtures.world []))
                (LoginDTO.mk "alice" "a") token w' Hrun)
      as (user & expire & Hres & _ & _ & Hclaim & Hexpire).
    vm_compute in Hres. injection Hres as <-.
    exists token, w'. split; [exact Hrun|].
    rewrite Hexp in Hexpire. cbn [now Fixtures.world] in Hexpire. subst expire.
    exact Hclaim.
  - destruct (proj1 (proj2 (access_token_claims Fixtures.pwd_verify Fixtures.jwt
                              AuthFixtures.long_lived
                              (mkWorld Fixtures.store AuthFixtures.new_year_2026 []) [])))
      as (_ & Hlogin).
    + vm_compute. reflexivity.
    + apply (Hlogin (LoginDTO.mk "alice" "a") Fixtures.alice); vm_compute; reflexivity.
Defined.

Lemma login_token_resolves_user_witness :
  exists token w1,
    authenticate_user Fixtures.pwd_verify Fixtures.jwt Fixtures.auth
      (LoginDTO.mk "alice" "a") Fixtures.world = (inr token, w1)
    /\ get_current_user AuthFixtures.decode AuthFixtures.parse_int Fixtures.auth
         (TokenResponseDTO.access_token token) w1 = (inr Fixtures.alice, w1).
Proof.
  destruct (login_token_resolves_user Fixtures.pwd_verify Fixtures.jwt AuthFixtures.decode
              AuthFixtures.parse_int Fixtures.auth Fixtures.world (LoginDTO.mk "alice" "a")
              Fixtures.alice 1 (5000 + 30 * 60 * 1000000) "1")
    as (_ & token & w1 & Hrun & Htoken & Hcur).
  - vm_compute. reflexivity.
  - vm_compute. reflexivity.
  - reflexivity.
  - reflexivity.
  - vm_compute. reflexivity.
  - vm_compute. reflexivity.
  - vm_compute. reflexivity.
  - exists token, w1. split; [exact Hrun|]. rewrite Htoken.
    assert (Hw1 : w1 = mkWorld Fixtures.store 5000 [UserAuthenticated "alice@example.com"]).
    { vm_compute in Hrun. injection Hrun as _ <-. reflexivity. }
    subst w1.
    apply (Hcur _ [("sub", ClaimStr "1"); ("exp", ClaimInt 1800)]);
      vm_compute; reflexivity.
Defined.

Lemma auth_failures_witness :
  get_current_user (S := InMemory.Store) AuthFixtures.decode AuthFixtures.parse_int
    Fixtures.auth "forged" Fixtures.world
  = (inl (AuthenticationError "Invalid token"), Fixtures.world)
  /\ get_current_user (S := InMemory.Store) AuthFixtures.decode AuthFixtures.parse_int
       Fixtures.auth "1" (mkWorld (InMemory.mkStore [] [] []) 5000 [])
     = (inl (AuthenticationError "User not found"), mkWorld (InMemory.mkStore [] [] []) 5000 []).
Proof.
  split.
  - destruct (auth_failures (S := InMemory.Store) AuthFixtures.decode AuthFixtures.parse_int
                Fixtures.auth Fixtures.world "forged") as (_ & _ & Hforged & _).
    apply Hforged. vm_compute. reflexivity.
  - destruct (auth_failures (S := InMemory.Store) AuthFixtures.decode AuthFixtures.parse_int
                Fixtures.auth (mkWorld (InMemory.mkStore [] [] []) 5000 []) "1")
      as (_ & _ & _ & _ & Hunknown & _).
    apply (Hunknown [("sub", ClaimStr "1"); ("exp", ClaimInt 1800)] (ClaimStr "1") 1);
      vm_compute; reflexivity.
Defined.

(** ** The percentage at its ends, and within its range *)

Lemma filter_all {A : Type} (p : A -> bool) (xs : list A) :
  Forall (fun x => p x = true) xs -> filter p xs = xs.
Proof.
  induction 1 as [|x xs Hx _ IH]; [reflexivity|].
  cbn. now rewrite Hx, IH.
Qed.

Lemma filter_none {A : Type} (p : A -> bool) (xs : list A) :
  Forall (fun x => p x = false) xs -> filter p xs = [].
Proof.
  induction 1 as [|x xs Hx _ IH]; [reflexivity|].
  cbn. now rewrite Hx, IH.
Qed.

Lemma extremes_upto_sound (bound : nat) (n : Z) :
  extremes_upto bound = true ->
  1 <= n <= Z.of_nat bound ->
  PrimFloat.eqb (PrimFloat.mul (truediv n n) 100%float) 100%float = true
  /\ PrimFloat.eqb (PrimFloat.mul (truediv 0 n) 100%float) 0%float = true.
Proof.
  unfold extremes_upto. intros Hall Hn.
  rewrite forallb_forall in Hall.
  assert (Hin : In (Z.to_nat n) (seq 1 bound)) by (apply in_seq; lia).
  specialize (Hall (Z.to_nat n) Hin).
  rewrite Z2Nat.id in Hall by lia.
  now apply andb_true_iff in Hall.
Qed.

Lemma percentages_upto_sound (bound : nat) (k n : Z) :
  percentages_upto bound = true ->
  0 <= k <= n -> 1 <= n <= Z.of_nat bound ->
  is_percentage (PrimFloat.mul (truediv k n) 100%float) = true.
Proof.
  unfold percentages_upto. intros Hall Hk Hn.
  rewrite forallb_forall in Hall.
  assert (Hn' : In (Z.to_nat n) (seq 1 bound)) by (apply in_seq; lia).
  specialize (Hall (Z.to_nat n) Hn').
  rewrite forallb_forall in Hall.
  assert (Hk' : In (Z.to_nat k) (seq 0 (Datatypes.S (Z.to_nat n)))) by (apply in_seq; lia).
  specialize (Hall (Z.to_nat k) Hk').
  rewrite !Z2Nat.id in Hall by lia.
  exact Hall.
Qed.

Lemma extremes_upto_1000 : extremes_upto (Z.to_nat 1000) = true.
Proof. vm_compute. reflexivity. Qed.

Lemma percentages_upto_100 : percentages_upto 100 = true.
Proof. vm_compute. reflexivity. Qed.

(** X16. Rounding does not show at the ends: a list of up to 1000 tasks that
    are all COMPLETED has a percentage equal to [100.0], and one with no
    COMPLETED task a percentage equal to [0.0]. For up to 100 tasks the
    percentage is never below [0.0] nor above [100.0]. *)
Theorem completion_percentage_extremes (l : TaskList.t) :
  (0 < len (TaskList.tasks l) <= 1000 ->
   Forall (fun task => Task.status task = COMPLETED) (TaskList.tasks l) ->
   PrimFloat.eqb (TaskList.calculate_completion_percentage l) 100%float = true)
  /\ (0 < len (TaskList.tasks l) <= 1000 ->
      Forall (fun task => Task.status task <> COMPLETED) (TaskList.tasks l) ->
      PrimFloat.eqb (TaskList.calculate_completion_percentage l) 0%float = true)
  /\ (len (TaskList.tasks l) <= 100 ->
      is_percentage (TaskList.calculate_completion_percentage l) = true).
Proof.
  unfold TaskList.calculate_completion_percentage.
  destruct (TaskList.tasks l) as [|x xs] eqn:E.
  - split; [|split]; intros; try (cbn in *; lia); reflexivity.
  - assert (Hpos : 0 < len (x :: xs)) by (unfold len; cbn [List.length]; lia).
    rewrite <- E in *. clear E. rewrite sum_ones_count. split; [|split].
    + intros Hn Hall. rewrite filter_all.
      * apply (extremes_upto_sound (Z.to_nat 1000)); [exact extremes_upto_1000 | lia].
      * revert Hall. apply Forall_impl. intros task. apply TaskStatus_eqb_eq.
    + intros Hn Hall. rewrite filter_none.
      * apply (extremes_upto_sound (Z.to_nat 1000)); [exact extremes_upto_1000 | lia].
      * revert Hall. apply Forall_impl. intros task. apply TaskStatus_eqb_neq.
    + intros Hn.
      pose proof (len_filter_le (fun task => TaskStatus_eqb (Task.status task) COMPLETED)
                    (TaskList.tasks l)).
      apply (percentages_upto_sound 100); [exact percentages_upto_100 | lia |].
      unfold len in *. lia.
Qed.

Lemma completion_percentage_extremes_witness :
  PrimFloat.eqb
    (TaskList.calculate_completion_percentage
       (TaskList.mk (Some 1) "Groceries" None 1 (Some 2000) None
          [Fixtures.task 1 COMPLETED None None; Fixtures.task 2 COMPLETED None None;
           Fixtures.task 3 COMPLETED None None]))
    100%float = true
  /\ is_percentage (TaskList.calculate_completion_percentage Fixtures.one_of_three) = true.
Proof.
  split.
  - apply (proj1 (completion_percentage_extremes _)).
    + split; vm_compute; [reflexivity | discriminate].
    + repeat constructor.
  - apply (proj2 (proj2 (completion_percentage_extremes Fixtures.one_of_three))).
    vm_compute. discriminate.
Defined.

(** ** Methods of the task entity *)

(** X17. [mark_as_completed] sets the status and [updated_at] and nothing
    else, and [change_priority] the priority and [updated_at] and nothing
    else. A task marked as completed is not overdue at any time, unless its due
    date is aware: then [is_overdue] raises as it did before the marking, the
    comparison coming before the look at the status. Changing the priority
    leaves [is_overdue] as it was. *)
Theorem mark_as_completed_not_overdue (t t' : datetime) (task : Task.t)
    (new_priority : TaskPriority) :
  Task.mark_as_completed t task
  = Task.mk (Task.id task) (Task.title task) (Task.description task) COMPLETED
      (Task.priority task) (Task.task_list_id task) (Task.assigned_to task)
      (Task.created_at task) (Some t) (Task.due_date task)
  /\ Task.change_priority t new_priority task
     = Task.mk (Task.id task) (Task.title task) (Task.description task) (Task.status task)
         new_priority (Task.task_list_id task) (Task.assigned_to task)
         (Task.created_at task) (Some t) (Task.due_date task)
  /\ ((forall d utcoffset, Task.due_date task <> Some (aware d utcoffset)) ->
      Task.is_overdue t' (Task.mark_as_completed t task) = inr false)
  /\ (forall d utcoffset, Task.due_date task = Some (aware d utcoffset) ->
        Task.is_overdue t' (Task.mark_as_completed t task) = inl TypeError
        /\ Task.is_overdue t' task = inl TypeError)
  /\ Task.is_overdue t' (Task.change_priority t new_priority task) = Task.is_overdue t' task.
Proof.
  split; [reflexivity|]. split; [reflexivity|]. split; [|split; [|reflexivity]].
  - intros Hdue. unfold Task.is_overdue. cbn.
    destruct (Task.due_date task) as [[d|d off]|]; cbn; [|now destruct (Hdue d off)|reflexivity].
    now rewrite andb_false_r.
  - intros d off Hd. unfold Task.is_overdue. cbn. now rewrite Hd.
Qed.

Lemma mark_as_completed_not_overdue_witness :
  Task.is_overdue 5000
    (Task.mark_as_completed 4500 (Fixtures.task 7 PENDING None (Some (naive 4000))))
  = inr false
  /\ Task.is_overdue 5000
       (Task.mark_as_completed 4500 (Fixtures.task 7 PENDING None (Some (aware 4000 0))))
     = inl TypeError.
Proof.
  split.
  - apply (proj1 (proj2 (proj2 (mark_as_completed_not_overdue 4500 5000
                                  (Fixtures.task 7 PENDING None (Some (naive 4000))) LOW)))).
    discriminate.
  - apply (proj1 (proj2 (proj2 (proj2 (mark_as_completed_not_overdue 4500 5000
                                  (Fixtures.task 7 PENDING None (Some (aware 4000 0))) LOW))))
             4000 0).
    reflexivity.
Defined.

(** ** What the task readers answer, and what they leave alone *)

Lemma of_task_fields (task : Task.t) (o : Result bool) (a : option UserResponseDTO.t)
    (dto : TaskResponseDTO.t) :
  TaskResponseDTO.of_task task o a = inr dto ->
  Task.id task = Some (TaskResponseDTO.id dto)
  /\ TaskResponseDTO.status dto = Task.status task
  /\ TaskResponseDTO.assigned_to dto = Task.assigned_to task
  /\ TaskResponseDTO.due_date dto = Task.due_date task
  /\ o = inr (TaskResponseDTO.is_overdue dto)
  /\ TaskResponseDTO.assignee dto = a.
Proof.
  unfold TaskResponseDTO.of_task. destruct o as [e|o]; [discriminate|].
  destruct (Task.id task), (Task.created_at task); cbn; try discriminate.
  intros H. injection H as <-. repeat split.
Qed.

Lemma of_user_fields (u : User.t) (dto : UserResponseDTO.t) :
  UserResponseDTO.of_user u = inr dto ->
  User.id u = Some (UserResponseDTO.id dto)
  /\ UserResponseDTO.email dto = User.email u
  /\ UserResponseDTO.username dto = User.username u
  /\ UserResponseDTO.is_active dto = User.is_active u.
Proof.
  unfold UserResponseDTO.of_user.
  destruct (User.id u), (User.created_at u); cbn; try discriminate.
  intros H. injection H as <-. repeat split.
Qed.

Section Readers.

Context {S : Type}.
Context {user_repository : UserRepository.t S}.
Context {task_list_repository : TaskListRepository.t S}.
Context {task_repository : TaskRepository.t S}.

Lemma for_each_task_response_snd (tasks : list Task.t) (w : World S) :
  snd (for_each task_response tasks w) = w.
Proof.
  induction tasks as [|task tasks IH]; [reflexivity|].
  cbn [for_each]. unfold bind at 1. rewrite task_response_run.
  destruct (TaskResponseDTO.of_task task _ None) as [e|dto]; [reflexivity|].
  unfold bind at 1.
  destruct (for_each task_response tasks w) as [[e|dtos] w1]; exact IH.
Qed.

Lemma for_each_task_response_unchanged (tasks : list Task.t) (w w' : World S)
    (r : Result (list TaskResponseDTO.t)) :
  for_each task_response tasks w = (r, w') -> w' = w.
Proof.
  intros H. pose proof (for_each_task_response_snd tasks w) as Hs.
  rewrite H in Hs. exact Hs.
Qed.

Lemma for_each_task_list_response_snd (lists : list TaskList.t) (w : World S) :
  snd (for_each task_list_response lists w) = w.
Proof.
  induction lists as [|l lists IH]; [reflexivity|].
  cbn [for_each]. unfold bind at 1.
  assert (Hone : exists r1, task_list_response l w = (r1, w)).
  { unfold task_list_response. run_step.
    destruct (required (TaskList.id l)); cbn; eauto. }
  destruct Hone as (r1 & ->). destruct r1 as [e|dto]; [reflexivity|].
  unfold bind at 1.
  destruct (for_each task_list_response lists w) as [[e|dtos] w1]; exact IH.
Qed.

Lemma for_each_task_list_response_unchanged (lists : list TaskList.t) (w w' : World S)
    (r : Result (list TaskListResponseDTO.t)) :
  for_each task_list_response lists w = (r, w') -> w' = w.
Proof.
  intros H. pose proof (for_each_task_list_response_snd lists w) as Hs.
  rewrite H in Hs. exact Hs.
Qed.

(** X18. The four readers never write: whatever [get_task_list], [get_task],
    [list_tasks] and [list_user_task_lists] return or raise, the database, the
    clock and the log are left as they were. *)
Theorem readers_never_write (w w' : World S) :
  (forall task_list_id user_id r,
     get_task_list task_list_id user_id w = (r, w') -> w' = w)
  /\ (forall task_id user_id r, get_task task_id user_id w = (r, w') -> w' = w)
  /\ (forall task_list_id filters pagination user_id r,
        list_tasks task_list_id filters pagination user_id w = (r, w') -> w' = w)
  /\ (forall user_id pagination r,
        list_user_task_lists user_id pagination w = (r, w') -> w' = w).
Proof.
  repeat apply conj.
  - intros task_list_id user_id r. unfold get_task_list. run_step.
    destruct (TaskListRepository.get_by_id task_list_id (db w)) as [l|]; cbn; [|congruence].
    destruct (negb (TaskList.owner_id l =? user_id)); cbn; [congruence|].
    destruct (for_each task_response _ w) as [[e|dtos] w1] eqn:E;
      pose proof (for_each_task_response_unchanged _ _ _ _ E); cbn; congruence.
  - intros task_id user_id r. unfold get_task. run_step.
    destruct (TaskRepository.get_by_id task_id (db w)) as [task|]; cbn; [|congruence].
    destruct (TaskListRepository.get_by_id (Task.task_list_id task) (db w)) as [l|]; cbn;
      [|congruence].
    destruct (negb (TaskList.owner_id l =? user_id)
              && negb (opt_int_eqb (Task.assigned_to task) (Some user_id))); cbn;
      [congruence|].
    destruct (truthy_int (Task.assigned_to task)); cbn; [|congruence].
    destruct (required (Task.assigned_to task)) as [e|a]; cbn; [congruence|].
    destruct (UserRepository.get_by_id a (db w)) as [u|]; cbn; [|congruence].
    destruct (UserResponseDTO.of_user u); cbn; congruence.
  - intros task_list_id filters pagination user_id r. unfold list_tasks. run_step.
    destruct (TaskListRepository.get_by_id task_list_id (db w)) as [l|]; cbn; [|congruence].
    destruct (negb (TaskList.owner_id l =? user_id)); cbn; [congruence|].
    destruct (post_filter (now w) filters _) as [e|kept]; cbn; [congruence|].
    apply for_each_task_response_unchanged.
  - intros user_id pagination r. unfold list_user_task_lists. run_step.
    apply for_each_task_list_response_unchanged.
Qed.

(** X19. [get_task] attaches a summary of the assignee when the task names a
    user the repository knows, and none otherwise: for a task without assignee
    or with assignee [0], and for one whose assignee the repository no longer
    has, the task is returned all the same, with [assignee = None]. The
    [is_overdue] flag is the task's at the time of the call. *)
Theorem get_task_embeds_assignee (w : World S) (task_id user_id : Z) (task : Task.t)
    (l : TaskList.t) :
  TaskRepository.get_by_id task_id (db w) = Some task ->
  TaskListRepository.get_by_id (Task.task_list_id task) (db w) = Some l ->
  owner_or_assignee l task user_id ->
  Task_stored task ->
  (forall a u, Task.assigned_to task = Some a -> a <> 0 ->
               UserRepository.get_by_id a (db w) = Some u -> User_stored u ->
               exists dto summary,
                 get_task task_id user_id w = (inr dto, w)
                 /\ TaskResponseDTO.assignee dto = Some summary
                 /\ User.id u = Some (UserResponseDTO.id summary)
                 /\ UserResponseDTO.email summary = User.email u
                 /\ Task.is_overdue (now w) task = inr (TaskResponseDTO.is_overdue dto))
  /\ ((Task.assigned_to task = None \/ Task.assigned_to task = Some 0
       \/ exists a, Task.assigned_to task = Some a
                    /\ UserRepository.get_by_id a (db w) = None) ->
      exists dto,
        get_task task_id user_id w = (inr dto, w)
        /\ TaskResponseDTO.assignee dto = None
        /\ Task.is_overdue (now w) task = inr (TaskResponseDTO.is_overdue dto)).
Proof.
  intros Ht Hl Hok Hst.
  assert (Hrun : get_task task_id user_id w
    = (match (if truthy_int (Task.assigned_to task)
              then match Task.assigned_to task with
                   | Some a =>
                       match UserRepository.get_by_id a (db w) with
                       | Some u =>
                           match UserResponseDTO.of_user u with
                           | inr s => inr (Some s)
                           | inl e => inl e
                           end
                       | None => inr None
                       end
                   | None => inl PydanticValidationError
                   end
              else inr None) with
       | inr assignee =>
           TaskResponseDTO.of_task task (Task.is_overdue (now w) task) assignee
       | inl e => inl e
       end, w)).
  { unfold get_task. run_step. rewrite Ht. cbn. rewrite Hl. cbn.
    rewrite (owner_or_assignee_gate user_id task l Hok). cbn.
    destruct (Task.assigned_to task) as [a|]; cbn; [|reflexivity].
    destruct (a =? 0); cbn; [reflexivity|].
    destruct (UserRepository.get_by_id a (db w)) as [u|]; cbn; [|reflexivity].
    destruct (UserResponseDTO.of_user u); reflexivity. }
  rewrite Hrun. split.
  - intros a u Ha Hnz Hu Hus. rewrite Ha. cbn [truthy_int].
    rewrite (proj2 (Z.eqb_neq a 0) Hnz), Hu. cbn [negb].
    destruct (of_user_stored u Hus) as (summary & Hsum). rewrite Hsum.
    destruct (of_task_stored (now w) task (Some summary) Hst) as (dto & Hdto & _).
    rewrite Hdto. exists dto, summary. split; [reflexivity|].
    destruct (of_task_fields _ _ _ _ Hdto) as (_ & _ & _ & _ & Ho & Has).
    destruct (of_user_fields _ _ Hsum) as (Hid & Hem & _).
    auto.
  - intros Hnone.
    assert (Hnoassignee :
      (if truthy_int (Task.assigned_to task)
       then match Task.assigned_to task with
            | Some a =>
                match UserRepository.get_by_id a (db w) with
                | Some u =>
                    match UserResponseDTO.of_user u with
                    | inr s => inr (Some s)
                    | inl e => inl e
                    end
                | None => inr None
                end
            | None => inl PydanticValidationError
            end
       else inr None) = inr None).
    { destruct Hnone as [-> | [-> | (a & -> & Hu)]]; try reflexivity.
      cbn [truthy_int]. destruct (negb (a =? 0)); [|reflexivity]. now rewrite Hu. }
    rewrite Hnoassignee.
    destruct (of_task_stored (now w) task None Hst) as (dto & Hdto & _).
    rewrite Hdto. exists dto. split; [reflexivity|].
    destruct (of_task_fields _ _ _ _ Hdto) as (_ & _ & _ & _ & Ho & Has). auto.
Qed.

(** X20. With [overdue_only], every task [list_tasks] returns has a naive due
    date before now, a status other than COMPLETED, and its [is_overdue] flag
    set; with a non-zero [assigned_to] filter, every task returned is assigned
    to that user. *)
Theorem list_tasks_filters_hold (w : World S) (task_list_id user_id : Z)
    (filters : TaskFilterDTO.t) (pagination : PaginationDTO.t) (l : TaskList.t) :
  TaskListRepository.get_by_id task_list_id (db w) = Some l ->
  TaskList.owner_id l = user_id ->
  Forall Task_stored
    (TaskRepository.get_by_task_list task_list_id
       (PaginationDTO.skip pagination) (PaginationDTO.limit pagination)
       (TaskFilterDTO.status filters) (TaskFilterDTO.priority filters) (db w)) ->
  exists dtos,
    list_tasks task_list_id filters pagination user_id w = (inr dtos, w)
    /\ (TaskFilterDTO.overdue_only filters = true ->
        Forall (fun dto =>
                  TaskResponseDTO.is_overdue dto = true
                  /\ TaskResponseDTO.status dto <> COMPLETED
                  /\ exists d, TaskResponseDTO.due_date dto = Some (naive d) /\ d < now w)
               dtos)
    /\ (forall a, TaskFilterDTO.assigned_to filters = Some a -> a <> 0 ->
                  Forall (fun dto => TaskResponseDTO.assigned_to dto = Some a) dtos).
Proof.
  intros Hl Ho Hst.
  destruct (list_tasks_owner w task_list_id user_id filters pagination l Hl Ho Hst)
    as (kept & dtos & Hkept & Hrun & Hall).
  exists dtos. split; [exact Hrun|].
  assert (Hin : forall task, In task kept ->
            (TaskFilterDTO.overdue_only filters = true ->
             Task.is_overdue (now w) task = inr true)
            /\ (truthy_int (TaskFilterDTO.assigned_to filters) = true ->
                Task.assigned_to task = TaskFilterDTO.assigned_to filters)).
  { intros task Hi. apply (post_filter_In _ _ _ _ task Hkept) in Hi. tauto. }
  clear Hkept Hrun. split.
  - intros Hov. induction Hall as [|task dto ts ds Hdto _ IH]; constructor.
    + destruct (of_task_fields _ _ _ _ Hdto) as (_ & Hs & _ & Hd & Hf & _).
      pose proof (proj1 (Hin task (or_introl eq_refl)) Hov) as Hover.
      rewrite Hs, Hd. split; [congruence|].
      apply is_overdue_true in Hover.
      destruct Hover as (d & Hdue & Hlt & Hne). split; [exact Hne|]. eauto.
    + apply IH. intros t Ht. apply Hin. now right.
  - intros a Ha Hnz.
    assert (Htruthy : truthy_int (TaskFilterDTO.assigned_to filters) = true).
    { rewrite Ha. cbn. now rewrite (proj2 (Z.eqb_neq a 0) Hnz). }
    induction Hall as [|task dto ts ds Hdto _ IH]; constructor.
    + destruct (of_task_fields _ _ _ _ Hdto) as (_ & _ & Has & _).
      rewrite Has, <- Ha. apply (Hin task (or_introl eq_refl)). exact Htruthy.
    + apply IH. intros t Ht. apply Hin. now right.
Qed.

End Readers.

Lemma readers_never_write_witness :
  snd (get_task 2 2 Fixtures.world) = Fixtures.world
  /\ snd (list_tasks 1 (TaskFilterDTO.mk None None None false) (PaginationDTO.mk 0 100) 1
            Fixtures.world) = Fixtures.world.
Proof.
  split.
  - destruct (get_task 2 2 Fixtures.world) as [r w'] eqn:Hrun.
    exact (proj1 (proj2 (readers_never_write Fixtures.world w')) 2 2 r Hrun).
  - destruct (list_tasks 1 (TaskFilterDTO.mk None None None false) (PaginationDTO.mk 0 100) 1
                Fixtures.world) as [r w'] eqn:Hrun.
    exact (proj1 (proj2 (proj2 (readers_never_write Fixtures.world w'))) _ _ _ _ r Hrun).
Defined.

Lemma get_task_embeds_assignee_witness :
  exists dto summary,
    get_task 2 1 Fixtures.world = (inr dto, Fixtures.world)
    /\ TaskResponseDTO.assignee dto = Some summary
    /\ UserResponseDTO.email summary = "bob@example.com".
Proof.
  assert (Ht : TaskRepository.get_by_id 2 (db Fixtures.world)
               = Some (Fixtures.task 2 PENDING (Some 2) None)) by (vm_compute; reflexivity).
  assert (Hl : TaskListRepository.get_by_id
                 (Task.task_list_id (Fixtures.task 2 PENDING (Some 2) None))
                 (db Fixtures.world) = Some Fixtures.groceries) by (vm_compute; reflexivity).
  assert (Hok : owner_or_assignee Fixtures.groceries
                  (Fixtures.task 2 PENDING (Some 2) None) 1) by (left; reflexivity).
  assert (Hst : Task_stored (Fixtures.task 2 PENDING (Some 2) None))
    by (repeat split; discriminate).
  destruct (proj1 (get_task_embeds_assignee Fixtures.world 2 1
                     (Fixtures.task 2 PENDING (Some 2) None) Fixtures.groceries
                     Ht Hl Hok Hst)
              2 Fixtures.bob)
    as (dto & summary & Hrun & Has & _ & Hem & _).
  - reflexivity.
  - lia.
  - vm_compute. reflexivity.
  - split; discriminate.
  - exists dto, summary. split; [exact Hrun|]. split; [exact Has | exact Hem].
Defined.

Lemma list_tasks_filters_hold_witness :
  exists dtos,
    list_tasks 1 (TaskFilterDTO.mk None None None true) (PaginationDTO.mk 0 100) 1
      overdue_world = (inr dtos, overdue_world)
    /\ Forall (fun dto => TaskResponseDTO.is_overdue dto = true
                          /\ TaskResponseDTO.status dto <> COMPLETED
                          /\ exists d, TaskResponseDTO.due_date dto = Some (naive d)
                                       /\ d < 5000)
              dtos.
Proof.
  destruct (list_tasks_filters_hold overdue_world 1 1
              (TaskFilterDTO.mk None None None true) (PaginationDTO.mk 0 100)
              Fixtures.groceries) as (dtos & Hrun & Hov & _).
  - vm_compute. reflexivity.
  - reflexivity.
  - vm_compute. repeat constructor; discriminate.
  - exists dtos. split; [exact Hrun|]. apply Hov. reflexivity.
Defined.

Lemma create_task_failures_witness :
  create_task (notification_service := NotificationService true)
    1 (TaskCreateDTO.mk "Eggs" None 1 MEDIUM (Some 77) None) 1 Fixtures.world
  = (inl (UserNotFoundError 77), Fixtures.world)
  /\ status_of (UserNotFoundError 77) = Some 404
  /\ create_task (notification_service := NotificationService true)
       1 (TaskCreateDTO.mk "Eggs" None 1 MEDIUM (Some 3) None) 1 Fixtures.world
     = (inl (TaskAssignmentError "Cannot assign task to inactive user"), Fixtures.world)
  /\ status_of (TaskAssignmentError "Cannot assign task to inactive user") = Some 409.
Proof.
  destruct (proj2 (create_task_failures true Fixtures.world 1 1
                     (TaskCreateDTO.mk "Eggs" None 1 MEDIUM (Some 77) None))
              Fixtures.groceries) as (_ & Hunknown & _); [vm_compute; reflexivity|].
  destruct (proj2 (create_task_failures true Fixtures.world 1 1
                     (TaskCreateDTO.mk "Eggs" None 1 MEDIUM (Some 3) None))
              Fixtures.groceries) as (_ & _ & Hinactive); [vm_compute; reflexivity|].
  destruct (Hunknown 77) as (Hrun1 & Hs1);
    [reflexivity | reflexivity | lia | vm_compute; reflexivity |].
  destruct (Hinactive 3 Fixtures.carol) as (Hrun2 & Hs2);
    [reflexivity | reflexivity | lia | vm_compute; reflexivity | reflexivity |].
  repeat split; assumption.
Defined.

Lemma task_list_failures_witness :
  delete_task_list 1 2 Fixtures.world = (inl no_access_to_list, Fixtures.world)
  /\ status_of no_access_to_list = Some 403
  /\ get_task_list 1 1
       (mkWorld
          (InMemory.mkStore [Fixtures.alice] [Fixtures.groceries]
             [Fixtures.task 1 PENDING None None;
              Fixtures.task 2 COMPLETED None (Some (aware 4000 0))])
          5000 [])
     = (inl TypeError,
        mkWorld
          (InMemory.mkStore [Fixtures.alice] [Fixtures.groceries]
             [Fixtures.task 1 PENDING None None;
              Fixtures.task 2 COMPLETED None (Some (aware 4000 0))])
          5000 []).
Proof.
  split; [|split].
  - destruct (proj1 (proj2 (task_list_failures Fixtures.world 1 2
                              (TaskListUpdateDTO.mk None None)))
                Fixtures.groceries) as (_ & _ & Hdel & _).
    + vm_compute. reflexivity.
    + discriminate.
    + exact Hdel.
  - reflexivity.
  - refine (proj1 (proj2 (proj2 (task_list_failures _ 1 1 (TaskListUpdateDTO.mk None None)))
                     Fixtures.groceries [Fixtures.task 1 PENDING None None]
                     (Fixtures.task 2 COMPLETED None (Some (aware 4000 0))) [] 4000 0
                     _ _ _ _ _)).
    + vm_compute. reflexivity.
    + reflexivity.
    + vm_compute. reflexivity.
    + repeat constructor; discriminate.
    + reflexivity.
Defined.
